(** * gitclaw: the Solana monitor and query agents

    A shallow embedding of [src/agents/solana_monitor.py] and
    [src/agents/solana_query.py], and the properties of the change
    detection, the snapshot store, the balance query and the network
    status that the specification states; then the rest of the two
    programs (the query handlers, the watchlist, the report and a sweep
    of the monitor) with the properties the code shows.

    - Python values are a universe [pyval] of JSON-like data; a dict is an
      association list in insertion order, read with [Py.get] and
      [Py.getitem].
    - A Python exception is the [Raise] side of [result]; the functions
      are written in the error monad, [try]/[except] as a handler.
    - A Python [float] is an IEEE-754 binary64 number, [spec_float] at
      precision 53 with the operations of [SpecFloat]; [float(s)] and
      [format(x, ".4f")] are computed exactly on integers.
    - The snapshot directory is a finite map from file names to files; a
      file is given by the value its text decodes to.
    - The network, the environment and the clock are the fields of a
      [world]. *)

From Stdlib Require Import ZArith Ascii String List Bool DecimalString.
From Stdlib Require Import Floats.SpecFloat.
From stdpp Require Import base option list gmap strings sorting.

Local Open Scope Z_scope.
Local Set Warnings "-register-all".

(** ** Binary64 arithmetic, as Python's [float] *)

Module F64.

Definition prec : Z := 53.
Definition emax : Z := 1024.

Definition add := SFadd prec emax.
Definition sub := SFsub prec emax.
Definition mul := SFmul prec emax.
Definition div := SFdiv prec emax.
Definition abs := SFabs.
Definition ltb := SFltb.
Definition eqb := SFeqb.

Definition pzero : spec_float := S754_zero false.

Definition is_zero (x : spec_float) : bool :=
  match x with S754_zero _ => true | _ => false end.

Definition is_inf (x : spec_float) : bool :=
  match x with S754_infinity _ => true | _ => false end.

(** [float(n)] for a Python int: round to nearest, ties to even. The
    caller turns an infinite result into [OverflowError]. *)
Definition of_Z (z : Z) : spec_float := binary_normalize prec emax z 0 false.

(** The correctly rounded quotient of two integers, [d <> 0]: Python's
    [int / int], and the value of a decimal literal with a negative
    exponent. A zero numerator takes the sign of the quotient. *)
Definition of_ratio (n d : Z) : spec_float :=
  let neg := xorb (n <? 0) (d <? 0) in
  match Z.abs n, Z.abs d with
  | Z.pos pn, Z.pos pd =>
      div (S754_finite neg pn 0) (S754_finite false pd 0)
  | Z0, _ => S754_zero (d <? 0)
  | _, _ => S754_nan
  end.

(** [m * 10^e] correctly rounded, the value of the decimal literal with
    digits [m] and exponent [e]. *)
Definition of_decimal (neg : bool) (m : Z) (e : Z) : spec_float :=
  if m =? 0 then S754_zero neg
  else if 0 <=? e then
    binary_normalize prec emax ((if neg then - m else m) * 10 ^ e) 0 false
  else of_ratio (if neg then - m else m) (10 ^ (- e)).

(** *** Fixed-point formatting: [format(x, ".<d>f")] *)

Definition digits_of_Z (z : Z) : string :=
  NilZero.string_of_uint (N.to_uint (Z.to_N z)).

Fixpoint zeros (n : nat) : string :=
  match n with O => "" | S n' => String "0" (zeros n') end.

(** The digits of a non-negative integer [r], read as [r / 10^d]. *)
Definition fixed_digits (d : nat) (r : Z) : string :=
  let s := digits_of_Z r in
  let s := zeros (S d - String.length s) +:+ s in
  let k := (String.length s - d)%nat in
  match d with
  | O => s
  | _ => substring 0 k s +:+ "." +:+ substring k d s
  end.

(** [m * 2^e * 10^d] rounded to an integer, ties to even. *)
Definition scaled_round (d : nat) (m : positive) (e : Z) : Z :=
  let n := Z.pos m * 10 ^ Z.of_nat d in
  if 0 <=? e then n * 2 ^ e
  else
    let den := 2 ^ (- e) in
    let q := n / den in
    let r := n mod den in
    match 2 * r ?= den with
    | Lt => q
    | Gt => q + 1
    | Eq => if Z.even q then q else q + 1
    end.

Definition format_f (d : nat) (x : spec_float) : string :=
  match x with
  | S754_nan => "nan"
  | S754_infinity s => if s then "-inf" else "inf"
  | S754_zero s => (if s then "-" else "") +:+ fixed_digits d 0
  | S754_finite s m e =>
      (if s then "-" else "") +:+ fixed_digits d (scaled_round d m e)
  end.

(** *** Parsing: [float(s)] for an ASCII string

    The string is stripped of ASCII white space, underscores between
    digits are dropped, and what is left is an optional sign followed by
    [inf], [infinity], [nan] (in any case) or by a decimal literal
    [digits [. digits] [e [sign] digits]] with at least one digit in the
    mantissa. *)

Definition code (c : ascii) : Z := Z.of_N (N_of_ascii c).

Definition isspace (c : ascii) : bool :=
  ((9 <=? code c) && (code c <=? 13)) || (code c =? 32).

Definition isdigit (c : ascii) : bool :=
  (48 <=? code c) && (code c <=? 57).

Definition lower (c : ascii) : ascii :=
  if (65 <=? code c) && (code c <=? 90)
  then ascii_of_N (N_of_ascii c + 32) else c.

Definition is_ascii (s : string) : bool :=
  forallb (fun c => code c <? 128) (list_ascii_of_string s).

Fixpoint lstrip (cs : list ascii) : list ascii :=
  match cs with
  | c :: cs' => if isspace c then lstrip cs' else cs
  | [] => []
  end.

Definition strip (cs : list ascii) : list ascii :=
  rev (lstrip (rev (lstrip cs))).

(** Underscores are allowed only after a digit and before a digit;
    [prev] is the character before [cs]. *)
Fixpoint drop_underscores (prev : option ascii) (cs : list ascii)
  : option (list ascii) :=
  match cs with
  | [] =>
      match prev with
      | Some "_"%char => None
      | _ => Some []
      end
  | c :: cs' =>
      if Ascii.eqb c "_" then
        match prev with
        | Some p => if isdigit p then drop_underscores (Some c) cs' else None
        | None => None
        end
      else
        match prev with
        | Some "_"%char =>
            if isdigit c then cons c <$> drop_underscores (Some c) cs'
            else None
        | _ => cons c <$> drop_underscores (Some c) cs'
        end
  end.

Definition take_sign (cs : list ascii) : bool * list ascii :=
  match cs with
  | "-"%char :: cs' => (true, cs')
  | "+"%char :: cs' => (false, cs')
  | _ => (false, cs)
  end.

(** Reads a run of digits: the value accumulated on top of [acc], the
    number of digits read on top of [n], and the rest. *)
Fixpoint take_digits (acc : Z) (n : nat) (cs : list ascii)
  : Z * nat * list ascii :=
  match cs with
  | c :: cs' =>
      if isdigit c then take_digits (10 * acc + (code c - 48)) (S n) cs'
      else (acc, n, cs)
  | [] => (acc, n, [])
  end.

Definition take_exponent (cs : list ascii) : Z * list ascii :=
  match cs with
  | c :: cs' =>
      if Ascii.eqb (lower c) "e" then
        let '(eneg, cs1) := take_sign cs' in
        let '(ev, ne, cs2) := take_digits 0 0 cs1 in
        match ne with
        | O => (0, cs)
        | _ => (if eneg then - ev else ev, cs2)
        end
      else (0, cs)
  | [] => (0, [])
  end.

Definition parse_decimal (neg : bool) (cs : list ascii) : option spec_float :=
  let '(ip, ni, cs1) := take_digits 0 0 cs in
  let '(m, nf, cs2) :=
    match cs1 with
    | "."%char :: cs' => take_digits ip 0 cs'
    | _ => (ip, O, cs1)
    end in
  match (ni + nf)%nat with
  | O => None
  | _ =>
      let '(ex, cs3) := take_exponent cs2 in
      match cs3 with
      | [] => Some (of_decimal neg m (ex - Z.of_nat nf))
      | _ => None
      end
  end.

Definition parse_inf_or_nan (neg : bool) (cs : list ascii) : option spec_float :=
  let w := string_of_list_ascii (map lower cs) in
  if String.eqb w "inf" || String.eqb w "infinity" then Some (S754_infinity neg)
  else if String.eqb w "nan" then Some S754_nan
  else None.

Definition of_string (s : string) : option spec_float :=
  match drop_underscores None (strip (list_ascii_of_string s)) with
  | None => None
  | Some cs =>
      let '(neg, body) := take_sign cs in
      match parse_decimal neg body with
      | Some x => Some x
      | None => parse_inf_or_nan neg body
      end
  end.

End F64.

(** ** Python values, exceptions and the built-ins the agents use *)

(** The values the agents handle: what [json.loads] returns and what the
    agents build themselves. A dict keeps its items in insertion order. *)
Inductive pyval : Type :=
| PNone
| PBool (b : bool)
| PInt (z : Z)
| PFloat (f : spec_float)
| PStr (s : string)
| PList (l : list pyval)
| PDict (d : list (string * pyval)).

(** The exceptions that can arise. [NotModelled] marks the inputs this
    embedding does not cover (non-string dict keys, non-ASCII number
    strings, [str()] of a value that is not a string or an int): nothing
    is claimed about the program there. *)
Inductive exn : Type :=
| KeyError
| IndexError
| TypeError
| ValueError
| AttributeError
| OverflowError
| ZeroDivisionError
| JSONDecodeError
| NotModelled.

Inductive result (A : Type) : Type :=
| Ok (a : A)
| Raise (e : exn).
Arguments Ok {A} a.
Arguments Raise {A} e.

Definition bind {A B} (r : result A) (k : A -> result B) : result B :=
  match r with
  | Ok a => k a
  | Raise e => Raise e
  end.

Notation "'let*' x ':=' r 'in' k" := (bind r (fun x => k))
  (at level 10, x pattern, r at level 100, k at level 200).

(** [for x in xs: s = body(s, x)], stopping at the first exception. *)
Fixpoint for_each {A S} (body : S -> A -> result S) (xs : list A) (s : S)
  : result S :=
  match xs with
  | [] => Ok s
  | x :: xs' => let* s' := body s x in for_each body xs' s'
  end.

Module Py.

Fixpoint dict_find (k : string) (d : list (string * pyval)) : option pyval :=
  match d with
  | [] => None
  | (k', v) :: d' => if String.eqb k k' then Some v else dict_find k d'
  end.

(** [v[k]] for a string literal [k]. *)
Definition getitem (v : pyval) (k : string) : result pyval :=
  match v with
  | PDict d =>
      match dict_find k d with
      | Some x => Ok x
      | None => Raise KeyError
      end
  | _ => Raise TypeError
  end.

(** [v.get(k, default)]. *)
Definition get (v : pyval) (k : string) (default : pyval) : result pyval :=
  match v with
  | PDict d => Ok (from_option id default (dict_find k d))
  | _ => Raise AttributeError
  end.

Definition is_none (v : pyval) : bool :=
  match v with PNone => true | _ => false end.

(** Truth value testing. *)
Definition truthy (v : pyval) : bool :=
  match v with
  | PNone => false
  | PBool b => b
  | PInt z => negb (z =? 0)
  | PFloat f => negb (F64.is_zero f)
  | PStr s => negb (String.eqb s "")
  | PList l => match l with [] => false | _ => true end
  | PDict d => match d with [] => false | _ => true end
  end.

(** [a or b]. *)
Definition or_ (a b : pyval) : pyval := if truthy a then a else b.

(** *** Numbers: [int] (with [bool]) and [float] *)

Inductive num : Type :=
| NInt (z : Z)
| NFloat (f : spec_float).

Definition as_num (v : pyval) : result num :=
  match v with
  | PInt z => Ok (NInt z)
  | PBool b => Ok (NInt (if b then 1 else 0))
  | PFloat f => Ok (NFloat f)
  | _ => Raise TypeError
  end.

Definition to_float (n : num) : result spec_float :=
  match n with
  | NFloat f => Ok f
  | NInt z =>
      let f := F64.of_Z z in
      if F64.is_inf f then Raise OverflowError else Ok f
  end.

(** [a - b]. *)
Definition sub (a b : pyval) : result pyval :=
  let* x := as_num a in
  let* y := as_num b in
  match x, y with
  | NInt p, NInt q => Ok (PInt (p - q))
  | _, _ =>
      let* fx := to_float x in
      let* fy := to_float y in
      Ok (PFloat (F64.sub fx fy))
  end.

(** [a / b]: true division, always a float. *)
Definition truediv (a b : pyval) : result pyval :=
  let* x := as_num a in
  let* y := as_num b in
  match x, y with
  | NInt p, NInt q =>
      if q =? 0 then Raise ZeroDivisionError
      else
        let f := F64.of_ratio p q in
        if F64.is_inf f then Raise OverflowError else Ok (PFloat f)
  | _, _ =>
      let* fx := to_float x in
      let* fy := to_float y in
      if F64.is_zero fy then Raise ZeroDivisionError
      else Ok (PFloat (F64.div fx fy))
  end.

(** [a // b] on ints: the floor of the quotient. *)
Definition floordiv (a b : pyval) : result pyval :=
  let* x := as_num a in
  let* y := as_num b in
  match x, y with
  | NInt p, NInt q =>
      if q =? 0 then Raise ZeroDivisionError else Ok (PInt (p / q))
  | _, _ => Raise NotModelled
  end.

(** [a * k] for an int literal [k]. *)
Definition mul_int (a : pyval) (k : Z) : result pyval :=
  match a with
  | PStr _ | PList _ => Raise NotModelled
  | _ =>
      let* x := as_num a in
      match x with
      | NInt p => Ok (PInt (p * k))
      | NFloat f => Ok (PFloat (F64.mul f (F64.of_Z k)))
      end
  end.

(** [abs(a)]. *)
Definition abs (a : pyval) : result pyval :=
  let* x := as_num a in
  match x with
  | NInt p => Ok (PInt (Z.abs p))
  | NFloat f => Ok (PFloat (F64.abs f))
  end.

(** [a > k] for a small int literal [k] (exactly a float). *)
Definition gt_int (a : pyval) (k : Z) : result bool :=
  let* x := as_num a in
  match x with
  | NInt p => Ok (k <? p)
  | NFloat f => Ok (F64.ltb (F64.of_Z k) f)
  end.

(** [float(v)]. *)
Definition float_ (v : pyval) : result spec_float :=
  match v with
  | PStr s =>
      if F64.is_ascii s then
        match F64.of_string s with
        | Some f => Ok f
        | None => Raise ValueError
        end
      else Raise NotModelled
  | PNone | PList _ | PDict _ => Raise TypeError
  | _ => let* x := as_num v in to_float x
  end.

(** [format(v, ".<d>f")], the [{v:.<d>f}] of an f-string. *)
Definition format_f (d : nat) (v : pyval) : result string :=
  match v with
  | PStr _ => Raise ValueError
  | _ =>
      let* x := as_num v in
      let* f := to_float x in
      Ok (F64.format_f d f)
  end.

Definition str_of_Z (z : Z) : string :=
  (if z <? 0 then "-" else "") +:+ F64.digits_of_Z (Z.abs z).

(** [str(v)], the [{v}] of an f-string. *)
Definition str_ (v : pyval) : result string :=
  match v with
  | PStr s => Ok s
  | PInt z => Ok (str_of_Z z)
  | PBool b => Ok (if b then "True" else "False")
  | PNone => Ok "None"
  | _ => Raise NotModelled
  end.

(** Digits in groups of three from the right. *)
Fixpoint group3 (n : nat) (rev_digits : list ascii) : list ascii :=
  match rev_digits with
  | [] => []
  | c :: cs =>
      match n, cs with
      | 2%nat, _ :: _ => c :: ","%char :: group3 0 cs
      | _, _ => c :: group3 (S n) cs
      end
  end.

Definition commas (z : Z) : string :=
  (if z <? 0 then "-" else "") +:+
  string_of_list_ascii
    (rev (group3 0 (rev (list_ascii_of_string (F64.digits_of_Z (Z.abs z)))))).

(** [format(v, ",")] for an int. *)
Definition format_commas (v : pyval) : result string :=
  match v with
  | PStr _ => Raise ValueError
  | PFloat _ => Raise NotModelled
  | _ =>
      let* x := as_num v in
      match x with
      | NInt z => Ok (commas z)
      | NFloat _ => Raise NotModelled
      end
  end.

(** The hash key of a dict key; only strings are covered. *)
Definition key (v : pyval) : result string :=
  match v with
  | PStr s => Ok s
  | PList _ | PDict _ => Raise TypeError
  | _ => Raise NotModelled
  end.

(** [for x in v]: the items iterated over. *)
Definition iter (v : pyval) : result (list pyval) :=
  match v with
  | PList l => Ok l
  | PDict d => Ok (map (fun kv => PStr (fst kv)) d)
  | PStr s =>
      if F64.is_ascii s
      then Ok (map (fun c => PStr (String c "")) (list_ascii_of_string s))
      else Raise NotModelled
  | _ => Raise TypeError
  end.

(** [v[:n]]. *)
Definition slice_to (n : nat) (v : pyval) : result pyval :=
  match v with
  | PStr s =>
      if F64.is_ascii s then Ok (PStr (substring 0 n s))
      else Raise NotModelled
  | PList l => Ok (PList (take n l))
  | PDict _ => Raise NotModelled
  | _ => Raise TypeError
  end.

End Py.

(** ** The outside world: environment, network and clock *)

Record datetime : Type := {
  year : Z; month : Z; day : Z;
  hour : Z; minute : Z; second : Z; microsecond : Z
}.

(** Decimal digits of [z], zero-padded on the left to [width]. *)
Definition pad (width : nat) (z : Z) : string :=
  let s := F64.digits_of_Z z in
  F64.zeros (width - String.length s) +:+ s.

(** [dt.strftime("%Y%m%d-%H%M")] for a UTC time of the years 1000-9999. *)
Definition strftime_minute (dt : datetime) : string :=
  pad 4 (year dt) +:+ pad 2 (month dt) +:+ pad 2 (day dt) +:+ "-" +:+
  pad 2 (hour dt) +:+ pad 2 (minute dt).

(** [dt.isoformat()] for a UTC-aware time. *)
Definition isoformat (dt : datetime) : string :=
  pad 4 (year dt) +:+ "-" +:+ pad 2 (month dt) +:+ "-" +:+ pad 2 (day dt) +:+
  "T" +:+ pad 2 (hour dt) +:+ ":" +:+ pad 2 (minute dt) +:+ ":" +:+
  pad 2 (second dt) +:+
  (if microsecond dt =? 0 then "" else "." +:+ pad 6 (microsecond dt)) +:+
  "+00:00".

Record request : Type := {
  req_url : string;
  req_method : string;
  req_data : option pyval
}.

(** Why [urlopen] or the decoding of its body raised. *)
Inductive failure : Type :=
| Unreachable
| Timeout
| HttpStatus
| NotJson.

(** What [json.loads(urlopen(req, timeout=15).read())] comes to: the value
    decoded from the body, or an exception of some kind whose [str()] is
    the message. *)
Inductive reply : Type :=
| Replied (v : pyval)
| Failed (why : failure) (msg : string).

Record world : Type := {
  environ : gmap string string;
  net : request -> reply;
  (** the successive readings of [datetime.now(timezone.utc)] *)
  clock : nat -> datetime;
  (** [str(e)] of a caught exception *)
  exn_str : exn -> string
}.

Definition nl : string := String (ascii_of_nat 10) "".

(** ** solana_query.py *)

Definition DEXSCREENER_API : string := "https://api.dexscreener.com".
Definition LAMPORTS_PER_SOL : Z := 1000000000.

Definition environ_get (w : world) (k default : string) : string :=
  from_option id default (environ w !! k).

Definition get_solana_rpc (w : world) : string :=
  let custom_rpc := environ_get w "SOLANA_RPC_URL" "" in
  if negb (String.eqb custom_rpc "") then custom_rpc
  else
    let network := environ_get w "SOLANA_NETWORK" "mainnet-beta" in
    if String.eqb network "devnet" then "https://api.devnet.solana.com"
    else "https://api.mainnet-beta.solana.com".

(** [urllib.request.Request(url)]: the URL is unwrapped, cut at its last
    [#], and must then begin with a type, one character or more other
    than [/] and [:] followed by [:]; otherwise [ValueError] is raised.
    The embedding covers ASCII URLs without square brackets, in which the
    library goes on to look for an IPv6 address. *)
Module Url.

(** [c.isspace()] for an ASCII character. *)
Definition isspace (c : ascii) : bool :=
  let n := F64.code c in
  ((9 <=? n) && (n <=? 13)) || ((28 <=? n) && (n <=? 32)).

Fixpoint lstrip (cs : list ascii) : list ascii :=
  match cs with
  | c :: cs' => if isspace c then lstrip cs' else cs
  | [] => []
  end.

(** [url.strip()]. *)
Definition strip (cs : list ascii) : list ascii :=
  rev (lstrip (rev (lstrip cs))).

(** [if url[:1] == '<' and url[-1:] == '>': url = url[1:-1].strip()]. *)
Definition unbracket (cs : list ascii) : list ascii :=
  match cs with
  | "<"%char :: rest =>
      match rev rest with
      | ">"%char :: inner => strip (rev inner)
      | _ => cs
      end
  | _ => cs
  end.

(** [if url[:4] == 'URL:': url = url[4:].strip()]. *)
Definition unprefix (cs : list ascii) : list ascii :=
  match cs with
  | "U"%char :: "R"%char :: "L"%char :: ":"%char :: rest => strip rest
  | _ => cs
  end.

(** [urllib.parse.unwrap]. *)
Definition unwrap (cs : list ascii) : list ascii :=
  unprefix (unbracket (strip cs)).

(** What precedes the last [#], if there is one. *)
Fixpoint before_last_hash (cs : list ascii) : option (list ascii) :=
  match cs with
  | [] => None
  | c :: cs' =>
      match before_last_hash cs' with
      | Some before => Some (c :: before)
      | None => if Ascii.eqb c "#" then Some [] else None
      end
  end.

(** The first component of [_splittag]: [url.rpartition('#')]. *)
Definition splittag (cs : list ascii) : list ascii :=
  from_option id cs (before_last_hash cs).

(** The characters go on without [/] up to a [:]. *)
Fixpoint reaches_colon (cs : list ascii) : bool :=
  match cs with
  | [] => false
  | c :: cs' =>
      if Ascii.eqb c ":" then true
      else if Ascii.eqb c "/" then false
      else reaches_colon cs'
  end.

(** [_splittype] finds a type: a character or more, none of them [/] or
    [:], and then a [:]. *)
Definition has_type (cs : list ascii) : bool :=
  match cs with
  | [] => false
  | c :: cs' =>
      negb (Ascii.eqb c ":") && negb (Ascii.eqb c "/") && reaches_colon cs'
  end.

Definition covered (url : string) : bool :=
  F64.is_ascii url &&
  forallb (fun c => negb (Ascii.eqb c "[" || Ascii.eqb c "]"))
    (list_ascii_of_string url).

(** The construction of the request. *)
Definition request (url : string) : result unit :=
  if negb (covered url) then Raise NotModelled
  else if has_type (splittag (unwrap (list_ascii_of_string url))) then Ok tt
  else Raise ValueError.

End Url.

(** What [urlopen] and the decoding of the body come to, inside the
    [try]: the value decoded, or [{"error": str(e)}]. *)
Definition fetch_reply (w : world) (url method : string) (data : option pyval)
  : pyval :=
  match net w {| req_url := url; req_method := method; req_data := data |} with
  | Replied v => v
  | Failed _ msg => PDict [("error", PStr msg)]
  end.

(** The request is built before the [try]. *)
Definition fetch_json (w : world) (url method : string) (data : option pyval)
  : result pyval :=
  let* req := Url.request url in
  Ok (fetch_reply w url method data).

(** [urllib.request.quote]: every byte but letters, digits and [_.-~/] is
    percent-encoded. *)
Definition hex_digit (n : Z) : ascii :=
  ascii_of_N (Z.to_N (if n <? 10 then 48 + n else 55 + n)).

Definition quote_char (c : ascii) : string :=
  let n := F64.code c in
  if F64.isdigit c || ((65 <=? n) && (n <=? 90)) || ((97 <=? n) && (n <=? 122))
     || existsb (Ascii.eqb c) ["_"; "."; "-"; "~"; "/"]%char
  then String c ""
  else String "%" (String (hex_digit (n / 16)) (String (hex_digit (n mod 16)) "")).

Definition quote (s : string) : string :=
  String.concat "" (map quote_char (list_ascii_of_string s)).

Definition dex_search (w : world) (query : string) : result pyval :=
  fetch_json w (DEXSCREENER_API +:+ "/latest/dex/search?q=" +:+ quote query)
    "GET" None.

Definition rpc_call (w : world) (method : string) (params : list pyval)
  : result pyval :=
  let payload :=
    PDict [("jsonrpc", PStr "2.0"); ("id", PInt 1);
           ("method", PStr method); ("params", PList params)] in
  fetch_json w (get_solana_rpc w) "POST" (Some payload).

Definition get_balance (w : world) (pubkey : pyval) : result pyval :=
  let* result := rpc_call w "getBalance" [pubkey] in
  let* r := Py.get result "result" (PDict []) in
  let* lamports := Py.get r "value" (PInt 0) in
  Py.truediv lamports (PInt LAMPORTS_PER_SOL).

Definition get_latest_blockhash (w : world) : result pyval :=
  let* result := rpc_call w "getLatestBlockhash" [] in
  let* r := Py.get result "result" (PDict []) in
  let* v := Py.get r "value" (PDict []) in
  Py.get v "blockhash" (PStr "").

Definition get_network_performance (w : world) (limit : Z) : result pyval :=
  let* result := rpc_call w "getRecentPerformanceSamples" [PInt limit] in
  Py.get result "result" (PList []).

Definition get_slot (w : world) : result pyval :=
  let* result := rpc_call w "getSlot" [] in
  Py.get result "result" (PInt 0).

(** The figures of one performance sample: [txs] and [tps]. *)
Definition sample_tps (sample : pyval) : result (pyval * pyval) :=
  let* txs := Py.get sample "numTransactions" (PInt 0) in
  let* period := Py.get sample "samplePeriodSecs" (PInt 1) in
  let* positive := Py.gt_int period 0 in
  let* tps := if positive then Py.floordiv txs period else Ok (PInt 0) in
  Ok (txs, tps).

(** The body of [for sample in perf[:3]]. *)
Definition perf_line (lines : list string) (sample : pyval)
  : result (list string) :=
  let* (txs, tps) := sample_tps sample in
  let* slot := Py.get sample "slot" (PStr "?") in
  let* slot_s := Py.str_ slot in
  let* tps_s := Py.str_ tps in
  let* txs_s := Py.format_commas txs in
  Ok (lines ++ ["- Slot " +:+ slot_s +:+ ": " +:+ tps_s +:+ " TPS (" +:+
                txs_s +:+ " txs)" +:+ nl]).

Definition handle_network (w : world) : result string :=
  let* slot := get_slot w in
  let* blockhash := get_latest_blockhash w in
  let* perf := get_network_performance w 3 in
  let* slot_s := Py.format_commas slot in
  let* bh16 := Py.slice_to 16 blockhash in
  let* bh_s := Py.str_ bh16 in
  let lines :=
    ["## 🌐 Solana Network Status" +:+ nl;
     "**Current Slot:** " +:+ slot_s +:+ nl;
     "**Latest Blockhash:** `" +:+ bh_s +:+ "...`" +:+ nl;
     "**Network:** " +:+ environ_get w "SOLANA_NETWORK" "mainnet-beta" +:+ nl] in
  let* lines :=
    if Py.truthy perf then
      let* head3 := Py.slice_to 3 perf in
      let* samples := Py.iter head3 in
      for_each perf_line samples (lines ++ [nl +:+ "**Recent Performance:**" +:+ nl])
    else Ok lines in
  Ok (String.concat nl lines).

(** ** solana_monitor.py *)

(** A file of the snapshot directory, by what [json.loads] makes of its
    text: [json.dumps(v, indent=2) + "\n"] is a JSON document that decodes
    to [v]; any other text fails to decode. *)
Inductive file : Type :=
| JsonText (v : pyval)
| OtherText (text : string).

(** [SNAPSHOTS_DIR]: the files of the directory by name. [mkdir] with
    [exist_ok=True] leaves it as it is. *)
Abbreviation store := (gmap string file).

(** The names [glob("*.json")] matches. *)
Fixpoint ends_with (suffix s : string) : bool :=
  String.eqb s suffix ||
  match s with
  | String _ s' => ends_with suffix s'
  | EmptyString => false
  end.

Definition is_json_name (name : string) : bool := ends_with ".json" name.

Definition glob_json (st : store) : list string :=
  List.filter is_json_name (map fst (map_to_list st)).

(** [sorted(names)]: by code point, the order of [String.le]. *)
Definition sorted (names : list string) : list string :=
  merge_sort String.le names.

Definition load_previous_snapshot (st : store) : result pyval :=
  let snapshot_files := sorted (glob_json st) in
  match last snapshot_files with
  | Some name =>
      match st !! name with
      | Some (JsonText v) => Ok v
      | _ => Raise JSONDecodeError
      end
  | None => Ok (PDict [])
  end.

Definition snapshot_name (now : datetime) : string :=
  "snapshot-" +:+ strftime_minute now +:+ ".json".

(** [now] is the reading of the clock the call takes. *)
Definition save_snapshot (st : store) (now : datetime) (data : pyval)
  : string * store :=
  let ts := strftime_minute now in
  let path := "snapshot-" +:+ ts +:+ ".json" in
  (path, <[path := JsonText data]> st).

(** [except Exception as e]: runs [handler e] on any exception the
    embedding models. *)
Definition try_except {A} (body : result A) (handler : exn -> result A)
  : result A :=
  match body with
  | Ok a => Ok a
  | Raise NotModelled => Raise NotModelled
  | Raise e => handler e
  end.

(** The body of the loop of [check_wallets]; the state is the list
    [results] and the number of clock readings taken so far. *)
Definition check_wallets_body (w : world) (st : list pyval * nat)
  (wallet : pyval) : result (list pyval * nat) :=
  let '(results, tick) := st in
  let* address := Py.get wallet "address" (PStr "") in
  let* prefix8 := Py.slice_to 8 address in
  let* label := Py.get wallet "label" prefix8 in
  if negb (Py.truthy address) then Ok st
  else
    try_except
      (let* balance := get_balance w address in
       Ok (results ++ [PDict [("address", address);
                              ("label", label);
                              ("balance_sol", balance);
                              ("timestamp", PStr (isoformat (clock w tick)))]],
           S tick))
      (fun e =>
         Ok (results ++ [PDict [("address", address);
                                ("label", label);
                                ("balance_sol", PNone);
                                ("error", PStr (exn_str w e))]],
             tick)).

Definition check_wallets (w : world) (tick : nat) (wallets : list pyval)
  : result (list pyval * nat) :=
  for_each (check_wallets_body w) wallets ([], tick).

(** [pairs[0]]. *)
Definition first_item (v : pyval) : result pyval :=
  match v with
  | PList (x :: _) => Ok x
  | PList [] => Raise IndexError
  | PDict _ => Raise KeyError
  | PStr _ => let* cs := Py.iter v in
              match cs with c :: _ => Ok c | [] => Raise IndexError end
  | _ => Raise TypeError
  end.

Definition check_prices_body (w : world) (st : list pyval * nat)
  (token : string) : result (list pyval * nat) :=
  let '(results, tick) := st in
  try_except
    (let* data := dex_search w token in
     let* pairs := Py.get data "pairs" (PList []) in
     if Py.truthy pairs then
       let* pair_ := first_item pairs in
       let* price_usd := Py.get pair_ "priceUsd" (PStr "N/A") in
       let* price_change := Py.get pair_ "priceChange" (PDict []) in
       let* change_24h := Py.get price_change "h24" (PStr "N/A") in
       let* volume := Py.get pair_ "volume" (PDict []) in
       let* volume_24h := Py.get volume "h24" (PStr "N/A") in
       let* liquidity := Py.get pair_ "liquidity" (PDict []) in
       let* liquidity_usd := Py.get liquidity "usd" (PStr "N/A") in
       let* dex := Py.get pair_ "dexId" (PStr "Unknown") in
       Ok (results ++ [PDict [("symbol", PStr token);
                              ("price_usd", price_usd);
                              ("change_24h", change_24h);
                              ("volume_24h", volume_24h);
                              ("liquidity_usd", liquidity_usd);
                              ("dex", dex);
                              ("timestamp", PStr (isoformat (clock w tick)))]],
           S tick)
     else
       Ok (results ++ [PDict [("symbol", PStr token);
                              ("error", PStr "No pairs found")]], tick))
    (fun e =>
       Ok (results ++ [PDict [("symbol", PStr token);
                              ("error", PStr (exn_str w e))]], tick)).

Definition check_prices (w : world) (tick : nat) (tokens : list string)
  : result (list pyval * nat) :=
  for_each (check_prices_body w) tokens ([], tick).

(** [{x[field]: x for x in items}]: a later item replaces an earlier one
    of the same key. *)
Definition index_body (field : string) (m : gmap string pyval) (x : pyval)
  : result (gmap string pyval) :=
  let* k := Py.getitem x field in
  let* hk := Py.key k in
  Ok (<[hk := x]> m).

Definition index_by (field : string) (items : list pyval)
  : result (gmap string pyval) :=
  for_each (index_body field) items ∅.

(** The body of [for wallet in current.get("wallets", [])]. *)
Definition wallet_body (prev_wallets : gmap string pyval)
  (alerts : list string) (wallet : pyval) : result (list string) :=
  let* addr := Py.getitem wallet "address" in
  let* hk := Py.key addr in
  match prev_wallets !! hk with
  | None => Ok alerts
  | Some prev_wallet =>
      let* b := Py.get wallet "balance_sol" PNone in
      if Py.is_none b then Ok alerts
      else
        let* pb := Py.get prev_wallet "balance_sol" (PInt 0) in
        let prev_bal := Py.or_ pb (PInt 0) in
        let* curr_bal := Py.getitem wallet "balance_sol" in
        let* positive := Py.gt_int prev_bal 0 in
        if positive then
          let* diff := Py.sub curr_bal prev_bal in
          let* ratio := Py.truediv diff prev_bal in
          let* change_pct := Py.mul_int ratio 100 in
          let* magnitude := Py.abs change_pct in
          let* significant := Py.gt_int magnitude 5 in
          if significant then
            let* up := Py.gt_int change_pct 0 in
            let direction := if up then "increased" else "decreased" in
            let* label := Py.getitem wallet "label" in
            let* label_s := Py.str_ label in
            let* pct_s := Py.format_f 1 magnitude in
            let* prev_s := Py.format_f 4 prev_bal in
            let* curr_s := Py.format_f 4 curr_bal in
            Ok (alerts ++
                ["Wallet " +:+ label_s +:+ ": Balance " +:+ direction +:+
                 " by " +:+ pct_s +:+ "% (" +:+ prev_s +:+ " -> " +:+
                 curr_s +:+ " SOL)"])
          else Ok alerts
        else Ok alerts
  end.

(** [except (ValueError, TypeError): pass]. *)
Definition except_value_type {A} (body : result A) (otherwise : A)
  : result A :=
  match body with
  | Raise ValueError | Raise TypeError => Ok otherwise
  | r => r
  end.

(** The body of [for price in current.get("prices", [])]. *)
Definition price_body (prev_prices : gmap string pyval)
  (alerts : list string) (price : pyval) : result (list string) :=
  let* sym := Py.getitem price "symbol" in
  let* hk := Py.key sym in
  match prev_prices !! hk with
  | None => Ok alerts
  | Some prev =>
      except_value_type
        (let* c := Py.get price "price_usd" (PInt 0) in
         let* curr_price := Py.float_ c in
         let* p := Py.get prev "price_usd" (PInt 0) in
         let* prev_price := Py.float_ p in
         if F64.ltb F64.pzero prev_price then
           let change_pct :=
             F64.mul (F64.div (F64.sub curr_price prev_price) prev_price)
                     (F64.of_Z 100) in
           if F64.ltb (F64.of_Z 10) (F64.abs change_pct) then
             let direction :=
               if F64.ltb F64.pzero change_pct then "pumped" else "dumped" in
             let* sym_s := Py.str_ sym in
             Ok (alerts ++
                 [sym_s +:+ " " +:+ direction +:+ " " +:+
                  F64.format_f 1 (F64.abs change_pct) +:+ "% ($" +:+
                  F64.format_f 4 prev_price +:+ " -> $" +:+
                  F64.format_f 4 curr_price +:+ ")"])
           else Ok alerts
         else Ok alerts)
        alerts
  end.

Definition detect_changes (current previous : pyval) : result (list string) :=
  let alerts := [] in
  let* pw := Py.get previous "wallets" (PList []) in
  let* pw_items := Py.iter pw in
  let* prev_wallets := index_by "address" pw_items in
  let* cw := Py.get current "wallets" (PList []) in
  let* cw_items := Py.iter cw in
  let* alerts := for_each (wallet_body prev_wallets) cw_items alerts in
  let* pp := Py.get previous "prices" (PList []) in
  let* pp_items := Py.iter pp in
  let* prev_prices := index_by "symbol" pp_items in
  let* cp := Py.get current "prices" (PList []) in
  let* cp_items := Py.iter cp in
  for_each (price_body prev_prices) cp_items alerts.

(** ** The shape of a snapshot (spec, data model)

    A wallet observation has a string address and label and a float
    balance, or none; a token observation has a string symbol and a
    price, a string as a rule, or none; a snapshot has a list of each, or
    none. *)

Definition field_is_str (d : list (string * pyval)) (k : string) : bool :=
  match Py.dict_find k d with
  | Some (PStr _) => true
  | _ => false
  end.

Definition valid_wallet (w : pyval) : bool :=
  match w with
  | PDict d =>
      field_is_str d "address" && field_is_str d "label" &&
      match Py.dict_find "balance_sol" d with
      | None | Some PNone | Some (PFloat _) => true
      | _ => false
      end
  | _ => false
  end.

(** [d.get(k, 0)]. *)
Definition get_or_zero (k : string) (d : list (string * pyval)) : pyval :=
  from_option id (PInt 0) (Py.dict_find k d).

(** [float(v)] returns, or raises one of the two exceptions the price
    loop passes over: [v] is a float, an ASCII string, numeric or not,
    [None], an int in the range of the floats. *)
Definition parses_or_skips (v : pyval) : bool :=
  match Py.float_ v with
  | Ok _ | Raise ValueError | Raise TypeError => true
  | Raise _ => false
  end.

Definition valid_price (p : pyval) : bool :=
  match p with
  | PDict d =>
      field_is_str d "symbol" && parses_or_skips (get_or_zero "price_usd" d)
  | _ => false
  end.

Definition field_is_list (ok : pyval -> bool) (d : list (string * pyval))
  (k : string) : bool :=
  match Py.dict_find k d with
  | None => true
  | Some (PList l) => forallb ok l
  | _ => false
  end.

Definition valid_snapshot (s : pyval) : bool :=
  match s with
  | PDict d =>
      field_is_list valid_wallet d "wallets" &&
      field_is_list valid_price d "prices"
  | _ => false
  end.

(** The observations of a snapshot, [s.get(field, [])]. *)
Definition observations (field : string) (s : pyval) : list pyval :=
  match s with
  | PDict d =>
      match Py.dict_find field d with
      | Some (PList l) => l
      | _ => []
      end
  | _ => []
  end.

(** The string key of an observation, its address or symbol. *)
Definition key_of (field : string) (x : pyval) : option string :=
  match x with
  | PDict d =>
      match Py.dict_find field d with
      | Some (PStr k) => Some k
      | _ => None
      end
  | _ => None
  end.

(** The weaker shape [detect_changes] needs of the current snapshot
    to run through its loops: every observation has a string key. *)
Definition has_key (field : string) (x : pyval) : bool :=
  match key_of field x with
  | Some _ => true
  | None => false
  end.

Definition keyed_snapshot (s : pyval) : bool :=
  match s with
  | PDict d =>
      field_is_list (has_key "address") d "wallets" &&
      field_is_list (has_key "symbol") d "prices"
  | _ => false
  end.

(** ** The notions the statements use *)

(** [pad k] keeps the length [k] and is increasing step by step on the
    [len] numbers from [lo]: a check by evaluation. *)
Definition pad_steps (k : nat) (lo len : Z) : bool :=
  forallb (fun x =>
             Nat.eqb (String.length (pad k x)) k &&
             (if x + 1 <? lo + len
              then match (pad k x ?= pad k (x + 1))%string with
                   | Lt => true
                   | _ => false
                   end
              else true))
          (seqZ lo len).

(** A time [datetime.now] can return, as far as the name is concerned. *)
Definition calendar (t : datetime) : bool :=
  (1000 <=? year t) && (year t <=? 9999) &&
  (1 <=? month t) && (month t <=? 12) &&
  (1 <=? day t) && (day t <=? 31) &&
  (0 <=? hour t) && (hour t <=? 23) &&
  (0 <=? minute t) && (minute t <=? 59).

(** The order of two times up to the minute. *)
Definition compare_minutes (t1 t2 : datetime) : comparison :=
  match year t1 ?= year t2 with
  | Eq =>
      match month t1 ?= month t2 with
      | Eq =>
          match day t1 ?= day t2 with
          | Eq =>
              match hour t1 ?= hour t2 with
              | Eq => minute t1 ?= minute t2
              | c => c
              end
          | c => c
          end
      | c => c
      end
  | c => c
  end.

(** Every [*.json] file of the store is a snapshot written at a minute
    not after [now]: the store of a clock that does not go back. *)
Definition written_until (st : store) (now : datetime) : Prop :=
  forall name, name ∈ glob_json st ->
    exists t, calendar t = true /\ name = snapshot_name t /\
              compare_minutes t now <> Gt.

(** [((curr - prev) / prev) * 100], as both loops compute it on floats. *)
Definition change_pct (curr prev : spec_float) : spec_float :=
  F64.mul (F64.div (F64.sub curr prev) prev) (F64.of_Z 100).

(** On whole numbers, previous from 1 to 100 and current from 0 to twice
    the previous, the change the code computes is above [k] exactly when
    the change is: a check by evaluation. *)
Definition grid_agrees (k : Z) : bool :=
  forallb (fun p =>
             F64.ltb F64.pzero (F64.of_Z p) &&
             forallb (fun c =>
                        Bool.eqb
                          (F64.ltb (F64.of_Z k)
                             (F64.abs (change_pct (F64.of_Z c) (F64.of_Z p))))
                          (k * p <? Z.abs (c - p) * 100))
                     (seqZ 0 (2 * p + 1)))
          (seqZ 1 100).

(** The text of a wallet alert. *)
Definition wallet_alert (label : string) (curr prev : spec_float) : string :=
  "Wallet " +:+ label +:+ ": Balance " +:+
  (if F64.ltb F64.pzero (change_pct curr prev) then "increased" else "decreased")
  +:+ " by " +:+ F64.format_f 1 (F64.abs (change_pct curr prev)) +:+ "% (" +:+
  F64.format_f 4 prev +:+ " -> " +:+ F64.format_f 4 curr +:+ " SOL)".

(** The text of a price alert. *)
Definition price_alert (sym : string) (curr prev : spec_float) : string :=
  sym +:+ " " +:+
  (if F64.ltb F64.pzero (change_pct curr prev) then "pumped" else "dumped")
  +:+ " " +:+ F64.format_f 1 (F64.abs (change_pct curr prev)) +:+ "% ($" +:+
  F64.format_f 4 prev +:+ " -> $" +:+ F64.format_f 4 curr +:+ ")".

(** [float()] raised what [except (ValueError, TypeError)] passes over. *)
Definition skipped (r : result spec_float) : Prop :=
  r = Raise ValueError \/ r = Raise TypeError.

(** A watchlist entry: a dict with a string address and a string label,
    or no label. *)
Definition watched_wallet (wallet : pyval) : bool :=
  match wallet with
  | PDict d =>
      field_is_str d "address" &&
      match Py.dict_find "label" d with
      | None | Some (PStr _) => true
      | _ => false
      end
  | _ => false
  end.

(** ** Sample data *)

(** A performance sample: 123456 transactions in 60 seconds. *)
Definition sample_example : list (string * pyval) :=
  [("numTransactions", PInt 123456); ("samplePeriodSecs", PInt 60);
   ("slot", PInt 5)].

(** Three readings of the clock, two of them in the same minute. *)
Definition at_13_56_05 : datetime :=
  {| year := 2026; month := 11; day := 3;
     hour := 13; minute := 56; second := 5; microsecond := 120034 |}.

Definition at_13_56_40 : datetime :=
  {| year := 2026; month := 11; day := 3;
     hour := 13; minute := 56; second := 40; microsecond := 0 |}.

Definition at_14_26_02 : datetime :=
  {| year := 2026; month := 11; day := 3;
     hour := 14; minute := 26; second := 2; microsecond := 871 |}.

(** Two small snapshots. *)
Definition snapshot_a : pyval :=
  PDict [("timestamp", PStr (isoformat at_13_56_05));
         ("wallets", PList []);
         ("prices", PList [PDict [("symbol", PStr "SOL");
                                  ("error", PStr "No pairs found")]])].

Definition snapshot_b : pyval :=
  PDict [("timestamp", PStr (isoformat at_13_56_40));
         ("wallets", PList []);
         ("prices", PList [])].

(** A wallet observation as [check_wallets] records it. *)
Definition wallet_obs (address label : string) (balance : pyval) : pyval :=
  PDict [("address", PStr address); ("label", PStr label);
         ("balance_sol", balance);
         ("timestamp", PStr (isoformat at_13_56_05))].

(** A token observation as [check_prices] records it. *)
Definition price_obs (symbol price_usd : string) : pyval :=
  PDict [("symbol", PStr symbol); ("price_usd", PStr price_usd);
         ("change_24h", PStr "N/A"); ("volume_24h", PStr "N/A");
         ("liquidity_usd", PStr "N/A"); ("dex", PStr "raydium");
         ("timestamp", PStr (isoformat at_13_56_05))].

(** What [check_prices] records when the search has no pairs. *)
Definition no_pairs_obs (symbol : string) : pyval :=
  PDict [("symbol", PStr symbol); ("error", PStr "No pairs found")].

(** A snapshot: a time stamp and the two lists of observations. *)
Definition snapshot_of (wallets prices : list pyval) : pyval :=
  PDict [("timestamp", PStr (isoformat at_13_56_40));
         ("wallets", PList wallets); ("prices", PList prices)].

(** Two watched addresses. *)
Definition treasury_address : string :=
  "9WzDXwBbmkg8ZTbNMqUxvQRAyrZzDsGYdLVL9zYtAWWM".

Definition drained_address : string :=
  "4Nd1mBQtrMJVYVfKf2PJy9NZUZdTAsp7D4xWLs4gDB4T".

(** The float a decimal literal denotes. *)
Definition dec (m e : Z) : pyval := PFloat (F64.of_decimal false m e).

(** One address watched under two labels, read at 100 and then at 200 SOL. *)
Definition snapshot_twice : pyval :=
  snapshot_of [wallet_obs treasury_address "hot" (dec 100 0);
               wallet_obs treasury_address "treasury" (dec 200 0)]
              [].

(** A sweep over two wallets, one of them unreachable, and three tokens,
    one without a market and one without a numeric price. *)
Definition snapshot_mixed : pyval :=
  snapshot_of
    [wallet_obs treasury_address "treasury" (dec 1250075 (-4));
     PDict [("address", PStr drained_address); ("label", PStr "drained");
            ("balance_sol", PNone); ("error", PStr "timed out")]]
    [price_obs "SOL" "142.37"; price_obs "WIF" "N/A"; no_pairs_obs "BONK"].

(** A wallet of a thousand million SOL seen for the first time. *)
Definition whale : pyval := wallet_obs treasury_address "whale" (dec 1 9).

(** One wallet, or one token, at a given balance or price. *)
Definition treasury_at (balance : pyval) : pyval :=
  snapshot_of [wallet_obs treasury_address "treasury" balance] [].

Definition sol_at (price_usd : string) : pyval :=
  snapshot_of [] [price_obs "SOL" price_usd].

(** The sweep after [snapshot_mixed]: the treasury moved by more than 5%,
    the drained wallet answers again, SOL moved by more than 10%. *)
Definition snapshot_next : pyval :=
  snapshot_of
    [wallet_obs drained_address "drained" (dec 0 0);
     wallet_obs treasury_address "treasury" (dec 1100 (-1))]
    [price_obs "BONK" "0.00002341"; price_obs "SOL" "163.9"].

(** * The rest of the two programs *)

(** ** [repr] of a float *)

Module Repr.

(** [x >= 10^k] for the rational [x = num / den]. *)
Definition ge_pow10 (num den k : Z) : bool :=
  if 0 <=? k then den * 10 ^ k <=? num else den <=? num * 10 ^ (- k).

(** The least [k] from [k0] on with [x < 10^k]. *)
Fixpoint find_decpt (fuel : nat) (num den k : Z) : Z :=
  match fuel with
  | O => k
  | S fuel' => if ge_pow10 num den k then find_decpt fuel' num den (k + 1) else k
  end.

(** [k] with [10^(k-1) <= m * 2^e < 10^k]. *)
Definition decpt_of (m : positive) (e : Z) : Z :=
  let num := if 0 <=? e then Z.pos m * 2 ^ e else Z.pos m in
  let den := if 0 <=? e then 1 else 2 ^ (- e) in
  let b := Z.pos (digits2_pos m) + e in
  find_decpt 4 num den ((b - 1) * 30103 / 100000 - 1).

(** The digits of the shortest decimal that reads back as [m * 2^e], the
    closest to it among the shortest: the integer of its digits and the
    position of its decimal point. [n] counts the digits tried, [fuel]
    the tries left. *)
Fixpoint shortest (fuel : nat) (n : Z) (m : positive) (e k : Z) : Z * Z :=
  let num := if 0 <=? e then Z.pos m * 2 ^ e else Z.pos m in
  let den := if 0 <=? e then 1 else 2 ^ (- e) in
  let s := n - k in
  let num' := if 0 <=? s then num * 10 ^ s else num in
  let den' := if 0 <=? s then den else den * 10 ^ (- s) in
  let q := num' / den' in
  let r := num' mod den' in
  let reads_back c :=
    match F64.of_decimal false c (- s) with
    | S754_finite false m' e' => Pos.eqb m' m && (e' =? e)
    | _ => false
    end in
  let lo := reads_back q in
  let hi := negb (r =? 0) && reads_back (q + 1) in
  let pick c := if c =? 10 ^ n then (1, k + 1) else (c, k) in
  match fuel with
  | O => pick (match 2 * r ?= den' with
               | Lt => q
               | Gt => q + 1
               | Eq => if Z.even q then q else q + 1
               end)
  | S fuel' =>
      match lo, hi with
      | true, true =>
          pick (match 2 * r ?= den' with
                | Lt => q
                | Gt => q + 1
                | Eq => if Z.even q then q else q + 1
                end)
      | true, false => pick q
      | false, true => pick (q + 1)
      | false, false => shortest fuel' (n + 1) m e k
      end
  end.

Fixpoint strip_zeros_rev (cs : list ascii) : list ascii :=
  match cs with
  | "0"%char :: cs' => strip_zeros_rev cs'
  | _ => cs
  end.

Definition strip_trailing_zeros (s : string) : string :=
  string_of_list_ascii (rev (strip_zeros_rev (rev (list_ascii_of_string s)))).

(** The digits [ds] with the decimal point after [dp] of them, in the
    notation [repr] chooses. *)
Definition layout (ds : string) (dp : Z) : string :=
  let len := Z.of_nat (String.length ds) in
  if (dp <=? -4) || (16 <? dp) then
    let ex := dp - 1 in
    substring 0 1 ds +:+
    (if 1 <? len then "." +:+ substring 1 (String.length ds - 1) ds else "") +:+
    "e" +:+ (if ex <? 0 then "-" else "+") +:+ pad 2 (Z.abs ex)
  else if dp <=? 0 then
    "0." +:+ F64.zeros (Z.to_nat (- dp)) +:+ ds
  else if len <=? dp then
    ds +:+ F64.zeros (Z.to_nat (dp - len)) +:+ ".0"
  else
    substring 0 (Z.to_nat dp) ds +:+ "." +:+
    substring (Z.to_nat dp) (String.length ds - Z.to_nat dp) ds.

(** [repr(x)], which is [str(x)]. *)
Definition repr (x : spec_float) : string :=
  match x with
  | S754_nan => "nan"
  | S754_infinity s => if s then "-inf" else "inf"
  | S754_zero s => if s then "-0.0" else "0.0"
  | S754_finite s m e =>
      let '(c, dp) := shortest 16 1 m e (decpt_of m e) in
      (if s then "-" else "") +:+
      layout (strip_trailing_zeros (F64.digits_of_Z c)) dp
  end.

End Repr.

(** ** More built-ins: strings, [int()], [len()], [in] *)

Module Str.

(** [c.isspace()] for an ASCII character. *)
Definition isspace (c : ascii) : bool :=
  let n := F64.code c in
  ((9 <=? n) && (n <=? 13)) || ((28 <=? n) && (n <=? 32)).

Fixpoint lstrip (cs : list ascii) : list ascii :=
  match cs with
  | c :: cs' => if isspace c then lstrip cs' else cs
  | [] => []
  end.

(** [s.strip()] on the characters of an ASCII string. *)
Definition strip_chars (cs : list ascii) : list ascii :=
  rev (lstrip (rev (lstrip cs))).

Definition strip (s : string) : string :=
  string_of_list_ascii (strip_chars (list_ascii_of_string s)).

Definition upper_char (c : ascii) : ascii :=
  if (97 <=? F64.code c) && (F64.code c <=? 122)
  then ascii_of_N (N_of_ascii c - 32) else c.

(** [s.upper()] for an ASCII string. *)
Definition upper (s : string) : string :=
  string_of_list_ascii (map upper_char (list_ascii_of_string s)).

(** [s.split(sep)] for a one-character separator: the pieces between the
    separators, at least one. *)
Fixpoint split_chars (sep : ascii) (cs : list ascii) : list (list ascii) :=
  match cs with
  | [] => [[]]
  | c :: cs' =>
      if Ascii.eqb c sep then [] :: split_chars sep cs'
      else
        match split_chars sep cs' with
        | piece :: pieces => (c :: piece) :: pieces
        | [] => [[c]]
        end
  end.

Definition split (sep : ascii) (s : string) : list string :=
  map string_of_list_ascii (split_chars sep (list_ascii_of_string s)).

(** [s.split()]: the runs of characters that are not white space. *)
Fixpoint words_chars (cs : list ascii) : list (list ascii) :=
  match cs with
  | [] => []
  | c :: cs' =>
      if isspace c then words_chars cs'
      else
        match cs' with
        | c' :: _ =>
            if isspace c' then [c] :: words_chars cs'
            else
              match words_chars cs' with
              | w :: ws => (c :: w) :: ws
              | [] => [[c]]
              end
        | [] => [[c]]
        end
  end.

Definition words (s : string) : list string :=
  map string_of_list_ascii (words_chars (list_ascii_of_string s)).

(** [s[-n:]]. *)
Definition last_chars (n : nat) (s : string) : string :=
  substring (String.length s - n) n s.

(** [sep.join(pieces)]. *)
Definition join (sep : string) (pieces : list string) : string :=
  String.concat sep pieces.

(** [str(v)], with floats. *)
Definition str (v : pyval) : result string :=
  match v with
  | PFloat f => Ok (Repr.repr f)
  | _ => Py.str_ v
  end.

(** [k in v] for a string [k]. *)
Definition contains (v : pyval) (k : string) : result bool :=
  match v with
  | PDict d => Ok (bool_decide (is_Some (Py.dict_find k d)))
  | PList l =>
      Ok (existsb (fun x => match x with
                            | PStr s => String.eqb s k
                            | _ => false
                            end) l)
  | PStr s => Ok (bool_decide (is_Some (String.index 0 k s)))
  | _ => Raise TypeError
  end.

(** [len(v)]. *)
Definition len (v : pyval) : result Z :=
  match v with
  | PList l => Ok (Z.of_nat (length l))
  | PDict d => Ok (Z.of_nat (length d))
  | PStr s =>
      if F64.is_ascii s then Ok (Z.of_nat (String.length s))
      else Raise NotModelled
  | _ => Raise TypeError
  end.

(** [int(x)] for a float: towards zero. *)
Definition int_of_float (x : spec_float) : result Z :=
  match x with
  | S754_nan => Raise ValueError
  | S754_infinity _ => Raise OverflowError
  | S754_zero _ => Ok 0
  | S754_finite s m e =>
      let a := if 0 <=? e then Z.pos m * 2 ^ e else Z.pos m / 2 ^ (- e) in
      Ok (if s then - a else a)
  end.

(** [int(s)] for an ASCII string of at most 4300 characters: white
    space around, a sign, digits with single underscores between them. *)
Definition int_of_string (s : string) : result Z :=
  if negb (F64.is_ascii s) || (4300 <? Z.of_nat (String.length s))
  then Raise NotModelled
  else
    match F64.drop_underscores None (F64.strip (list_ascii_of_string s)) with
    | None => Raise ValueError
    | Some cs =>
        let '(neg, body) := F64.take_sign cs in
        match F64.take_digits 0 0 body with
        | (z, S _, []) => Ok (if neg then - z else z)
        | _ => Raise ValueError
        end
    end.

(** [int(v)]. *)
Definition int_ (v : pyval) : result Z :=
  match v with
  | PInt z => Ok z
  | PBool b => Ok (if b then 1 else 0)
  | PFloat f => int_of_float f
  | PStr s => int_of_string s
  | _ => Raise TypeError
  end.

(** [format(x, ",.<d>f")]: fixed point with the integer part in groups
    of three. *)
Definition format_commas_f (d : nat) (x : spec_float) : string :=
  match x with
  | S754_finite s _ _ | S754_zero s =>
      let body := F64.format_f d (F64.abs x) in
      let k := (String.length body - (match d with O => 0 | _ => S d end))%nat in
      (if s then "-" else "") +:+
      string_of_list_ascii
        (rev (Py.group3 0 (rev (list_ascii_of_string (substring 0 k body))))) +:+
      substring k (String.length body - k) body
  | _ => F64.format_f d x
  end.

End Str.

(** ** solana_query.py, the handlers *)

Definition JUPITER_API : string := "https://quote-api.jup.ag/v6".

Definition WELL_KNOWN_MINTS : list (string * string) :=
  [("SOL", "So11111111111111111111111111111111111111112");
   ("USDC", "EPjFWdd5AufqSSqeM2qN1xzybapC8G4wEGGkZwyTDt1v");
   ("USDT", "Es9vMFrzaCERmJfrF4H2FYD4KCoNkY11McCe8BenwNYB");
   ("BONK", "DezXAZ8z7PnrnRJjz3wXBoRgixCa6xjnB7YaB1pPB263");
   ("JUP", "JUPyiwrYJFskUPiHa7hkeR8VUtAeFoSYbKedZNsDvCN");
   ("RAY", "4k3Dyjzvzp8eMZWUXbBCjEvwSkkk59S5iCNLY3QrkX6R");
   ("WIF", "EKpQGSJtjMFqKZ9KQanSqYXRcF8fBopzLHYxdM65zcjm")].

Fixpoint mint_of (table : list (string * string)) (token : string)
  : option string :=
  match table with
  | [] => None
  | (k, v) :: table' => if String.eqb token k then Some v else mint_of table' token
  end.

Definition dex_get_pair (w : world) (chain_id pair_address : string)
  : result pyval :=
  fetch_json w (DEXSCREENER_API +:+ "/latest/dex/pairs/" +:+ chain_id +:+ "/" +:+
                pair_address) "GET" None.

Definition dex_get_token_pairs (w : world) (chain_id token_address : string)
  : result pyval :=
  fetch_json w (DEXSCREENER_API +:+ "/token-pairs/v1/" +:+ chain_id +:+ "/" +:+
                token_address) "GET" None.

Definition jupiter_quote (w : world) (input_mint output_mint : string)
  (amount slippage_bps : Z) : result pyval :=
  fetch_json w (JUPITER_API +:+ "/quote?inputMint=" +:+ input_mint +:+
                "&outputMint=" +:+ output_mint +:+
                "&amount=" +:+ Py.str_of_Z amount +:+
                "&slippageBps=" +:+ Py.str_of_Z slippage_bps) "GET" None.

(** The body of [for pair in pairs[:3]] of [handle_price]. *)
Definition price_lines_body (lines : list string) (pair_ : pyval)
  : result (list string) :=
  let* base := Py.get pair_ "baseToken" (PDict []) in
  let* quote_ := Py.get pair_ "quoteToken" (PDict []) in
  let* price := Py.get pair_ "priceUsd" (PStr "N/A") in
  let* price_change := Py.get pair_ "priceChange" (PDict []) in
  let* change_24h := Py.get price_change "h24" (PStr "N/A") in
  let* volume := Py.get pair_ "volume" (PDict []) in
  let* volume_24h := Py.get volume "h24" (PStr "N/A") in
  let* liquidity_ := Py.get pair_ "liquidity" (PDict []) in
  let* liquidity := Py.get liquidity_ "usd" (PStr "N/A") in
  let* dex := Py.get pair_ "dexId" (PStr "Unknown") in
  let* base_sym := Py.get base "symbol" (PStr "?") in
  let* base_s := Str.str base_sym in
  let* quote_sym := Py.get quote_ "symbol" (PStr "?") in
  let* quote_s := Str.str quote_sym in
  let* dex_s := Str.str dex in
  let* price_s := Str.str price in
  let* change_s := Str.str change_24h in
  let* volume_s := Str.str volume_24h in
  let* liquidity_s := Str.str liquidity in
  Ok (lines ++
      ["**" +:+ base_s +:+ "/" +:+ quote_s +:+ "** on " +:+ dex_s +:+ nl +:+
       "- Price: **$" +:+ price_s +:+ "**" +:+ nl +:+
       "- 24h Change: " +:+ change_s +:+ "%" +:+ nl +:+
       "- 24h Volume: $" +:+ volume_s +:+ nl +:+
       "- Liquidity: $" +:+ liquidity_s +:+ nl]).

Definition handle_price (w : world) (args : string) : result string :=
  if negb (F64.is_ascii args) then Raise NotModelled
  else
    let token :=
      if negb (String.eqb (Str.strip args) "") then Str.upper (Str.strip args)
      else "SOL" in
    let* data :=
      match mint_of WELL_KNOWN_MINTS token with
      | Some mint => dex_get_token_pairs w "solana" mint
      | None => dex_search w (Str.strip args)
      end in
    let* failed := Str.contains data "error" in
    if failed then
      let* e := Py.getitem data "error" in
      let* e_s := Str.str e in
      Ok ("Failed to fetch price data: " +:+ e_s)
    else
      let* one := Py.get data "pair" (PList []) in
      let* pairs := Py.get data "pairs" one in
      let pairs := match pairs with PDict _ => PList [pairs] | _ => pairs end in
      if negb (Py.truthy pairs) then Ok ("No trading pairs found for: " +:+ token)
      else
        let lines := ["## 🌐 Price Check: " +:+ token +:+ nl] in
        let* head3 := Py.slice_to 3 pairs in
        let* items := Py.iter head3 in
        let* lines := for_each price_lines_body items lines in
        Ok (Str.join nl lines).

(** The loop of [handle_balance]: the price of the first pair whose base
    token is SOL, when it parses. *)
Fixpoint first_sol_price (pairs : list pyval) (sol_price : spec_float)
  : result spec_float :=
  match pairs with
  | [] => Ok sol_price
  | p :: pairs' =>
      let* base := Py.get p "baseToken" (PDict []) in
      let* sym := Py.get base "symbol" PNone in
      match sym with
      | PStr "SOL" =>
          except_value_type
            (let* v := Py.get p "priceUsd" (PInt 0) in Py.float_ v)
            sol_price
      | _ => first_sol_price pairs' sol_price
      end
  end.

Definition handle_balance (w : world) (args : string) : result string :=
  if negb (F64.is_ascii args) then Raise NotModelled
  else
    let address := Str.strip args in
    if String.eqb address "" || (Z.of_nat (String.length address) <? 32)
    then Ok "Please provide a valid Solana wallet address."
    else
      let* balance := get_balance w (PStr address) in
      let* sol_data := dex_search w "SOL" in
      let* pairs := Py.get sol_data "pairs" (PList []) in
      let* items := Py.iter pairs in
      let* sol_price := first_sol_price items F64.pzero in
      let* balance_f := Py.float_ balance in
      let usd_value :=
        if F64.ltb F64.pzero sol_price then Some (F64.mul balance_f sol_price)
        else None in
      let* balance_s := Py.format_f 4 balance in
      let lines :=
        ["## 🌐 Wallet Balance" +:+ nl;
         "**Address:** `" +:+ substring 0 8 address +:+ "..." +:+
           Str.last_chars 4 address +:+ "`" +:+ nl;
         "**Balance:** " +:+ balance_s +:+ " SOL" +:+ nl] in
      let lines :=
        match usd_value with
        | Some usd =>
            lines ++ ["**USD Value:** ~$" +:+ Str.format_commas_f 2 usd +:+
                      " (@ $" +:+ Str.format_commas_f 2 sol_price +:+ "/SOL)" +:+ nl]
        | None => lines
        end in
      let lines :=
        lines ++ ["**Network:** " +:+
                  environ_get w "SOLANA_NETWORK" "mainnet-beta" +:+ nl] in
      Ok (Str.join nl lines).

Definition handle_quote (w : world) (args : string) : result string :=
  if negb (F64.is_ascii args) then Raise NotModelled
  else
    match Str.words (Str.strip args) with
    | p0 :: p1 :: p2 :: _ =>
        let from_token := Str.upper p0 in
        let to_token := Str.upper p1 in
        match F64.of_string p2 with
        | None => Ok ("Invalid amount: " +:+ p2)
        | Some amount =>
            let from_mint :=
              from_option id from_token (mint_of WELL_KNOWN_MINTS from_token) in
            let to_mint :=
              from_option id to_token (mint_of WELL_KNOWN_MINTS to_token) in
            let* amount_raw :=
              Str.int_of_float (F64.mul amount (F64.of_Z LAMPORTS_PER_SOL)) in
            let* data := jupiter_quote w from_mint to_mint amount_raw 50 in
            let* failed := Str.contains data "error" in
            if failed then
              let* e := Py.getitem data "error" in
              let* e_s := Str.str e in
              Ok ("Jupiter quote failed: " +:+ e_s)
            else
              let* out := Py.get data "outAmount" (PInt 0) in
              let* out_amount := Str.int_ out in
              let* out_human :=
                if String.eqb to_token "USDC" || String.eqb to_token "USDT"
                then Py.truediv (PInt out_amount) (PInt 1000000)
                else Py.truediv (PInt out_amount) (PInt LAMPORTS_PER_SOL) in
              let* price_impact := Py.get data "priceImpactPct" (PStr "0") in
              let* slippage := Py.get data "slippageBps" (PInt 50) in
              let* route := Py.get data "routePlan" (PList []) in
              let* route_len := Str.len route in
              let* out_s := Py.format_f 6 out_human in
              let* impact_s := Str.str price_impact in
              let* slippage_s := Str.str slippage in
              let* slippage_i := Str.int_ slippage in
              let* slippage_pct := Py.truediv (PInt slippage_i) (PInt 100) in
              let* slippage_pct_s := Str.str slippage_pct in
              Ok (Str.join nl
                    ["## 🌐 Jupiter Swap Quote" +:+ nl;
                     "**" +:+ Repr.repr amount +:+ " " +:+ from_token +:+
                       "** → **" +:+ out_s +:+ " " +:+ to_token +:+ "**" +:+ nl;
                     "- Price Impact: " +:+ impact_s +:+ "%" +:+ nl;
                     "- Slippage Tolerance: " +:+ slippage_s +:+ " bps (" +:+
                       slippage_pct_s +:+ "%)" +:+ nl;
                     "- Route: " +:+ Py.str_of_Z route_len +:+ " hop" +:+
                       (if route_len =? 1 then "" else "s") +:+ nl;
                     nl +:+ "*This is a quote only — no swap executed. NFA.*" +:+ nl])
        end
    | _ =>
        Ok ("Usage: `/sol quote <from_token> <to_token> <amount>`" +:+ nl +:+
            "Example: `/sol quote SOL USDC 1`")
    end.

(** ** solana_monitor.py, the watchlist and the report *)

Definition get_watchlist_tokens (w : world) : result (list string) :=
  let tokens := environ_get w "SOLANA_WATCHLIST" "SOL" in
  if F64.is_ascii tokens then
    Ok (map (fun t => Str.upper (Str.strip t))
          (List.filter (fun t => negb (String.eqb (Str.strip t) ""))
             (Str.split "," tokens)))
  else Raise NotModelled.

(** The body of [for w in wallets] of [format_report]. *)
Definition report_wallet_body (lines : list string) (wallet : pyval)
  : result (list string) :=
  let* b := Py.get wallet "balance_sol" PNone in
  if negb (Py.is_none b) then
    let* label := Py.getitem wallet "label" in
    let* label_s := Str.str label in
    let* balance := Py.getitem wallet "balance_sol" in
    let* balance_s := Py.format_f 4 balance in
    Ok (lines ++ ["- **" +:+ label_s +:+ "**: " +:+ balance_s +:+ " SOL" +:+ nl])
  else
    let* label := Py.getitem wallet "label" in
    let* label_s := Str.str label in
    let* e := Py.get wallet "error" (PStr "Unknown") in
    let* e_s := Str.str e in
    Ok (lines ++ ["- **" +:+ label_s +:+ "**: Error — " +:+ e_s +:+ nl]).

(** The body of [for p in prices] of [format_report]. *)
Definition report_price_body (lines : list string) (p : pyval)
  : result (list string) :=
  let* failed := Str.contains p "error" in
  if negb failed then
    let* symbol := Py.getitem p "symbol" in
    let* symbol_s := Str.str symbol in
    let* price := Py.getitem p "price_usd" in
    let* price_s := Str.str price in
    let* change := Py.getitem p "change_24h" in
    let* change_s := Str.str change in
    let* volume := Py.getitem p "volume_24h" in
    let* volume_s := Str.str volume in
    let* liquidity := Py.getitem p "liquidity_usd" in
    let* liquidity_s := Str.str liquidity in
    Ok (lines ++ ["| " +:+ symbol_s +:+ " | $" +:+ price_s +:+ " | " +:+
                  change_s +:+ "% | $" +:+ volume_s +:+ " | $" +:+
                  liquidity_s +:+ " |" +:+ nl])
  else Ok lines.

(** [today] is the date [today()] of [common] returns. *)
Definition format_report (today : string) (snapshot : pyval)
  (alerts : list string) (previous : pyval) : result string :=
  let lines := ["## 📡 Solana Monitor — " +:+ today +:+ nl] in
  let* wallets := Py.get snapshot "wallets" (PList []) in
  let* lines :=
    if Py.truthy wallets then
      let* items := Py.iter wallets in
      for_each report_wallet_body items (lines ++ ["### Wallets" +:+ nl])
    else Ok lines in
  let* prices := Py.get snapshot "prices" (PList []) in
  let* lines :=
    if Py.truthy prices then
      let* items := Py.iter prices in
      for_each report_price_body items
        (lines ++ [nl +:+ "### Token Prices" +:+ nl;
                   "| Token | Price | 24h | Volume | Liquidity |" +:+ nl;
                   "|-------|-------|-----|--------|----------|" +:+ nl])
    else Ok lines in
  let lines :=
    match alerts with
    | _ :: _ =>
        fold_left (fun ls alert => ls ++ ["- " +:+ alert +:+ nl]) alerts
          (lines ++ [nl +:+ "### Alerts" +:+ nl])
    | [] =>
        lines ++ [nl +:+ "*No significant changes detected. All quiet on the chain.*" +:+ nl]
    end in
  Ok (Str.join "" lines).

(** ** The notions the further statements use *)

(** No white space at the head. *)
Definition no_lead (cs : list ascii) : Prop :=
  match cs with
  | c :: _ => Str.isspace c = false
  | [] => True
  end.

(** A token in the form [get_watchlist_tokens] returns it. *)
Definition normal_token (t : string) : Prop :=
  t <> "" /\ ~ In ","%char (list_ascii_of_string t) /\
  Str.strip t = t /\ Str.upper t = t.

Definition has_field (d : list (string * pyval)) (k : string) : bool :=
  match Py.dict_find k d with
  | Some _ => true
  | None => false
  end.

(** An observation of [token]: an error record without a price, or a
    record with every field the report reads and no error. *)
Definition price_record (token : string) (obs : pyval) : bool :=
  match obs with
  | PDict d =>
      match Py.dict_find "symbol" d with
      | Some (PStr s) => String.eqb s token
      | _ => false
      end &&
      match Py.dict_find "error" d with
      | Some (PStr _) => negb (has_field d "price_usd")
      | Some _ => false
      | None =>
          forallb (has_field d)
            ["price_usd"; "change_24h"; "volume_24h"; "liquidity_usd";
             "dex"; "timestamp"]
      end
  | _ => false
  end.

(** An observation of a wallet: a float balance with a time stamp and no
    error, or no balance and an error message. *)
Definition wallet_record (obs : pyval) : bool :=
  match obs with
  | PDict d =>
      field_is_str d "address" && field_is_str d "label" &&
      match Py.dict_find "balance_sol" d with
      | Some (PFloat _) => has_field d "timestamp" && negb (has_field d "error")
      | Some PNone => field_is_str d "error"
      | _ => false
      end
  | _ => false
  end.

(** A key that is a non-empty string. *)
Definition nonempty_key (o : option string) : bool :=
  match o with
  | Some s => negb (String.eqb s "")
  | None => false
  end.

(** A character a quoted string can hold: a letter, a digit, one of
    [_.-~/], or the per cent sign of an escape. *)
Definition quoted_char (c : ascii) : bool :=
  let n := F64.code c in
  F64.isdigit c || ((65 <=? n) && (n <=? 90)) || ((97 <=? n) && (n <=? 122)) ||
  existsb (Ascii.eqb c) ["_"; "."; "-"; "~"; "/"; "%"]%char.

(** A character [quote] leaves as it is. *)
Definition unreserved_char (c : ascii) : bool :=
  quoted_char c && negb (Ascii.eqb c "%").

(** A character of a URL the embedding covers. *)
Definition covered_char (c : ascii) : bool :=
  (F64.code c <? 128) && negb (Ascii.eqb c "[" || Ascii.eqb c "]").

(** [tps] is the floor of [txs / period], and 0 when the period is not
    positive. *)
Definition floor_tps (txs period tps : Z) : Prop :=
  (0 < period -> period * tps <= txs < period * (tps + 1)) /\
  (period <= 0 -> tps = 0).

(** A performance sample with integer figures: its slot, its
    transactions and its period. *)
Definition int_sample (sample : pyval) (figures : Z * Z * Z) : Prop :=
  exists d,
    sample = PDict d /\
    Py.dict_find "slot" d = Some (PInt figures.1.1) /\
    Py.dict_find "numTransactions" d = Some (PInt figures.1.2) /\
    Py.dict_find "samplePeriodSecs" d = Some (PInt figures.2).

(** The line of the status that shows the figure [tps] for a sample. *)
Definition tps_line (figures : Z * Z * Z) (line : string) : Prop :=
  exists tps,
    floor_tps figures.1.2 figures.2 tps /\
    line = "- Slot " +:+ Py.str_of_Z figures.1.1 +:+ ": " +:+
           Py.str_of_Z tps +:+ " TPS (" +:+ Py.commas figures.1.2 +:+
           " txs)" +:+ nl.

(** Every request of the world is answered with [data]. *)
Definition answers (w : world) (data : pyval) : Prop :=
  forall r, net w r = Replied data.

(** The token [handle_price] looks up. *)
Definition price_token (args : string) : string :=
  if negb (String.eqb (Str.strip args) "") then Str.upper (Str.strip args)
  else "SOL".

(** Every request of the world fails with the message [msg]. *)
Definition offline (w : world) (msg : string) : Prop :=
  forall r, exists why, net w r = Failed why msg.

(** The end of a report: the alerts, one to a line, or the line that
    says there is none. *)
Definition alerts_section (alerts : list string) : string :=
  match alerts with
  | [] =>
      nl +:+ "*No significant changes detected. All quiet on the chain.*" +:+ nl
  | _ =>
      nl +:+ "### Alerts" +:+ nl +:+
      String.concat "" (map (fun alert => "- " +:+ alert +:+ nl) alerts)
  end.

(** A snapshot as [main] builds it. *)
Definition snapshot_at (timestamp : string) (wallets prices : list pyval)
  : pyval :=
  PDict [("timestamp", PStr timestamp);
         ("wallets", PList wallets); ("prices", PList prices)].

(** A time that is not after another, up to the minute. *)
Definition not_after (t1 t2 : datetime) : Prop := compare_minutes t1 t2 <> Gt.

(** The store after a series of calls of [save_snapshot], each with the
    reading of the clock it took. *)
Definition save_all (st : store) (writes : list (datetime * pyval)) : store :=
  fold_left (fun st write => snd (save_snapshot st (fst write) (snd write)))
    writes st.

(** ** solana_monitor.py, a sweep *)

(** [loads] is [json.loads] on the text of the variable: the value it
    decodes to, or [None] when it raises [JSONDecodeError]. *)
Definition get_watched_wallets (loads : string -> option pyval) (w : world)
  : pyval :=
  let wallets_json := environ_get w "SOLANA_WALLETS" "[]" in
  match loads wallets_json with
  | Some v => v
  | None => PList []
  end.

(** What [main] has computed when it calls [save_snapshot]: the
    snapshot, the previous one, the alerts and the clock readings taken. *)
Definition sweep_readings (loads : string -> option pyval) (w : world)
  (tick : nat) (st : store) : result (pyval * pyval * list string * nat) :=
  let* issue_number := Str.int_of_string (environ_get w "ISSUE_NUMBER" "0") in
  let wallets := get_watched_wallets loads w in
  let* tokens := get_watchlist_tokens w in
  let* wallet_items := Py.iter wallets in
  let* (wallet_data, tick) := check_wallets w tick wallet_items in
  let* (price_data, tick) := check_prices w tick tokens in
  let current_snapshot :=
    PDict [("timestamp", PStr (isoformat (clock w tick)));
           ("wallets", PList wallet_data);
           ("prices", PList price_data)] in
  let* previous := load_previous_snapshot st in
  let* alerts := detect_changes current_snapshot previous in
  Ok (current_snapshot, previous, alerts, S tick).

(** [main] of the monitor up to the report: the store it leaves, and the
    alerts with the report, or the exception that ends it. *)
Definition sweep (loads : string -> option pyval) (today : string)
  (w : world) (tick : nat) (st : store)
  : store * result (list string * string) :=
  match sweep_readings loads w tick st with
  | Raise e => (st, Raise e)
  | Ok (current_snapshot, previous, alerts, tick) =>
      let st' := snd (save_snapshot st (clock w tick) current_snapshot) in
      (st',
       let* raw_report := format_report today current_snapshot alerts previous in
       Ok (alerts, raw_report))
  end.

(** ** More sample data *)

(** A world at a fixed time, and one whose network is down. *)
Definition world_at (environ : gmap string string) (net : request -> reply)
  (now : datetime) : world :=
  {| environ := environ; net := net; clock := fun _ => now;
     exn_str := fun _ => "error" |}.

Definition offline_world (environ : gmap string string) : world :=
  world_at environ (fun _ => Failed Timeout "timed out") at_13_56_05.

(** A node that answers each of the three calls of the status. *)
Definition status_net (samples : list pyval) (r : request) : reply :=
  match req_data r with
  | Some payload =>
      match Py.getitem payload "method" with
      | Ok (PStr "getSlot") => Replied (PDict [("result", PInt 250000000)])
      | Ok (PStr "getLatestBlockhash") =>
          Replied (PDict [("result",
                           PDict [("value",
                                   PDict [("blockhash",
                                           PStr "9WzDXwBbmkg8ZTbNMqUxvQRAyrZz")])])])
      | Ok (PStr "getRecentPerformanceSamples") =>
          Replied (PDict [("result", PList samples)])
      | _ => Failed HttpStatus "HTTP Error 400: Bad Request"
      end
  | None => Failed HttpStatus "HTTP Error 405: Method Not Allowed"
  end.

Definition sample_at (slot txs period : Z) : pyval :=
  PDict [("numSlots", PInt 150); ("numTransactions", PInt txs);
         ("samplePeriodSecs", PInt period); ("slot", PInt slot)].

(** Four samples: the second with a period of 0. *)
Definition four_samples : list pyval :=
  [sample_at 5 123456 60; sample_at 6 123456 0; sample_at 7 59 60;
   sample_at 8 999999 60].

Definition status_world : world :=
  world_at ∅ (status_net four_samples) at_13_56_05.

(** A watchlist of one wallet, and the world with a watchlist of tokens
    as a user may write it. *)
Definition treasury_entry : pyval :=
  PDict [("address", PStr treasury_address); ("label", PStr "treasury")].

Definition watching_world : world :=
  offline_world {[ "SOLANA_WATCHLIST" := " sol, bonk,,JUP " ]}.

(** A network that answers every request with four pairs, and one whose
    answers are lists. *)
Definition four_pairs_world : world :=
  world_at ∅
    (fun _ => Replied (PDict [("pairs", PList [PDict []; PDict []; PDict [];
                                               PDict []])]))
    at_13_56_05.

(** The block of a pair without any field. *)
Definition unknown_pair_block : string :=
  "**?/?** on Unknown" +:+ nl +:+
  "- Price: **$N/A**" +:+ nl +:+
  "- 24h Change: N/A%" +:+ nl +:+
  "- 24h Volume: $N/A" +:+ nl +:+
  "- Liquidity: $N/A" +:+ nl.

(** An endpoint given as a host name, on a network that would answer. *)
Definition hostname_world : world :=
  world_at {[ "SOLANA_RPC_URL" := "api.devnet.solana.com" ]}
    (fun _ => Replied (PDict [("result",
                               PDict [("value", PInt 5000000000)])]))
    at_13_56_05.

Definition lists_world : world :=
  world_at ∅ (fun _ => Replied (PList [])) at_13_56_05.

(** The treasury at 2.5 SOL. *)
Definition treasury_before : list (string * pyval) :=
  [("address", PStr treasury_address); ("label", PStr "treasury");
   ("balance_sol", PFloat (S754_finite false 5629499534213120 (-51)))].

(** * Properties *)

Arguments F64.sub : simpl never.
Arguments F64.div : simpl never.
Arguments F64.mul : simpl never.
Arguments F64.of_Z : simpl never.
Arguments F64.of_ratio : simpl never.
Arguments F64.of_string : simpl never.
Arguments F64.is_ascii : simpl never.
Arguments F64.format_f : simpl never.
Arguments F64.ltb : simpl never.
Arguments String.append : simpl never.

(** ** Requests *)

Lemma chars_append (a b : string) :
  list_ascii_of_string (a +:+ b) = list_ascii_of_string a ++ list_ascii_of_string b.
Proof.
  induction a as [| c a IH]; [reflexivity |].
  change (c :: list_ascii_of_string (a +:+ b) =
          c :: (list_ascii_of_string a ++ list_ascii_of_string b)).
  rewrite IH. reflexivity.
Qed.

Lemma quote_cons (c : ascii) (s : string) :
  quote (String c s) = quote_char c +:+ quote s.
Proof.
  unfold quote. cbn [list_ascii_of_string map].
  destruct (map quote_char (list_ascii_of_string s)) as [| x xs] eqn:E.
  - cbn [String.concat]. generalize (quote_char c). intros q.
    induction q as [| a q IH]; [reflexivity |].
    change (String a q = String a (q +:+ "")). rewrite <- IH. reflexivity.
  - reflexivity.
Qed.

Lemma covered_chars (url : string) :
  Url.covered url = forallb covered_char (list_ascii_of_string url).
Proof.
  unfold Url.covered, F64.is_ascii, covered_char.
  induction (list_ascii_of_string url) as [| c cs IH]; [reflexivity |].
  cbn [forallb]. rewrite <- IH.
  destruct (F64.code c <? 128), (negb _); cbn; try reflexivity;
    rewrite ?andb_false_r; reflexivity.
Qed.

Lemma covered_append (a b : string) :
  Url.covered (a +:+ b) = Url.covered a && Url.covered b.
Proof. rewrite !covered_chars, chars_append. apply forallb_app. Qed.

Lemma quote_covered (s : string) : Url.covered (quote s) = true.
Proof.
  induction s as [| c s IH]; [reflexivity |].
  rewrite quote_cons, covered_append, IH, andb_true_r.
  destruct c as [[] [] [] [] [] [] [] []]; reflexivity.
Qed.

Lemma lstrip_snoc (cs : list ascii) (c : ascii) :
  Url.isspace c = false -> Url.lstrip (cs ++ [c]) = Url.lstrip cs ++ [c].
Proof.
  intros Hc. induction cs as [| x cs IH]; cbn [app Url.lstrip].
  - rewrite Hc. reflexivity.
  - destruct (Url.isspace x); [exact IH | reflexivity].
Qed.

Lemma strip_cons (c : ascii) (cs : list ascii) :
  Url.isspace c = false ->
  Url.strip (c :: cs) = c :: rev (Url.lstrip (rev cs)).
Proof.
  intros Hc. unfold Url.strip. cbn [Url.lstrip]. rewrite Hc.
  cbn [rev]. rewrite (lstrip_snoc _ _ Hc), rev_app_distr. reflexivity.
Qed.

Lemma splittag_cons (c : ascii) (cs : list ascii) :
  Ascii.eqb c "#" = false ->
  Url.splittag (c :: cs) = c :: Url.splittag cs.
Proof.
  intros Hc. unfold Url.splittag. cbn [Url.before_last_hash].
  destruct (Url.before_last_hash cs); [reflexivity |].
  rewrite Hc. reflexivity.
Qed.

(** A covered URL that begins with [https:] is accepted. *)
Lemma request_https (rest : string) :
  Url.covered rest = true -> Url.request ("https:" +:+ rest) = Ok tt.
Proof.
  intros Hrest. unfold Url.request.
  rewrite covered_append, Hrest. cbn [negb andb].
  change (Url.covered "https:") with true. cbn [negb].
  change (list_ascii_of_string ("https:" +:+ rest))
    with ("h" :: "t" :: "t" :: "p" :: "s" :: ":" :: list_ascii_of_string rest)%char.
  unfold Url.unwrap. rewrite strip_cons by reflexivity.
  set (tail := rev (Url.lstrip (rev _))).
  assert (Htail : exists l, tail = ("t" :: "t" :: "p" :: "s" :: ":" :: l)%char).
  { subst tail. cbn [rev].
    rewrite <- !app_assoc. cbn [app].
    generalize (rev (list_ascii_of_string rest)). intros r.
    induction r as [| x r IH]; cbn [app Url.lstrip].
    - exists []. reflexivity.
    - destruct (Url.isspace x) eqn:E.
      + exact IH.
      + exists (rev (x :: r)). cbn [rev]. rewrite !rev_app_distr. reflexivity. }
  destruct Htail as [l ->].
  cbn [Url.unbracket Url.unprefix].
  rewrite !splittag_cons by reflexivity. reflexivity.
Qed.

Lemma fetch_json_accepted (w : world) (url method : string)
  (data : option pyval) :
  Url.request url = Ok tt ->
  fetch_json w url method data = Ok (fetch_reply w url method data).
Proof. intros H. unfold fetch_json. rewrite H. reflexivity. Qed.

(** The search of Dexscreener always goes out. *)
Lemma dex_search_goes_out (w : world) (query : string) :
  dex_search w query =
  Ok (fetch_reply w (DEXSCREENER_API +:+ "/latest/dex/search?q=" +:+ quote query)
        "GET" None).
Proof.
  apply fetch_json_accepted.
  change (DEXSCREENER_API +:+ "/latest/dex/search?q=" +:+ quote query)
    with ("https:" +:+ ("//api.dexscreener.com/latest/dex/search?q=" +:+ quote query)).
  apply request_https. rewrite covered_append, quote_covered. reflexivity.
Qed.

(** The reply of a world that is down. *)
Lemma fetch_reply_offline (w : world) (msg url method : string)
  (data : option pyval) :
  offline w msg -> fetch_reply w url method data = PDict [("error", PStr msg)].
Proof.
  intros Hoff. unfold fetch_reply.
  destruct (Hoff {| req_url := url; req_method := method; req_data := data |})
    as [why ->]. reflexivity.
Qed.

Lemma dex_search_offline (w : world) (msg query : string) :
  offline w msg -> dex_search w query = Ok (PDict [("error", PStr msg)]).
Proof.
  intros Hoff. rewrite dex_search_goes_out.
  rewrite (fetch_reply_offline w msg) by exact Hoff. reflexivity.
Qed.

Lemma rpc_call_accepted (w : world) (method : string) (params : list pyval) :
  Url.request (get_solana_rpc w) = Ok tt ->
  rpc_call w method params =
  Ok (fetch_reply w (get_solana_rpc w) "POST"
        (Some (PDict [("jsonrpc", PStr "2.0"); ("id", PInt 1);
                      ("method", PStr method); ("params", PList params)]))).
Proof. intros H. apply fetch_json_accepted, H. Qed.

Lemma rpc_call_offline (w : world) (msg method : string) (params : list pyval) :
  offline w msg ->
  Url.request (get_solana_rpc w) = Ok tt ->
  rpc_call w method params = Ok (PDict [("error", PStr msg)]).
Proof.
  intros Hoff Hurl. rewrite (rpc_call_accepted w method params Hurl).
  rewrite (fetch_reply_offline w msg) by exact Hoff. reflexivity.
Qed.

(** Without a custom endpoint the endpoint is one of two, and accepted. *)
Lemma default_endpoint_accepted (w : world) :
  environ_get w "SOLANA_RPC_URL" "" = "" ->
  Url.request (get_solana_rpc w) = Ok tt.
Proof.
  intros H. unfold get_solana_rpc. rewrite H. cbn [String.eqb negb].
  destruct (String.eqb _ "devnet"); reflexivity.
Qed.

(** ** The network status: transactions per second *)

(** The figures of a sample and its line. *)
Lemma perf_line_floor (d : list (string * pyval)) (slot txs period : Z) :
  Py.dict_find "slot" d = Some (PInt slot) ->
  Py.dict_find "numTransactions" d = Some (PInt txs) ->
  Py.dict_find "samplePeriodSecs" d = Some (PInt period) ->
  exists tps : Z,
    sample_tps (PDict d) = Ok (PInt txs, PInt tps) /\
    floor_tps txs period tps /\
    forall lines,
      perf_line lines (PDict d) =
      Ok (lines ++ ["- Slot " +:+ Py.str_of_Z slot +:+ ": " +:+
                    Py.str_of_Z tps +:+ " TPS (" +:+ Py.commas txs +:+
                    " txs)" +:+ nl]).
Proof.
  intros Hslot Htxs Hper.
  unfold perf_line, sample_tps, floor_tps; cbn.
  rewrite Htxs, Hper; cbn.
  destruct (Z.ltb_spec 0 period) as [Hpos | Hzero].
  - exists (txs / period).
    assert (Hne : (period =? 0) = false) by (apply Z.eqb_neq; lia).
    cbn. rewrite Hne. cbn. split; [reflexivity |].
    split; [split |].
    + intros _. split.
      * apply Z.mul_div_le; lia.
      * rewrite Z.mul_add_distr_l, Z.mul_1_r.
        pose proof (Z.mod_pos_bound txs period Hpos) as Hmod.
        pose proof (Z.div_mod txs period ltac:(lia)) as Hdm. lia.
    + lia.
    + intros lines. rewrite Hslot. reflexivity.
  - exists 0. cbn. split; [reflexivity |].
    split; [split; [lia | reflexivity] |].
    intros lines. rewrite Hslot. reflexivity.
Qed.

(** The loop over the samples adds the line of each, in their order. *)
Lemma for_each_perf_lines (samples : list pyval) (figures : list (Z * Z * Z)) :
  Forall2 int_sample samples figures ->
  exists lines,
    Forall2 tps_line figures lines /\
    forall acc, for_each perf_line samples acc = Ok (acc ++ lines).
Proof.
  induction 1 as [| sample [[slot txs] period] samples figures Hs _ IH].
  - exists []. split; [constructor |]. intros acc. cbn [for_each].
    rewrite app_nil_r. reflexivity.
  - destruct Hs as (d & -> & Hslot & Htxs & Hper). cbn in Hslot, Htxs, Hper.
    destruct IH as (lines & Hlines & Hrun).
    destruct (perf_line_floor d slot txs period Hslot Htxs Hper)
      as (tps & _ & Hfloor & Hline).
    exists (("- Slot " +:+ Py.str_of_Z slot +:+ ": " +:+
             Py.str_of_Z tps +:+ " TPS (" +:+ Py.commas txs +:+
             " txs)" +:+ nl) :: lines).
    split.
    + constructor; [| exact Hlines]. exists tps. split; [exact Hfloor |].
      reflexivity.
    + intros acc. cbn [for_each]. rewrite Hline. cbn [bind].
      rewrite Hrun, <- app_assoc. reflexivity.
Qed.

(** C9. When the node answers the three calls with an integer slot, a
    block hash and a list of performance samples with integer figures,
    [handle_network] returns the status whose performance section has
    one line for each of the first three samples, in their order, and
    the TPS figure of a line is the floor of [txCount / periodSecs] when
    the period is positive and 0 when it is 0 (or less); no division by
    zero is raised. Without a sample there is no performance section. *)
Theorem tps_is_floor_division :
  forall (w : world) (slot : Z) (blockhash : string) (samples : list pyval)
         (figures : list (Z * Z * Z)),
    get_slot w = Ok (PInt slot) ->
    get_latest_blockhash w = Ok (PStr blockhash) ->
    F64.is_ascii blockhash = true ->
    get_network_performance w 3 = Ok (PList samples) ->
    Forall2 int_sample samples figures ->
    exists lines : list string,
      Forall2 tps_line (take 3 figures) lines /\
      handle_network w =
      Ok (String.concat nl
            (["## 🌐 Solana Network Status" +:+ nl;
              "**Current Slot:** " +:+ Py.commas slot +:+ nl;
              "**Latest Blockhash:** `" +:+ substring 0 16 blockhash +:+
                "...`" +:+ nl;
              "**Network:** " +:+
                environ_get w "SOLANA_NETWORK" "mainnet-beta" +:+ nl] ++
             match samples with
             | [] => []
             | _ => (nl +:+ "**Recent Performance:**" +:+ nl) :: lines
             end)).
Proof.
  intros w slot blockhash samples figures Hslot Hhash Hascii Hperf Hsamples.
  destruct (for_each_perf_lines (take 3 samples) (take 3 figures))
    as (lines & Hlines & Hrun).
  { apply Forall2_take, Hsamples. }
  exists lines. split; [exact Hlines |].
  unfold handle_network. rewrite Hslot, Hhash, Hperf. cbn [bind].
  cbn [Py.format_commas Py.as_num bind Py.slice_to]. rewrite Hascii.
  cbn [bind Py.str_].
  destruct samples as [| sample samples].
  - cbn [Py.truthy]. cbn [bind]. rewrite app_nil_r. reflexivity.
  - cbn [Py.truthy Py.iter bind]. rewrite Hrun. cbn [bind].
    rewrite <- app_assoc. reflexivity.
Qed.

Lemma tps_is_floor_division_witness :
  get_network_performance status_world 3 = Ok (PList four_samples) /\
  Forall2 int_sample four_samples
    [(5, 123456, 60); (6, 123456, 0); (7, 59, 60); (8, 999999, 60)] /\
  exists lines : list string,
    Forall2 tps_line [(5, 123456, 60); (6, 123456, 0); (7, 59, 60)] lines /\
    handle_network status_world =
    Ok (String.concat nl
          (["## 🌐 Solana Network Status" +:+ nl;
            "**Current Slot:** 250,000,000" +:+ nl;
            "**Latest Blockhash:** `9WzDXwBbmkg8ZTbN...`" +:+ nl;
            "**Network:** mainnet-beta" +:+ nl] ++
           (nl +:+ "**Recent Performance:**" +:+ nl) :: lines)).
Proof.
  assert (Hsamples : Forall2 int_sample four_samples
                       [(5, 123456, 60); (6, 123456, 0); (7, 59, 60);
                        (8, 999999, 60)]).
  { repeat constructor; eexists; repeat split; reflexivity. }
  split; [reflexivity |]. split; [exact Hsamples |].
  exact (tps_is_floor_division status_world 250000000
           "9WzDXwBbmkg8ZTbNMqUxvQRAyrZz" four_samples _
           eq_refl eq_refl eq_refl eq_refl Hsamples).
Defined.

(** The status of that node, in full. *)
Example handle_network_example :
  handle_network status_world =
  Ok (String.concat nl
        ["## 🌐 Solana Network Status" +:+ nl;
         "**Current Slot:** 250,000,000" +:+ nl;
         "**Latest Blockhash:** `9WzDXwBbmkg8ZTbN...`" +:+ nl;
         "**Network:** mainnet-beta" +:+ nl;
         nl +:+ "**Recent Performance:**" +:+ nl;
         "- Slot 5: 2057 TPS (123,456 txs)" +:+ nl;
         "- Slot 6: 0 TPS (123,456 txs)" +:+ nl;
         "- Slot 7: 0 TPS (59 txs)" +:+ nl]).
Proof. vm_compute. reflexivity. Qed.

(** The line of a sample of 123456 transactions in 60 seconds, and of a
    sample with a period of 0. *)
Example perf_line_examples :
  perf_line [] (PDict sample_example)
  = Ok ["- Slot 5: 2057 TPS (123,456 txs)" +:+ nl] /\
  perf_line [] (PDict [("numTransactions", PInt 123456);
                       ("samplePeriodSecs", PInt 0); ("slot", PInt 6)])
  = Ok ["- Slot 6: 0 TPS (123,456 txs)" +:+ nl].
Proof. split; reflexivity. Qed.

(** ** The balance query *)

(** C1, on the code. When the endpoint is a URL [Request] accepts, as
    the two default endpoints are, and the RPC call fails, whatever the
    failure, [fetch_json] turns the exception into [{"error": msg}],
    [get_balance] finds no ["result"] in it and returns the balance 0.0,
    and [check_wallets] records that balance in an observation that has
    no ["error"] field. *)
Theorem failed_rpc_reads_as_zero_balance :
  forall (w : world) (msg : string) (tick : nat),
    offline w msg ->
    Url.request (get_solana_rpc w) = Ok tt ->
    let address := PStr "9WzDXwBbmkg8ZTbNMqUxvQRAyrZzDsGYdLVL9zYtAWWM" in
    get_balance w address = Ok (PFloat (S754_zero false)) /\
    check_wallets w tick [PDict [("address", address); ("label", PStr "treasury")]]
    = Ok ([PDict [("address", address);
                  ("label", PStr "treasury");
                  ("balance_sol", PFloat (S754_zero false));
                  ("timestamp", PStr (isoformat (clock w tick)))]],
          S tick).
Proof.
  intros w msg tick Hoff Hurl address.
  assert (Hbalance : get_balance w address = Ok (PFloat (S754_zero false))).
  { unfold get_balance. rewrite (rpc_call_offline w msg) by assumption.
    reflexivity. }
  split; [exact Hbalance |].
  unfold check_wallets. cbn [for_each]. unfold check_wallets_body.
  cbn [Py.get Py.dict_find]. simpl.
  fold address. rewrite Hbalance. reflexivity.
Qed.

Lemma failed_rpc_reads_as_zero_balance_witness :
  let w := offline_world ∅ in
  let address := PStr "9WzDXwBbmkg8ZTbNMqUxvQRAyrZzDsGYdLVL9zYtAWWM" in
  offline w "timed out" /\
  get_solana_rpc w = "https://api.mainnet-beta.solana.com" /\
  check_wallets w 0 [PDict [("address", address); ("label", PStr "treasury")]]
  = Ok ([PDict [("address", address);
                ("label", PStr "treasury");
                ("balance_sol", PFloat (S754_zero false));
                ("timestamp", PStr (isoformat at_13_56_05))]],
        1%nat).
Proof.
  intros w address.
  assert (Hoff : offline w "timed out")
    by (intros r; exists Timeout; reflexivity).
  split; [exact Hoff |]. split; [reflexivity |].
  exact (proj2 (failed_rpc_reads_as_zero_balance w "timed out" 0 Hoff
                  (default_endpoint_accepted w eq_refl))).
Defined.

(** A reply that decodes but has no ["value"] reads as the balance 0.0
    too, and a reply with a balance reads as that balance in SOL. *)
Lemma get_balance_of_reply :
  forall (w : world) (pubkey : pyval) (v : pyval),
    net w {| req_url := get_solana_rpc w; req_method := "POST";
             req_data := Some (PDict [("jsonrpc", PStr "2.0"); ("id", PInt 1);
                                      ("method", PStr "getBalance");
                                      ("params", PList [pubkey])]) |}
    = Replied v ->
    Url.request (get_solana_rpc w) = Ok tt ->
    get_balance w pubkey =
    (let* r := Py.get v "result" (PDict []) in
     let* lamports := Py.get r "value" (PInt 0) in
     Py.truediv lamports (PInt LAMPORTS_PER_SOL)).
Proof.
  intros w pubkey v Hnet Hurl.
  unfold get_balance. rewrite (rpc_call_accepted w _ _ Hurl).
  unfold fetch_reply. rewrite Hnet. reflexivity.
Qed.

(** ** The snapshot store *)

Lemma ends_with_app (suffix s : string) : ends_with suffix (s +:+ suffix) = true.
Proof.
  induction s as [| c s IH]; simpl.
  - destruct suffix; simpl.
    + reflexivity.
    + rewrite Ascii.eqb_refl, String.eqb_refl. reflexivity.
  - rewrite IH. apply orb_true_r.
Qed.

Lemma ends_with_prepend (suffix a s : string) :
  ends_with suffix s = true -> ends_with suffix (a +:+ s) = true.
Proof.
  intros H. induction a as [| c a IH]; simpl.
  - exact H.
  - rewrite IH. apply orb_true_r.
Qed.

Lemma snapshot_name_is_json (now : datetime) :
  is_json_name (snapshot_name now) = true.
Proof.
  unfold is_json_name, snapshot_name.
  apply ends_with_prepend, ends_with_app.
Qed.

Lemma elem_of_glob_json (st : store) (name : string) :
  name ∈ glob_json st <-> is_Some (st !! name) /\ is_json_name name = true.
Proof.
  unfold glob_json. rewrite list_elem_of_In, filter_In, <- list_elem_of_In.
  rewrite list_elem_of_fmap. split.
  - intros [[[n f] [-> Hin]] Hjson]. apply elem_of_map_to_list in Hin.
    split; [eexists; exact Hin | exact Hjson].
  - intros [[f Hf] Hjson]. split; [| exact Hjson].
    exists (name, f). split; [reflexivity |]. apply elem_of_map_to_list, Hf.
Qed.

(** The last name of a sorted list is the greatest of the list. *)
Lemma last_sorted_greatest (names : list string) (top : string) :
  top ∈ names ->
  (forall n, n ∈ names -> String.le n top) ->
  last (sorted names) = Some top.
Proof.
  intros Hin Hmax. unfold sorted.
  pose proof (merge_sort_Permutation String.le names) as Hperm.
  pose proof (StronglySorted_merge_sort String.le names) as Hsorted.
  set (l := merge_sort String.le names) in *.
  assert (Htop : top ∈ l) by (rewrite Hperm; exact Hin).
  assert (Hle : forall n, n ∈ l -> String.le n top)
    by (intros n Hn; apply Hmax; rewrite <- Hperm; exact Hn).
  clearbody l. clear Hperm Hin Hmax.
  destruct (last l) as [z |] eqn:Hlast.
  - apply last_Some in Hlast as [l' ->].
    f_equal. apply (anti_symm String.le).
    + apply Hle, elem_of_app. right. apply list_elem_of_singleton. reflexivity.
    + apply elem_of_app in Htop as [Hl' | Hz].
      * apply (StronglySorted_app_1_elem_of _ _ _ _ _ Hsorted Hl').
        apply list_elem_of_singleton. reflexivity.
      * apply list_elem_of_singleton in Hz as ->. reflexivity.
  - apply last_None in Hlast as ->. inversion Htop.
Qed.

Lemma load_of_greatest (st : store) (top : string) (v : pyval) :
  st !! top = Some (JsonText v) ->
  is_json_name top = true ->
  (forall n, n ∈ glob_json st -> String.le n top) ->
  load_previous_snapshot st = Ok v.
Proof.
  intros Hfile Hjson Hmax. unfold load_previous_snapshot.
  rewrite (last_sorted_greatest (glob_json st) top).
  - rewrite Hfile. reflexivity.
  - apply elem_of_glob_json. split; [eexists; exact Hfile | exact Hjson].
  - exact Hmax.
Qed.

(** C7, as stated, fails on a store that already holds a record whose
    name sorts after the new one: that record is read back. *)
Lemma later_named_record_is_read_back :
  let st : store := {[ "snapshot-20991231-2359.json" := JsonText snapshot_a ]} in
  load_previous_snapshot (snd (save_snapshot st at_13_56_40 snapshot_b))
  = Ok snapshot_a /\
  snapshot_a <> snapshot_b.
Proof.
  split; [vm_compute; reflexivity | discriminate].
Qed.

Lemma load_after_save (st : store) (now : datetime) (data : pyval) :
  (forall name, name ∈ glob_json st -> String.le name (snapshot_name now)) ->
  load_previous_snapshot (snd (save_snapshot st now data)) = Ok data.
Proof.
  intros Hmax. unfold save_snapshot; simpl. fold (snapshot_name now).
  apply (load_of_greatest _ (snapshot_name now)).
  - apply lookup_insert_eq.
  - apply snapshot_name_is_json.
  - intros n Hn. apply elem_of_glob_json in Hn as [[f Hf] Hjson].
    destruct (decide (n = snapshot_name now)) as [-> | Hne].
    + reflexivity.
    + rewrite lookup_insert_ne in Hf by congruence.
      apply Hmax, elem_of_glob_json. split; [eexists; exact Hf | exact Hjson].
Qed.

(** C7, amended. When no [*.json] name of the store sorts after the name
    of the new record, [save_snapshot] followed by [load_previous_snapshot]
    returns the snapshot that was written, whatever the snapshot. *)
Theorem save_then_load_roundtrip :
  forall (st : store) (now : datetime) (data : pyval),
    Forall (fun name => String.le name (snapshot_name now)) (glob_json st) ->
    load_previous_snapshot (snd (save_snapshot st now data)) = Ok data.
Proof.
  intros st now data Hmax. rewrite Forall_forall in Hmax.
  apply load_after_save. exact Hmax.
Qed.

Lemma save_then_load_roundtrip_witness :
  let st := snd (save_snapshot ∅ at_13_56_05 snapshot_a) in
  Forall (fun name => String.le name (snapshot_name at_14_26_02)) (glob_json st) /\
  load_previous_snapshot (snd (save_snapshot st at_14_26_02 snapshot_b))
  = Ok snapshot_b.
Proof.
  assert (H : Forall (fun name => String.le name (snapshot_name at_14_26_02))
                (glob_json (snd (save_snapshot ∅ at_13_56_05 snapshot_a)))).
  { apply (bool_decide_eq_true_1 _). vm_compute. reflexivity. }
  split; [exact H |].
  exact (save_then_load_roundtrip _ at_14_26_02 snapshot_b H).
Defined.

(** C8, as stated, fails when two writes fall in the same minute: the
    second write replaces the record of the first. *)
Lemma same_minute_write_replaces_record :
  let st := snd (save_snapshot ∅ at_13_56_05 snapshot_a) in
  st !! "snapshot-20261103-1356.json" = Some (JsonText snapshot_a) /\
  snd (save_snapshot st at_13_56_40 snapshot_b) !! "snapshot-20261103-1356.json"
  = Some (JsonText snapshot_b) /\
  JsonText snapshot_b <> JsonText snapshot_a.
Proof.
  split; [vm_compute; reflexivity |].
  split; [vm_compute; reflexivity | discriminate].
Qed.

(** C8, amended. [save_snapshot] writes the record named by the minute of
    the clock reading, and every record of another name is afterwards as
    it was before. The name does not depend on the seconds. *)
Theorem save_snapshot_keeps_other_records :
  forall (st : store) (now : datetime) (data : pyval) (name : string),
    name <> snapshot_name now ->
    snd (save_snapshot st now data) !! name = st !! name /\
    fst (save_snapshot st now data) = snapshot_name now /\
    snd (save_snapshot st now data) !! snapshot_name now = Some (JsonText data) /\
    (forall s us : Z,
        snapshot_name {| year := year now; month := month now; day := day now;
                         hour := hour now; minute := minute now;
                         second := s; microsecond := us |}
        = snapshot_name now).
Proof.
  intros st now data name Hne. unfold save_snapshot; simpl.
  fold (snapshot_name now). split; [| split; [| split]].
  - apply lookup_insert_ne. congruence.
  - reflexivity.
  - apply lookup_insert_eq.
  - intros s us. reflexivity.
Qed.

Lemma save_snapshot_keeps_other_records_witness :
  let st := snd (save_snapshot ∅ at_13_56_05 snapshot_a) in
  "snapshot-20261103-1356.json" <> snapshot_name at_14_26_02 /\
  snd (save_snapshot st at_14_26_02 snapshot_b) !! "snapshot-20261103-1356.json"
  = st !! "snapshot-20261103-1356.json".
Proof.
  assert (H : "snapshot-20261103-1356.json" <> snapshot_name at_14_26_02)
    by (vm_compute; discriminate).
  split; [exact H |].
  exact (proj1 (save_snapshot_keeps_other_records
                  (snd (save_snapshot ∅ at_13_56_05 snapshot_a))
                  at_14_26_02 snapshot_b _ H)).
Defined.

(** ** Names and time *)

Lemma compare_refl (s : string) : (s ?= s)%string = Eq.
Proof.
  induction s as [| c s IH]; simpl; [reflexivity |].
  unfold Ascii.compare. rewrite N.compare_refl. exact IH.
Qed.

Lemma compare_app_same_length (a1 a2 b1 b2 : string) :
  String.length a1 = String.length a2 ->
  (a1 +:+ b1 ?= a2 +:+ b2)%string =
  match (a1 ?= a2)%string with
  | Eq => (b1 ?= b2)%string
  | c => c
  end.
Proof.
  revert a2. induction a1 as [| c1 a1 IH]; intros [| c2 a2] Hlen;
    simpl in *; try discriminate; [reflexivity |].
  destruct (Ascii.compare c1 c2); [| reflexivity ..].
  apply IH. congruence.
Qed.

Lemma compare_lt_trans (s1 s2 s3 : string) :
  (s1 ?= s2)%string = Lt -> (s2 ?= s3)%string = Lt -> (s1 ?= s3)%string = Lt.
Proof.
  intros H12 H23.
  assert (L12 : String.le s1 s2) by (unfold String.le, String.leb; rewrite H12; exact I).
  assert (L23 : String.le s2 s3) by (unfold String.le, String.leb; rewrite H23; exact I).
  pose proof (transitivity L12 L23) as L13.
  destruct (s1 ?= s3)%string eqn:E; [| reflexivity |].
  - apply String.compare_eq_iff in E as ->.
    rewrite String.compare_antisym, H12 in H23. discriminate.
  - unfold String.le, String.leb in L13. rewrite E in L13. destruct L13.
Qed.

Lemma append_assoc (a b c : string) : (a +:+ b) +:+ c = a +:+ (b +:+ c).
Proof.
  induction a as [| x a IH]; [reflexivity |].
  change (String x ((a +:+ b) +:+ c) = String x (a +:+ (b +:+ c))).
  rewrite IH. reflexivity.
Qed.

Lemma pad_steps_inv (k : nat) (lo len x : Z) :
  pad_steps k lo len = true ->
  lo <= x < lo + len ->
  String.length (pad k x) = k /\
  (x + 1 < lo + len -> (pad k x ?= pad k (x + 1))%string = Lt).
Proof.
  unfold pad_steps. rewrite forallb_forall. intros Hall Hx.
  assert (Hin : In x (seqZ lo len)) by (apply list_elem_of_In, elem_of_seqZ; lia).
  apply Hall, andb_true_iff in Hin as [Hlen Hstep].
  split; [apply Nat.eqb_eq, Hlen |].
  intros Hnext. apply Z.ltb_lt in Hnext. rewrite Hnext in Hstep.
  destruct (pad k x ?= pad k (x + 1))%string; [discriminate | reflexivity | discriminate].
Qed.

Lemma pad_lt (k : nat) (lo len x y : Z) :
  pad_steps k lo len = true ->
  lo <= x -> x < y -> y < lo + len ->
  (pad k x ?= pad k y)%string = Lt.
Proof.
  intros Hsteps Hlo Hxy Hhi.
  replace y with (x + Z.of_nat (S (Z.to_nat (y - x - 1)))) in * by lia.
  generalize dependent (Z.to_nat (y - x - 1)). intros n. clear y.
  induction n as [| n IH]; intros _ Hhi.
  - apply (pad_steps_inv k lo len x Hsteps); lia.
  - apply (compare_lt_trans _ (pad k (x + Z.of_nat (S n)))).
    + apply IH; lia.
    + replace (x + Z.of_nat (S (S n))) with (x + Z.of_nat (S n) + 1) by lia.
      apply (pad_steps_inv k lo len _ Hsteps); lia.
Qed.

Lemma pad_compare (k : nat) (lo len x y : Z) :
  pad_steps k lo len = true ->
  lo <= x < lo + len -> lo <= y < lo + len ->
  (pad k x ?= pad k y)%string = (x ?= y).
Proof.
  intros Hsteps Hx Hy. destruct (Z.compare_spec x y) as [-> | Hlt | Hgt].
  - apply compare_refl.
  - apply (pad_lt k lo len); [exact Hsteps | lia ..].
  - rewrite String.compare_antisym, (pad_lt k lo len y x); [reflexivity | exact Hsteps | lia ..].
Qed.

Lemma pad_steps_year : pad_steps 4 1000 9000 = true.
Proof. vm_compute. reflexivity. Qed.

Lemma pad_steps_field : pad_steps 2 0 100 = true.
Proof. vm_compute. reflexivity. Qed.

Lemma calendar_inv (t : datetime) :
  calendar t = true ->
  1000 <= year t < 1000 + 9000 /\ 0 <= month t < 0 + 100 /\
  0 <= day t < 0 + 100 /\ 0 <= hour t < 0 + 100 /\ 0 <= minute t < 0 + 100.
Proof. unfold calendar. lia. Qed.

(** The names of two times compare as the times do, up to the minute. *)
Lemma snapshot_name_compare (t1 t2 : datetime) :
  calendar t1 = true -> calendar t2 = true ->
  (snapshot_name t1 ?= snapshot_name t2)%string = compare_minutes t1 t2.
Proof.
  intros H1 H2.
  apply calendar_inv in H1 as (Hy1 & Hm1 & Hd1 & Hh1 & Hi1).
  apply calendar_inv in H2 as (Hy2 & Hm2 & Hd2 & Hh2 & Hi2).
  pose proof (fun x H => proj1 (pad_steps_inv 4 1000 9000 x pad_steps_year H)) as L4.
  pose proof (fun x H => proj1 (pad_steps_inv 2 0 100 x pad_steps_field H)) as L2.
  unfold snapshot_name, strftime_minute, compare_minutes.
  rewrite !append_assoc.
  rewrite (compare_app_same_length "snapshot-" "snapshot-") by reflexivity.
  rewrite compare_refl.
  rewrite compare_app_same_length by (rewrite !L4; auto).
  rewrite (pad_compare 4 1000 9000) by (auto using pad_steps_year).
  destruct (year t1 ?= year t2); [| reflexivity ..].
  rewrite compare_app_same_length by (rewrite !L2; auto).
  rewrite (pad_compare 2 0 100) by (auto using pad_steps_field).
  destruct (month t1 ?= month t2); [| reflexivity ..].
  rewrite compare_app_same_length by (rewrite !L2; auto).
  rewrite (pad_compare 2 0 100) by (auto using pad_steps_field).
  destruct (day t1 ?= day t2); [| reflexivity ..].
  rewrite (compare_app_same_length "-" "-") by reflexivity.
  rewrite compare_refl.
  rewrite compare_app_same_length by (rewrite !L2; auto).
  rewrite (pad_compare 2 0 100) by (auto using pad_steps_field).
  destruct (hour t1 ?= hour t2); [| reflexivity ..].
  rewrite compare_app_same_length by (rewrite !L2; auto).
  rewrite (pad_compare 2 0 100) by (auto using pad_steps_field).
  rewrite compare_refl.
  destruct (minute t1 ?= minute t2); reflexivity.
Qed.

Lemma snapshot_name_le (t1 t2 : datetime) :
  calendar t1 = true -> calendar t2 = true ->
  String.le (snapshot_name t1) (snapshot_name t2) <-> compare_minutes t1 t2 <> Gt.
Proof.
  intros H1 H2. unfold String.le, String.leb.
  rewrite (snapshot_name_compare t1 t2 H1 H2).
  destruct (compare_minutes t1 t2); simpl; split; intros H; try exact I;
    try discriminate; try (destruct H); congruence.
Qed.

Lemma written_until_empty (now : datetime) : written_until ∅ now.
Proof.
  intros name Hin. apply elem_of_glob_json in Hin as [[f Hf] _].
  rewrite lookup_empty in Hf. discriminate.
Qed.

Lemma written_until_sorted (st : store) (now : datetime) :
  calendar now = true ->
  written_until st now ->
  Forall (fun name => String.le name (snapshot_name now)) (glob_json st).
Proof.
  intros Hnow Hst. apply Forall_forall. intros name Hin.
  destruct (Hst name Hin) as (t & Ht & -> & Hle).
  apply snapshot_name_le; assumption.
Qed.

Lemma written_until_save (st : store) (now later : datetime) (data : pyval) :
  calendar now = true -> calendar later = true ->
  compare_minutes now later <> Gt ->
  written_until st now ->
  written_until (snd (save_snapshot st now data)) later.
Proof.
  intros Hnow Hlater Hle Hst name Hin.
  apply elem_of_glob_json in Hin as [[f Hf] Hjson].
  unfold save_snapshot in Hf; simpl in Hf. fold (snapshot_name now) in Hf.
  destruct (decide (name = snapshot_name now)) as [-> | Hne].
  - exists now. auto.
  - rewrite lookup_insert_ne in Hf by congruence.
    destruct (Hst name) as (t & Ht & -> & Htnow).
    { apply elem_of_glob_json. split; [eexists; exact Hf | exact Hjson]. }
    exists t. split; [exact Ht |]. split; [reflexivity |].
    apply snapshot_name_le; [exact Ht | exact Hlater |].
    transitivity (snapshot_name now); apply snapshot_name_le; assumption.
Qed.

(** In a store written by [save_snapshot] alone under a clock that does
    not go back, what a sweep saves is what the next sweep loads. *)
Corollary sweep_reads_back (st : store) (now : datetime) (data : pyval) :
  calendar now = true ->
  written_until st now ->
  load_previous_snapshot (snd (save_snapshot st now data)) = Ok data.
Proof.
  intros Hnow Hst. apply load_after_save.
  pose proof (written_until_sorted st now Hnow Hst) as Hsorted.
  rewrite Forall_forall in Hsorted. exact Hsorted.
Qed.

(** Two sweeps half an hour apart, from the empty store. *)
Example two_sweeps :
  let st1 := snd (save_snapshot ∅ at_13_56_05 snapshot_a) in
  let st2 := snd (save_snapshot st1 at_14_26_02 snapshot_b) in
  load_previous_snapshot st1 = Ok snapshot_a /\
  load_previous_snapshot st2 = Ok snapshot_b /\
  written_until st2 at_14_26_02.
Proof.
  split; [| split].
  - apply sweep_reads_back; [reflexivity | apply written_until_empty].
  - apply sweep_reads_back; [reflexivity |].
    apply written_until_save; try reflexivity; [discriminate |].
    apply written_until_empty.
  - apply written_until_save; try reflexivity; [discriminate |].
    apply written_until_save; try reflexivity; [discriminate |].
    apply written_until_empty.
Qed.

(** ** Change detection: the loops *)

Lemma for_each_fixed {A S} (body : S -> A -> result S) (xs : list A) (s : S) :
  Forall (fun x => body s x = Ok s) xs -> for_each body xs s = Ok s.
Proof.
  induction 1 as [| x xs Hx _ IH]; simpl.
  - reflexivity.
  - rewrite Hx. exact IH.
Qed.

Lemma get_list_field (ok : pyval -> bool) (d : list (string * pyval))
  (k : string) :
  field_is_list ok d k = true ->
  Py.get (PDict d) k (PList []) = Ok (PList (observations k (PDict d))) /\
  forallb ok (observations k (PDict d)) = true.
Proof.
  unfold field_is_list, observations, Py.get.
  destruct (Py.dict_find k d) as [[| | | | | l |] |]; simpl;
    try discriminate; auto.
Qed.

(** [detect_changes] on two dicts whose ["wallets"] and ["prices"] are
    lists, or absent: the two indexes and the two loops. *)
Lemma detect_changes_steps (ok1 ok2 ok3 ok4 : pyval -> bool)
  (dc dp : list (string * pyval)) :
  field_is_list ok1 dc "wallets" = true ->
  field_is_list ok2 dc "prices" = true ->
  field_is_list ok3 dp "wallets" = true ->
  field_is_list ok4 dp "prices" = true ->
  detect_changes (PDict dc) (PDict dp) =
  (let* prev_wallets := index_by "address" (observations "wallets" (PDict dp)) in
   let* alerts :=
     for_each (wallet_body prev_wallets) (observations "wallets" (PDict dc)) [] in
   let* prev_prices := index_by "symbol" (observations "prices" (PDict dp)) in
   for_each (price_body prev_prices) (observations "prices" (PDict dc)) alerts).
Proof.
  intros H1 H2 H3 H4. unfold detect_changes.
  destruct (get_list_field _ _ _ H1) as [-> _].
  destruct (get_list_field _ _ _ H2) as [-> _].
  destruct (get_list_field _ _ _ H3) as [-> _].
  destruct (get_list_field _ _ _ H4) as [-> _].
  reflexivity.
Qed.

Lemma key_of_getitem (field : string) (x : pyval) (k : string) :
  key_of field x = Some k ->
  exists d, x = PDict d /\ Py.dict_find field d = Some (PStr k).
Proof.
  unfold key_of. destruct x as [| | | | | |d]; try discriminate.
  destruct (Py.dict_find field d) as [[| | | |s| |] |] eqn:E; try discriminate.
  intros [= ->]. eauto.
Qed.

(** A wallet whose address is not in the index adds no alert. *)
Lemma wallet_body_absent (prev_wallets : gmap string pyval)
  (alerts : list string) (wallet : pyval) (a : string) :
  key_of "address" wallet = Some a ->
  prev_wallets !! a = None ->
  wallet_body prev_wallets alerts wallet = Ok alerts.
Proof.
  intros Hkey Hnone. apply key_of_getitem in Hkey as (d & -> & Hd).
  unfold wallet_body; simpl. rewrite Hd; simpl. rewrite Hnone. reflexivity.
Qed.

(** A token whose symbol is not in the index adds no alert. *)
Lemma price_body_absent (prev_prices : gmap string pyval)
  (alerts : list string) (price : pyval) (sym : string) :
  key_of "symbol" price = Some sym ->
  prev_prices !! sym = None ->
  price_body prev_prices alerts price = Ok alerts.
Proof.
  intros Hkey Hnone. apply key_of_getitem in Hkey as (d & -> & Hd).
  unfold price_body; simpl. rewrite Hd; simpl. rewrite Hnone. reflexivity.
Qed.

(** *** The index of the previous observations *)

Lemma index_body_inv (field : string) (m m' : gmap string pyval) (x : pyval) :
  index_body field m x = Ok m' ->
  exists k, key_of field x = Some k /\ m' = <[k := x]> m.
Proof.
  unfold index_body, key_of, Py.getitem.
  destruct x as [| | | | | | d]; simpl; try discriminate.
  destruct (Py.dict_find field d) as [[| | | | k | |] |]; simpl;
    try discriminate.
  intros [= <-]. eauto.
Qed.

Lemma index_body_keyed (field : string) (m : gmap string pyval) (x : pyval)
  (k : string) :
  key_of field x = Some k -> index_body field m x = Ok (<[k := x]> m).
Proof.
  intros Hkey. apply key_of_getitem in Hkey as (d & -> & Hd).
  unfold index_body; simpl. rewrite Hd. reflexivity.
Qed.

Lemma index_total (field : string) (xs : list pyval) (m0 : gmap string pyval) :
  forallb (has_key field) xs = true ->
  exists m, for_each (index_body field) xs m0 = Ok m.
Proof.
  revert m0. induction xs as [| x xs IH]; intros m0 Hall; simpl.
  - eauto.
  - simpl in Hall. apply andb_true_iff in Hall as [Hx Hxs].
    unfold has_key in Hx. destruct (key_of field x) as [k |] eqn:E;
      [| discriminate].
    rewrite (index_body_keyed _ _ _ _ E); simpl. apply IH, Hxs.
Qed.

(** A key none of the items has is looked up as before. *)
Lemma index_lookup_other (field : string) (xs : list pyval)
  (m0 m : gmap string pyval) (k : string) :
  for_each (index_body field) xs m0 = Ok m ->
  Some k ∉ map (key_of field) xs ->
  m !! k = m0 !! k.
Proof.
  revert m0. induction xs as [| x xs IH]; intros m0 Hrun Hnot; simpl in *.
  - congruence.
  - destruct (index_body field m0 x) as [m1 |] eqn:E; [| discriminate].
    apply index_body_inv in E as (kx & Hkx & ->). simpl in Hrun.
    rewrite (IH _ Hrun).
    + apply lookup_insert_ne. intros ->. apply Hnot. rewrite Hkx. left.
    + intros Hin. apply Hnot. right. exact Hin.
Qed.

(** When the keys of the items are distinct, each item is found under
    its key. *)
Lemma index_lookup_nodup (field : string) (xs : list pyval)
  (m0 m : gmap string pyval) (x : pyval) (k : string) :
  for_each (index_body field) xs m0 = Ok m ->
  NoDup (map (key_of field) xs) ->
  x ∈ xs ->
  key_of field x = Some k ->
  m !! k = Some x.
Proof.
  revert m0. induction xs as [| y xs IH]; intros m0 Hrun Hnodup Hin Hkey;
    simpl in *.
  - inversion Hin.
  - destruct (index_body field m0 y) as [m1 |] eqn:E; [| discriminate].
    apply index_body_inv in E as (ky & Hky & ->). simpl in Hrun.
    apply NoDup_cons in Hnodup as [Hfresh Hnodup].
    destruct (decide (Some k ∈ map (key_of field) xs)) as [Hlater | Hlast].
    + apply (IH _ Hrun Hnodup); [| exact Hkey].
      apply elem_of_cons in Hin as [-> | Hin]; [| exact Hin].
      rewrite Hkey in Hfresh. contradiction.
    + rewrite (index_lookup_other _ _ _ _ _ Hrun Hlast).
      apply elem_of_cons in Hin as [-> | Hin].
      * rewrite Hkey in Hky. injection Hky as <-. apply lookup_insert_eq.
      * exfalso. apply Hlast. rewrite <- Hkey.
        apply list_elem_of_fmap. eauto.
Qed.

(** Whatever is found in the index is one of the items, under its key. *)
Lemma index_lookup_inv (field : string) (xs : list pyval)
  (m0 m : gmap string pyval) (x : pyval) (k : string) :
  for_each (index_body field) xs m0 = Ok m ->
  m !! k = Some x ->
  m0 !! k = Some x \/ (x ∈ xs /\ key_of field x = Some k).
Proof.
  revert m0. induction xs as [| y xs IH]; intros m0 Hrun Hget; simpl in *.
  - left. congruence.
  - destruct (index_body field m0 y) as [m1 |] eqn:E; [| discriminate].
    apply index_body_inv in E as (ky & Hky & ->). simpl in Hrun.
    destruct (IH _ Hrun Hget) as [Hm1 | [Hin Hkey]].
    + destruct (decide (ky = k)) as [-> | Hne].
      * rewrite lookup_insert_eq in Hm1. injection Hm1 as <-.
        right. split; [left | exact Hky].
      * rewrite lookup_insert_ne in Hm1 by exact Hne. left. exact Hm1.
    + right. split; [right; exact Hin | exact Hkey].
Qed.

(** ** The first run *)

(** C5. When the store holds no [*.json] record, [load_previous_snapshot]
    returns the empty dict, whose wallets and prices read as the empty
    list, and does not fail; and [detect_changes] of any current snapshot
    (every observation of which has its string key) against it returns the
    empty alert list. *)
Theorem first_run_has_no_alerts :
  forall (st : store) (current : pyval),
    glob_json st = [] ->
    keyed_snapshot current = true ->
    load_previous_snapshot st = Ok (PDict []) /\
    Py.get (PDict []) "wallets" (PList []) = Ok (PList []) /\
    Py.get (PDict []) "prices" (PList []) = Ok (PList []) /\
    detect_changes current (PDict []) = Ok [].
Proof.
  intros st current Hempty Hkeyed.
  split; [| split; [reflexivity | split; [reflexivity |]]].
  - unfold load_previous_snapshot. rewrite Hempty. reflexivity.
  - destruct current as [| | | | | | dc]; try discriminate.
    apply andb_true_iff in Hkeyed as [Hw Hp].
    rewrite (detect_changes_steps _ _ (fun _ => true) (fun _ => true) _ _ Hw Hp)
      by reflexivity.
    destruct (get_list_field _ _ _ Hw) as [_ Hws].
    destruct (get_list_field _ _ _ Hp) as [_ Hps].
    change (index_by "address" (observations "wallets" (PDict []))) with
      (Ok (A := gmap string pyval) ∅).
    change (index_by "symbol" (observations "prices" (PDict []))) with
      (Ok (A := gmap string pyval) ∅).
    cbn [bind].
    rewrite for_each_fixed; cbn [bind].
    + apply for_each_fixed.
      apply Forall_forall. intros p Hin.
      rewrite forallb_forall in Hps.
      apply list_elem_of_In, Hps in Hin. unfold has_key in Hin.
      destruct (key_of "symbol" p) as [sym |] eqn:E; [| discriminate].
      apply (price_body_absent _ _ _ sym E), lookup_empty.
    + apply Forall_forall. intros x Hin.
      rewrite forallb_forall in Hws.
      apply list_elem_of_In, Hws in Hin. unfold has_key in Hin.
      destruct (key_of "address" x) as [a |] eqn:E; [| discriminate].
      apply (wallet_body_absent _ _ _ a E), lookup_empty.
Qed.

(** *** What one iteration of each loop does *)

(** A wallet with no balance of its own adds no alert. *)
Lemma wallet_body_unread (prev_wallets : gmap string pyval)
  (alerts : list string) (d : list (string * pyval)) (a : string) :
  Py.dict_find "address" d = Some (PStr a) ->
  from_option id PNone (Py.dict_find "balance_sol" d) = PNone ->
  wallet_body prev_wallets alerts (PDict d) = Ok alerts.
Proof.
  intros Hd Hb. unfold wallet_body; simpl. rewrite Hd; simpl.
  destruct (prev_wallets !! a); [| reflexivity].
  rewrite Hb. reflexivity.
Qed.

(** A wallet whose previous balance is absent, [None] or zero adds no
    alert, whatever its own balance. *)
Lemma wallet_body_no_previous (prev_wallets : gmap string pyval)
  (alerts : list string) (d pd : list (string * pyval)) (a : string) :
  Py.dict_find "address" d = Some (PStr a) ->
  prev_wallets !! a = Some (PDict pd) ->
  Py.truthy (get_or_zero "balance_sol" pd) = false ->
  wallet_body prev_wallets alerts (PDict d) = Ok alerts.
Proof.
  intros Hd Hfound Hfalsy. unfold wallet_body; simpl. rewrite Hd; simpl.
  rewrite Hfound; simpl.
  destruct (Py.dict_find "balance_sol" d) as [b |] eqn:Hb; simpl;
    [| reflexivity].
  destruct (Py.is_none b); [reflexivity |].
  unfold Py.or_. fold (get_or_zero "balance_sol" pd). rewrite Hfalsy.
  reflexivity.
Qed.

(** A wallet with a float balance now and a non-zero float balance
    before: the alert is added exactly when the previous balance is
    positive and the magnitude of the change is above 5. *)
Lemma wallet_body_compared (prev_wallets : gmap string pyval)
  (alerts : list string) (d pd : list (string * pyval)) (a label : string)
  (c p : spec_float) :
  Py.dict_find "address" d = Some (PStr a) ->
  Py.dict_find "label" d = Some (PStr label) ->
  Py.dict_find "balance_sol" d = Some (PFloat c) ->
  prev_wallets !! a = Some (PDict pd) ->
  Py.dict_find "balance_sol" pd = Some (PFloat p) ->
  F64.is_zero p = false ->
  wallet_body prev_wallets alerts (PDict d) =
  Ok (if F64.ltb F64.pzero p && F64.ltb (F64.of_Z 5) (F64.abs (change_pct c p))
      then alerts ++ [wallet_alert label c p]
      else alerts).
Proof.
  intros Hd Hl Hb Hfound Hpb Hz. unfold wallet_body; simpl.
  rewrite Hd; simpl. rewrite Hfound; simpl. rewrite Hb, Hpb; simpl.
  unfold Py.or_; simpl. rewrite Hz; simpl.
  change (F64.of_Z 0) with F64.pzero.
  destruct (F64.ltb F64.pzero p); simpl; [| reflexivity].
  unfold Py.truediv; simpl. rewrite Hz; simpl.
  unfold Py.gt_int; simpl. fold (change_pct c p).
  destruct (F64.ltb (F64.of_Z 5) (F64.abs (change_pct c p))); simpl;
    [| reflexivity].
  rewrite Hl; simpl. reflexivity.
Qed.

(** A token one of whose prices does not parse adds no alert. *)
Lemma price_body_unparsed (prev_prices : gmap string pyval)
  (alerts : list string) (d pd : list (string * pyval)) (sym : string) :
  Py.dict_find "symbol" d = Some (PStr sym) ->
  prev_prices !! sym = Some (PDict pd) ->
  skipped (Py.float_ (get_or_zero "price_usd" d)) \/
  (exists c, Py.float_ (get_or_zero "price_usd" d) = Ok c) /\
  skipped (Py.float_ (get_or_zero "price_usd" pd)) ->
  price_body prev_prices alerts (PDict d) = Ok alerts.
Proof.
  intros Hd Hfound Hbad. unfold price_body; simpl. rewrite Hd; simpl.
  rewrite Hfound; simpl.
  fold (get_or_zero "price_usd" d). fold (get_or_zero "price_usd" pd).
  destruct Hbad as [[-> | ->] | [[c ->] [-> | ->]]]; reflexivity.
Qed.

(** A token both of whose prices parse: the alert is added exactly when
    the previous price is positive and the magnitude of the change is
    above 10. *)
Lemma price_body_compared (prev_prices : gmap string pyval)
  (alerts : list string) (d pd : list (string * pyval)) (sym : string)
  (c p : spec_float) :
  Py.dict_find "symbol" d = Some (PStr sym) ->
  prev_prices !! sym = Some (PDict pd) ->
  Py.float_ (get_or_zero "price_usd" d) = Ok c ->
  Py.float_ (get_or_zero "price_usd" pd) = Ok p ->
  price_body prev_prices alerts (PDict d) =
  Ok (if F64.ltb F64.pzero p && F64.ltb (F64.of_Z 10) (F64.abs (change_pct c p))
      then alerts ++ [price_alert sym c p]
      else alerts).
Proof.
  intros Hd Hfound Hc Hp. unfold price_body; simpl. rewrite Hd; simpl.
  rewrite Hfound; simpl.
  fold (get_or_zero "price_usd" d). fold (get_or_zero "price_usd" pd).
  rewrite Hc, Hp; simpl. fold (change_pct c p).
  destruct (F64.ltb F64.pzero p); simpl; [| reflexivity].
  destruct (F64.ltb (F64.of_Z 10) (F64.abs (change_pct c p))); reflexivity.
Qed.

(** ** Change detection against the same snapshot *)

Lemma sub_diag_finite (s : bool) (m : positive) (e : Z) :
  F64.sub (S754_finite s m e) (S754_finite s m e) = S754_zero false.
Proof.
  unfold F64.sub, SFsub. rewrite Z.sub_diag. reflexivity.
Qed.

(** The change of a positive float against itself is zero, or not a
    number when the float is infinite. *)
Lemma change_pct_diag (f : spec_float) :
  F64.ltb F64.pzero f = true ->
  change_pct f f = S754_zero false \/ change_pct f f = S754_nan.
Proof.
  unfold change_pct. destruct f as [s | s | | s m e]; intros Hpos.
  - discriminate.
  - right. destruct s; reflexivity.
  - discriminate.
  - left. rewrite sub_diag_finite. destruct s; [discriminate | reflexivity].
Qed.

Lemma positive_is_nonzero (f : spec_float) :
  F64.ltb F64.pzero f = true -> F64.is_zero f = false.
Proof. destruct f; [discriminate | reflexivity ..]. Qed.

Lemma valid_wallet_keyed (w : pyval) :
  valid_wallet w = true -> exists a, key_of "address" w = Some a.
Proof.
  destruct w as [| | | | | | d]; try discriminate. simpl.
  unfold field_is_str.
  destruct (Py.dict_find "address" d) as [[| | | | a | |] |];
    try discriminate. eauto.
Qed.

Lemma valid_price_keyed (p : pyval) :
  valid_price p = true -> exists sym, key_of "symbol" p = Some sym.
Proof.
  destruct p as [| | | | | | d]; try discriminate. simpl.
  unfold field_is_str.
  destruct (Py.dict_find "symbol" d) as [[| | | | sym | |] |];
    try discriminate. eauto.
Qed.

(** A wallet found in the index as itself adds no alert. *)
Lemma wallet_body_same (prev_wallets : gmap string pyval)
  (alerts : list string) (wallet : pyval) (a : string) :
  valid_wallet wallet = true ->
  key_of "address" wallet = Some a ->
  prev_wallets !! a = Some wallet ->
  wallet_body prev_wallets alerts wallet = Ok alerts.
Proof.
  intros Hvalid Hkey Hfound.
  apply key_of_getitem in Hkey as (d & -> & Hd).
  unfold wallet_body; simpl. rewrite Hd; simpl. rewrite Hfound; simpl.
  simpl in Hvalid.
  destruct (Py.dict_find "balance_sol" d) as [[| | | f | | |] |];
    simpl; try reflexivity;
    try (rewrite andb_false_r in Hvalid; discriminate).
  unfold Py.or_; simpl.
  destruct (F64.is_zero f) eqn:Hz; simpl; [reflexivity |].
  change (F64.of_Z 0) with F64.pzero.
  destruct (F64.ltb F64.pzero f) eqn:Hpos; simpl; [| reflexivity].
  unfold Py.truediv; simpl. rewrite Hz; simpl.
  unfold Py.gt_int; simpl. fold (change_pct f f).
  destruct (change_pct_diag f Hpos) as [-> | ->]; reflexivity.
Qed.

Lemma valid_price_inv (p : pyval) :
  valid_price p = true ->
  exists d sym,
    p = PDict d /\
    Py.dict_find "symbol" d = Some (PStr sym) /\
    ((exists f, Py.float_ (get_or_zero "price_usd" d) = Ok f) \/
     skipped (Py.float_ (get_or_zero "price_usd" d))).
Proof.
  destruct p as [| | | | | | d]; try discriminate. simpl.
  unfold field_is_str, parses_or_skips, skipped.
  destruct (Py.dict_find "symbol" d) as [[| | | | sym | |] |] eqn:Hs;
    try discriminate.
  intros H. exists d, sym.
  split; [reflexivity |]. split; [exact Hs |].
  destruct (Py.float_ (get_or_zero "price_usd" d)) as [f | []];
    simpl in *; try discriminate; eauto.
Qed.

(** A token found in the index as itself adds no alert. *)
Lemma price_body_same (prev_prices : gmap string pyval)
  (alerts : list string) (price : pyval) (sym : string) :
  valid_price price = true ->
  key_of "symbol" price = Some sym ->
  prev_prices !! sym = Some price ->
  price_body prev_prices alerts price = Ok alerts.
Proof.
  intros Hvalid Hkey Hfound.
  apply valid_price_inv in Hvalid as (d & sym' & -> & Hsym & Hfloat).
  unfold key_of in Hkey. rewrite Hsym in Hkey. injection Hkey as ->.
  destruct Hfloat as [[f Hf] | Hskip].
  - rewrite (price_body_compared _ _ _ d sym f f Hsym Hfound Hf Hf).
    destruct (F64.ltb F64.pzero f) eqn:Hpos; simpl; [| reflexivity].
    destruct (change_pct_diag f Hpos) as [-> | ->]; reflexivity.
  - apply (price_body_unparsed _ _ _ d sym Hsym Hfound). left. exact Hskip.
Qed.

Lemma valid_snapshot_fields (s : pyval) :
  valid_snapshot s = true ->
  exists d, s = PDict d /\
            field_is_list valid_wallet d "wallets" = true /\
            field_is_list valid_price d "prices" = true.
Proof.
  destruct s as [| | | | | | d]; try discriminate. simpl.
  intros [Hw Hp]%andb_true_iff. eauto.
Qed.

Lemma forallb_keyed (ok : pyval -> bool) (field : string) (xs : list pyval) :
  (forall x, ok x = true -> exists k, key_of field x = Some k) ->
  forallb ok xs = true -> forallb (has_key field) xs = true.
Proof.
  intros Hok Hall. rewrite forallb_forall in *. intros x Hx.
  destruct (Hok x (Hall x Hx)) as [k Hk]. unfold has_key. rewrite Hk.
  reflexivity.
Qed.

(** C2, as stated, fails on a snapshot that lists one address twice with
    different balances: the index keeps the later observation, and the
    earlier one is compared with it. *)
Lemma self_comparison_with_repeated_address :
  valid_snapshot snapshot_twice = true /\
  detect_changes snapshot_twice snapshot_twice =
  Ok ["Wallet hot: Balance decreased by 50.0% (200.0000 -> 100.0000 SOL)"] /\
  detect_changes snapshot_twice snapshot_twice <> Ok [].
Proof.
  split; [reflexivity |].
  assert (H : detect_changes snapshot_twice snapshot_twice =
              Ok ["Wallet hot: Balance decreased by 50.0% (200.0000 -> 100.0000 SOL)"])
    by (vm_compute; reflexivity).
  split; [exact H | rewrite H; discriminate].
Qed.

(** C2, amended. For every snapshot of the data model in which no address
    and no symbol is listed twice, [detect_changes] of the snapshot against
    itself returns the empty list; a balance that is absent, zero,
    negative, infinite or not a number and a price that does not parse or
    is not positive are among the cases. *)
Theorem self_comparison_has_no_alerts :
  forall s : pyval,
    valid_snapshot s = true ->
    NoDup (map (key_of "address") (observations "wallets" s)) ->
    NoDup (map (key_of "symbol") (observations "prices" s)) ->
    detect_changes s s = Ok [].
Proof.
  intros s Hvalid Hwallets Hprices.
  apply valid_snapshot_fields in Hvalid as (d & -> & Hw & Hp).
  rewrite (detect_changes_steps _ _ _ _ _ _ Hw Hp Hw Hp).
  destruct (get_list_field _ _ _ Hw) as [_ Hws].
  destruct (get_list_field _ _ _ Hp) as [_ Hps].
  destruct (index_total "address" (observations "wallets" (PDict d)) ∅)
    as [pw Hpw]; [exact (forallb_keyed _ _ _ valid_wallet_keyed Hws) |].
  destruct (index_total "symbol" (observations "prices" (PDict d)) ∅)
    as [pp Hpp]; [exact (forallb_keyed _ _ _ valid_price_keyed Hps) |].
  unfold index_by. rewrite Hpw, Hpp. cbn [bind].
  rewrite forallb_forall in Hws, Hps.
  rewrite for_each_fixed; cbn [bind].
  - apply for_each_fixed, Forall_forall. intros p Hin.
    assert (Hv : valid_price p = true) by (apply Hps, list_elem_of_In, Hin).
    destruct (valid_price_keyed p Hv) as [sym Hsym].
    apply (price_body_same _ _ _ sym Hv Hsym).
    apply (index_lookup_nodup _ _ _ _ _ _ Hpp Hprices Hin Hsym).
  - apply Forall_forall. intros w Hin.
    assert (Hv : valid_wallet w = true) by (apply Hws, list_elem_of_In, Hin).
    destruct (valid_wallet_keyed w Hv) as [a Ha].
    apply (wallet_body_same _ _ _ a Hv Ha).
    apply (index_lookup_nodup _ _ _ _ _ _ Hpw Hwallets Hin Ha).
Qed.

Lemma self_comparison_has_no_alerts_witness :
  valid_snapshot snapshot_mixed = true /\
  NoDup (map (key_of "address") (observations "wallets" snapshot_mixed)) /\
  NoDup (map (key_of "symbol") (observations "prices" snapshot_mixed)) /\
  detect_changes snapshot_mixed snapshot_mixed = Ok [].
Proof.
  assert (H1 : valid_snapshot snapshot_mixed = true) by reflexivity.
  assert (H2 : NoDup (map (key_of "address")
                        (observations "wallets" snapshot_mixed))).
  { apply (bool_decide_eq_true_1 _). vm_compute. reflexivity. }
  assert (H3 : NoDup (map (key_of "symbol")
                        (observations "prices" snapshot_mixed))).
  { apply (bool_decide_eq_true_1 _). vm_compute. reflexivity. }
  split; [exact H1 |]. split; [exact H2 |]. split; [exact H3 |].
  exact (self_comparison_has_no_alerts snapshot_mixed H1 H2 H3).
Defined.

(** ** Change detection on snapshots of the data model *)

Lemma valid_wallet_inv (w : pyval) :
  valid_wallet w = true ->
  exists d a label,
    w = PDict d /\
    Py.dict_find "address" d = Some (PStr a) /\
    Py.dict_find "label" d = Some (PStr label) /\
    (from_option id PNone (Py.dict_find "balance_sol" d) = PNone \/
     exists c, Py.dict_find "balance_sol" d = Some (PFloat c)).
Proof.
  destruct w as [| | | | | | d]; try discriminate. simpl.
  unfold field_is_str.
  destruct (Py.dict_find "address" d) as [[| | | | a | |] |] eqn:Ha;
    try discriminate.
  destruct (Py.dict_find "label" d) as [[| | | | label | |] |] eqn:Hl;
    try discriminate.
  intros H. exists d, a, label.
  split; [reflexivity |]. split; [exact Ha |]. split; [exact Hl |].
  destruct (Py.dict_find "balance_sol" d) as [[| | | c | | |] |];
    simpl in *; try discriminate; eauto.
Qed.

(** On a wallet of the data model an iteration does not fail, and adds
    at most one alert at the end of the list. *)
Lemma wallet_body_valid (prev_wallets : gmap string pyval) (w : pyval) :
  valid_wallet w = true ->
  (forall k x, prev_wallets !! k = Some x -> valid_wallet x = true) ->
  exists l, (length l <= 1)%nat /\
            forall alerts, wallet_body prev_wallets alerts w = Ok (alerts ++ l).
Proof.
  intros Hw Hindex.
  apply valid_wallet_inv in Hw as (d & a & label & -> & Ha & Hl & Hb).
  destruct (prev_wallets !! a) as [x |] eqn:Hfound.
  - pose proof (Hindex _ _ Hfound) as Hx. apply valid_wallet_inv in Hx.
    destruct Hx as (pd & _ & _ & -> & _ & _ & Hpb).
    destruct Hb as [Hb | [c Hb]].
    { exists []. split; [simpl; lia |]. intros alerts. rewrite app_nil_r.
      apply (wallet_body_unread _ _ _ a Ha Hb). }
    destruct Hpb as [Hpb | [p Hpb]].
    { exists []. split; [simpl; lia |]. intros alerts. rewrite app_nil_r.
      apply (wallet_body_no_previous _ _ _ pd a Ha Hfound).
      unfold get_or_zero.
      destruct (Py.dict_find "balance_sol" pd) as [v |]; simpl in *;
        [subst v |]; reflexivity. }
    destruct (F64.is_zero p) eqn:Hz.
    { exists []. split; [simpl; lia |]. intros alerts. rewrite app_nil_r.
      apply (wallet_body_no_previous _ _ _ pd a Ha Hfound).
      unfold get_or_zero. rewrite Hpb. simpl. rewrite Hz. reflexivity. }
    exists (if F64.ltb F64.pzero p &&
               F64.ltb (F64.of_Z 5) (F64.abs (change_pct c p))
            then [wallet_alert label c p] else []).
    split; [destruct (_ && _); simpl; lia |]. intros alerts.
    rewrite (wallet_body_compared _ _ _ pd a label c p Ha Hl Hb Hfound Hpb Hz).
    destruct (_ && _); [reflexivity | rewrite app_nil_r; reflexivity].
  - exists []. split; [simpl; lia |]. intros alerts. rewrite app_nil_r.
    apply (wallet_body_absent _ _ _ a); [| exact Hfound].
    unfold key_of. rewrite Ha. reflexivity.
Qed.

(** The same on a token of the data model. *)
Lemma price_body_valid (prev_prices : gmap string pyval) (p : pyval) :
  valid_price p = true ->
  (forall k x, prev_prices !! k = Some x -> valid_price x = true) ->
  exists l, (length l <= 1)%nat /\
            forall alerts, price_body prev_prices alerts p = Ok (alerts ++ l).
Proof.
  intros Hp Hindex.
  apply valid_price_inv in Hp as (d & sym & -> & Hsym & Hc).
  destruct (prev_prices !! sym) as [x |] eqn:Hfound.
  - pose proof (Hindex _ _ Hfound) as Hx. apply valid_price_inv in Hx.
    destruct Hx as (pd & _ & -> & _ & Hpp).
    destruct Hc as [[c Hc] | Hc].
    + destruct Hpp as [[q Hq] | Hq].
      * exists (if F64.ltb F64.pzero q &&
                   F64.ltb (F64.of_Z 10) (F64.abs (change_pct c q))
                then [price_alert sym c q] else []).
        split; [destruct (_ && _); simpl; lia |]. intros alerts.
        rewrite (price_body_compared _ _ _ pd sym c q Hsym Hfound Hc Hq).
        destruct (_ && _); [reflexivity | rewrite app_nil_r; reflexivity].
      * exists []. split; [simpl; lia |]. intros alerts. rewrite app_nil_r.
        apply (price_body_unparsed _ _ _ pd sym Hsym Hfound). eauto.
    + exists []. split; [simpl; lia |]. intros alerts. rewrite app_nil_r.
      apply (price_body_unparsed _ _ _ pd sym Hsym Hfound). left. exact Hc.
  - exists []. split; [simpl; lia |]. intros alerts. rewrite app_nil_r.
    apply (price_body_absent _ _ _ sym); [| exact Hfound].
    unfold key_of. rewrite Hsym. reflexivity.
Qed.

(** A loop whose iterations each append their own alerts appends them in
    the order of the items. *)
Lemma for_each_appends {A} (body : list string -> A -> result (list string))
  (xs : list A) :
  Forall (fun x => exists l, (length l <= 1)%nat /\
                             forall s, body s x = Ok (s ++ l)) xs ->
  exists ls,
    Forall2 (fun x l => body [] x = Ok l /\ (length l <= 1)%nat) xs ls /\
    forall s, for_each body xs s = Ok (s ++ concat ls).
Proof.
  induction 1 as [| x xs (l & Hlen & Hx) _ (ls & Hls & Hrun)].
  - exists []. split; [constructor |]. intros s. simpl.
    rewrite app_nil_r. reflexivity.
  - exists (l :: ls). split.
    + constructor; [| exact Hls]. split; [apply (Hx []) | exact Hlen].
    + intros s. simpl. rewrite Hx. simpl. rewrite Hrun, app_assoc.
      reflexivity.
Qed.

Lemma index_by_valid (ok : pyval -> bool) (field : string) (xs : list pyval) :
  (forall x, ok x = true -> exists k, key_of field x = Some k) ->
  forallb ok xs = true ->
  exists m, index_by field xs = Ok m /\
            forall k x, m !! k = Some x -> ok x = true.
Proof.
  intros Hkeyed Hall.
  destruct (index_total field xs ∅ (forallb_keyed _ _ _ Hkeyed Hall))
    as [m Hm].
  exists m. split; [exact Hm |]. intros k x Hfound.
  destruct (index_lookup_inv _ _ _ _ _ _ Hm Hfound) as [Hempty | [Hin _]].
  - rewrite lookup_empty in Hempty. discriminate.
  - rewrite forallb_forall in Hall. apply Hall, list_elem_of_In, Hin.
Qed.

(** C6. For every pair of snapshots of the data model, [detect_changes]
    returns the alerts of the wallets of the current snapshot, in the
    order of its wallet list, followed by the alerts of its tokens, in the
    order of its price list; each observation contributes the alert of its
    own iteration, if any. *)
Theorem alerts_follow_current_order :
  forall current previous : pyval,
    valid_snapshot current = true ->
    valid_snapshot previous = true ->
    exists (prev_wallets prev_prices : gmap string pyval)
           (wallet_alerts price_alerts : list (list string)),
      index_by "address" (observations "wallets" previous) = Ok prev_wallets /\
      index_by "symbol" (observations "prices" previous) = Ok prev_prices /\
      Forall2 (fun w l => wallet_body prev_wallets [] w = Ok l /\
                          (length l <= 1)%nat)
              (observations "wallets" current) wallet_alerts /\
      Forall2 (fun p l => price_body prev_prices [] p = Ok l /\
                          (length l <= 1)%nat)
              (observations "prices" current) price_alerts /\
      detect_changes current previous =
      Ok (concat wallet_alerts ++ concat price_alerts).
Proof.
  intros current previous Hc Hp.
  apply valid_snapshot_fields in Hc as (dc & -> & Hcw & Hcp).
  apply valid_snapshot_fields in Hp as (dp & -> & Hpw & Hpp).
  rewrite (detect_changes_steps _ _ _ _ _ _ Hcw Hcp Hpw Hpp).
  destruct (get_list_field _ _ _ Hcw) as [_ Hcws].
  destruct (get_list_field _ _ _ Hcp) as [_ Hcps].
  destruct (get_list_field _ _ _ Hpw) as [_ Hpws].
  destruct (get_list_field _ _ _ Hpp) as [_ Hpps].
  destruct (index_by_valid _ "address" _ valid_wallet_keyed Hpws)
    as (pw & Hpw_eq & Hpw_ok).
  destruct (index_by_valid _ "symbol" _ valid_price_keyed Hpps)
    as (pp & Hpp_eq & Hpp_ok).
  destruct (for_each_appends (wallet_body pw) (observations "wallets" (PDict dc)))
    as (was & Hwas & Hwrun).
  { apply Forall_forall. intros w Hin. rewrite forallb_forall in Hcws.
    apply wallet_body_valid; [apply Hcws, list_elem_of_In, Hin | exact Hpw_ok]. }
  destruct (for_each_appends (price_body pp) (observations "prices" (PDict dc)))
    as (pas & Hpas & Hprun).
  { apply Forall_forall. intros p Hin. rewrite forallb_forall in Hcps.
    apply price_body_valid; [apply Hcps, list_elem_of_In, Hin | exact Hpp_ok]. }
  exists pw, pp, was, pas.
  rewrite Hpw_eq, Hpp_eq. cbn [bind]. rewrite Hwrun. cbn [bind].
  rewrite Hprun. simpl. auto.
Qed.

(** *** What [check_wallets] records is of the data model *)

Lemma truediv_is_float (a b v : pyval) :
  Py.truediv a b = Ok v -> exists f, v = PFloat f.
Proof.
  unfold Py.truediv.
  destruct (Py.as_num a) as [x |]; simpl; [| discriminate].
  destruct (Py.as_num b) as [y |]; simpl; [| discriminate].
  destruct x as [p | fx], y as [q | fy]; simpl.
  - destruct (q =? 0); [discriminate |].
    destruct (F64.is_inf (F64.of_ratio p q)); [discriminate |].
    intros [= <-]. eauto.
  - destruct (F64.is_inf (F64.of_Z p)); simpl; [discriminate |].
    destruct (F64.is_zero fy); [discriminate |]. intros [= <-]. eauto.
  - destruct (F64.is_inf (F64.of_Z q)); simpl; [discriminate |].
    destruct (F64.is_zero (F64.of_Z q)); [discriminate |].
    intros [= <-]. eauto.
  - destruct (F64.is_zero fy); [discriminate |]. intros [= <-]. eauto.
Qed.

Lemma get_balance_is_float (w : world) (pubkey v : pyval) :
  get_balance w pubkey = Ok v -> exists f, v = PFloat f.
Proof.
  unfold get_balance.
  destruct (rpc_call w "getBalance" [pubkey]) as [result |]; cbn [bind];
    [| discriminate].
  destruct (Py.get result "result" _) as [r |]; simpl; [| discriminate].
  destruct (Py.get r "value" _) as [lamports |]; simpl; [| discriminate].
  apply truediv_is_float.
Qed.

Lemma forallb_snoc {A} (ok : A -> bool) (xs : list A) (x : A) :
  forallb ok xs = true -> ok x = true -> forallb ok (xs ++ [x]) = true.
Proof.
  intros Hxs Hx. rewrite forallb_app, Hxs. simpl. rewrite Hx. reflexivity.
Qed.

Lemma check_wallets_body_valid (w : world) (results results' : list pyval)
  (tick tick' : nat) (wallet : pyval) :
  watched_wallet wallet = true ->
  forallb valid_wallet results = true ->
  check_wallets_body w (results, tick) wallet = Ok (results', tick') ->
  forallb valid_wallet results' = true.
Proof.
  intros Hwatched Hresults.
  destruct wallet as [| | | | | | d]; try discriminate.
  simpl in Hwatched. unfold field_is_str in Hwatched.
  unfold check_wallets_body; simpl.
  destruct (Py.dict_find "address" d) as [[| | | | a | |] |];
    try discriminate. simpl.
  destruct (F64.is_ascii a); simpl; [| discriminate].
  set (label := from_option id (PStr (substring 0 8 a))
                  (Py.dict_find "label" d)).
  assert (Hlabel : exists l, label = PStr l).
  { subst label.
    destruct (Py.dict_find "label" d) as [[| | | | l | |] |];
      try discriminate; simpl; eauto. }
  destruct Hlabel as [l ->].
  destruct (String.eqb a ""); simpl.
  - intros H. inversion H; subst. exact Hresults.
  - destruct (get_balance w (PStr a)) as [balance | e] eqn:Hbalance; simpl.
    + destruct (get_balance_is_float _ _ _ Hbalance) as [f Hf]. subst balance.
      intros H. inversion H; subst.
      apply forallb_snoc; [exact Hresults | reflexivity].
    + destruct e; try discriminate;
        intros H; inversion H; subst;
        (apply forallb_snoc; [exact Hresults | reflexivity]).
Qed.

(** Every observation [check_wallets] records for a watchlist of such
    entries is a wallet of the data model. *)
Lemma check_wallets_valid (w : world) (tick tick' : nat)
  (wallets results : list pyval) :
  forallb watched_wallet wallets = true ->
  check_wallets w tick wallets = Ok (results, tick') ->
  forallb valid_wallet results = true.
Proof.
  unfold check_wallets.
  assert (Hgen : forall acc t, forallb valid_wallet acc = true ->
                   forallb watched_wallet wallets = true ->
                   for_each (check_wallets_body w) wallets (acc, t)
                   = Ok (results, tick') ->
                   forallb valid_wallet results = true).
  { induction wallets as [| x xs IH]; intros acc t Hacc Hall; cbn [for_each].
    - intros H. inversion H; subst. exact Hacc.
    - simpl in Hall. apply andb_true_iff in Hall as [Hx Hxs].
      destruct (check_wallets_body w (acc, t) x) as [[acc' t'] |] eqn:Hstep;
        cbn [bind]; [| discriminate].
      apply (IH acc' t'); [| exact Hxs].
      exact (check_wallets_body_valid _ _ _ _ _ _ Hx Hacc Hstep). }
  intros Hall. apply (Hgen [] tick); [reflexivity | exact Hall].
Qed.

(** ** New wallets and empty previous balances *)

(** C4. The iteration of [detect_changes] for a wallet of the current
    snapshot leaves the alert list as it found it when the address of the
    wallet is not among the previous wallets, and when the previous
    observation of that address has a balance that is absent, [None] or
    zero; the current balance, and the rest of the wallet, is arbitrary. *)
Theorem new_or_empty_wallet_has_no_alert :
  forall (previous_wallets : list pyval) (prev_wallets : gmap string pyval)
         (alerts : list string) (wallet : pyval) (a : string),
    index_by "address" previous_wallets = Ok prev_wallets ->
    key_of "address" wallet = Some a ->
    ((Some a ∉ map (key_of "address") previous_wallets) \/
     exists pd, prev_wallets !! a = Some (PDict pd) /\
                Py.truthy (get_or_zero "balance_sol" pd) = false) ->
    wallet_body prev_wallets alerts wallet = Ok alerts.
Proof.
  intros previous_wallets prev_wallets alerts wallet a Hindex Hkey
    [Hnew | (pd & Hfound & Hzero)].
  - apply (wallet_body_absent _ _ _ a Hkey).
    rewrite (index_lookup_other _ _ _ _ _ Hindex Hnew). apply lookup_empty.
  - apply key_of_getitem in Hkey as (d & -> & Hd).
    apply (wallet_body_no_previous _ _ _ pd a Hd Hfound Hzero).
Qed.

Lemma new_or_empty_wallet_has_no_alert_witness :
  let previous := [wallet_obs drained_address "drained" (dec 0 0)] in
  let prev_wallets : gmap string pyval :=
    {[ drained_address := wallet_obs drained_address "drained" (dec 0 0) ]} in
  index_by "address" previous = Ok prev_wallets /\
  key_of "address" whale = Some treasury_address /\
  (Some treasury_address ∉ map (key_of "address") previous) /\
  wallet_body prev_wallets [] whale = Ok [].
Proof.
  intros previous prev_wallets.
  assert (H1 : index_by "address" previous = Ok prev_wallets) by reflexivity.
  assert (H2 : key_of "address" whale = Some treasury_address) by reflexivity.
  assert (H3 : Some treasury_address ∉ map (key_of "address") previous).
  { apply (bool_decide_eq_true_1 _). vm_compute. reflexivity. }
  split; [exact H1 |]. split; [exact H2 |]. split; [exact H3 |].
  exact (new_or_empty_wallet_has_no_alert previous prev_wallets [] whale
           treasury_address H1 H2 (or_introl H3)).
Defined.

(** A first sighting of a thousand million SOL, and the same balance on a
    wallet that held 0.0 before: no alert either way. *)
Example detect_changes_new_and_drained :
  detect_changes
    (snapshot_of [whale; wallet_obs drained_address "drained" (dec 1 9)] [])
    (snapshot_of [wallet_obs drained_address "drained" (dec 0 0)] [])
  = Ok [].
Proof. vm_compute. reflexivity. Qed.

(** ** The thresholds *)

Lemma grid_agrees_5 : grid_agrees 5 = true.
Proof. vm_compute. reflexivity. Qed.

Lemma grid_agrees_10 : grid_agrees 10 = true.
Proof. vm_compute. reflexivity. Qed.

Lemma grid_agrees_inv (k p c : Z) :
  grid_agrees k = true ->
  1 <= p <= 100 -> 0 <= c <= 2 * p ->
  F64.ltb F64.pzero (F64.of_Z p) = true /\
  F64.ltb (F64.of_Z k) (F64.abs (change_pct (F64.of_Z c) (F64.of_Z p)))
  = (k * p <? Z.abs (c - p) * 100).
Proof.
  intros Hgrid Hp Hc. unfold grid_agrees in Hgrid.
  rewrite forallb_forall in Hgrid.
  specialize (Hgrid p). rewrite andb_true_iff, forallb_forall in Hgrid.
  destruct Hgrid as [Hpos Hrow].
  { apply list_elem_of_In, elem_of_seqZ. lia. }
  split; [exact Hpos |].
  apply eqb_prop, Hrow, list_elem_of_In, elem_of_seqZ. lia.
Qed.

(** C3, as stated, fails on values that binary floating point does not
    hold exactly: a price that goes from 1.000000 to 1.100000 changes
    by 10% and is reported as pumped 10.0%, and a balance that goes from
    1000000000 to 1050000000 lamports changes by 5% and is reported as
    increased by 5.0%. *)
Lemma decimal_threshold_change_alerts :
  (1100000 - 1000000) * 100 = 10 * 1000000 /\
  detect_changes (sol_at "1.100000") (sol_at "1.000000")
  = Ok ["SOL pumped 10.0% ($1.0000 -> $1.1000)"] /\
  (1050000000 - 1000000000) * 100 = 5 * 1000000000 /\
  Py.truediv (PInt 1000000000) (PInt LAMPORTS_PER_SOL) = Ok (dec 1 0) /\
  Py.truediv (PInt 1050000000) (PInt LAMPORTS_PER_SOL) = Ok (dec 105 (-2)) /\
  detect_changes (treasury_at (dec 105 (-2))) (treasury_at (dec 1 0))
  = Ok ["Wallet treasury: Balance increased by 5.0% (1.0000 -> 1.0500 SOL)"].
Proof.
  repeat split; vm_compute; reflexivity.
Qed.

(** C3, amended. The comparison is strict on the change the code
    computes in binary floating point: a wallet in both snapshots with a
    positive previous balance gets its alert exactly when the magnitude
    of [change_pct] is above 5.0, and a token exactly when it is above
    10.0. On whole numbers, previous from 1 to 100 and current from 0 to
    twice the previous, that is exactly when the change itself is above
    5%, or 10%: a change of exactly 5% (10%) adds no alert, any greater
    change adds one. On 100 SOL, 105.0001 and 94.9999 give an alert; on a price of
    100, 110.0001 and 89.9999 give one. *)
Theorem thresholds_are_strict :
  (forall (prev_wallets : gmap string pyval) (alerts : list string)
          (d pd : list (string * pyval)) (a label : string)
          (c p : spec_float),
      Py.dict_find "address" d = Some (PStr a) ->
      Py.dict_find "label" d = Some (PStr label) ->
      Py.dict_find "balance_sol" d = Some (PFloat c) ->
      prev_wallets !! a = Some (PDict pd) ->
      Py.dict_find "balance_sol" pd = Some (PFloat p) ->
      F64.ltb F64.pzero p = true ->
      wallet_body prev_wallets alerts (PDict d) =
      Ok (if F64.ltb (F64.of_Z 5) (F64.abs (change_pct c p))
          then alerts ++ [wallet_alert label c p] else alerts) /\
      forall p' c' : Z,
        p = F64.of_Z p' -> c = F64.of_Z c' ->
        1 <= p' <= 100 -> 0 <= c' <= 2 * p' ->
        wallet_body prev_wallets alerts (PDict d) =
        Ok (if 5 * p' <? Z.abs (c' - p') * 100
            then alerts ++ [wallet_alert label c p] else alerts)) /\
  (forall (prev_prices : gmap string pyval) (alerts : list string)
          (d pd : list (string * pyval)) (sym : string) (c p : spec_float),
      Py.dict_find "symbol" d = Some (PStr sym) ->
      prev_prices !! sym = Some (PDict pd) ->
      Py.float_ (get_or_zero "price_usd" d) = Ok c ->
      Py.float_ (get_or_zero "price_usd" pd) = Ok p ->
      F64.ltb F64.pzero p = true ->
      price_body prev_prices alerts (PDict d) =
      Ok (if F64.ltb (F64.of_Z 10) (F64.abs (change_pct c p))
          then alerts ++ [price_alert sym c p] else alerts) /\
      forall p' c' : Z,
        p = F64.of_Z p' -> c = F64.of_Z c' ->
        1 <= p' <= 100 -> 0 <= c' <= 2 * p' ->
        price_body prev_prices alerts (PDict d) =
        Ok (if 10 * p' <? Z.abs (c' - p') * 100
            then alerts ++ [price_alert sym c p] else alerts)) /\
  detect_changes (treasury_at (dec 1050001 (-4))) (treasury_at (dec 100 0))
  = Ok ["Wallet treasury: Balance increased by 5.0% (100.0000 -> 105.0001 SOL)"] /\
  detect_changes (treasury_at (dec 949999 (-4))) (treasury_at (dec 100 0))
  = Ok ["Wallet treasury: Balance decreased by 5.0% (100.0000 -> 94.9999 SOL)"] /\
  detect_changes (sol_at "110.0001") (sol_at "100")
  = Ok ["SOL pumped 10.0% ($100.0000 -> $110.0001)"] /\
  detect_changes (sol_at "89.9999") (sol_at "100")
  = Ok ["SOL dumped 10.0% ($100.0000 -> $89.9999)"].
Proof.
  split; [| split].
  - intros prev_wallets alerts d pd a label c p Ha Hl Hb Hfound Hpb Hpos.
    rewrite (wallet_body_compared _ _ _ pd a label c p Ha Hl Hb Hfound Hpb
               (positive_is_nonzero p Hpos)).
    rewrite Hpos. cbn [andb]. split; [reflexivity |].
    intros p' c' -> -> Hp Hc.
    destruct (grid_agrees_inv 5 p' c' grid_agrees_5 Hp Hc) as [_ ->].
    reflexivity.
  - intros prev_prices alerts d pd sym c p Hsym Hfound Hc Hp Hpos.
    rewrite (price_body_compared _ _ _ pd sym c p Hsym Hfound Hc Hp).
    rewrite Hpos. cbn [andb]. split; [reflexivity |].
    intros p' c' -> -> Hp' Hc'.
    destruct (grid_agrees_inv 10 p' c' grid_agrees_10 Hp' Hc') as [_ ->].
    reflexivity.
  - repeat split; vm_compute; reflexivity.
Qed.

Lemma thresholds_are_strict_witness :
  let now := [("address", PStr treasury_address); ("label", PStr "treasury");
              ("balance_sol", dec 105 0)] in
  let before := [("address", PStr treasury_address); ("label", PStr "treasury");
                 ("balance_sol", dec 100 0)] in
  let prev_wallets : gmap string pyval := {[ treasury_address := PDict before ]} in
  F64.ltb F64.pzero (F64.of_Z 100) = true /\
  dec 100 0 = PFloat (F64.of_Z 100) /\
  dec 105 0 = PFloat (F64.of_Z 105) /\
  (5 * 100 <? Z.abs (105 - 100) * 100) = false /\
  wallet_body prev_wallets [] (PDict now) = Ok [].
Proof.
  intros now before prev_wallets.
  assert (Hpos : F64.ltb F64.pzero (F64.of_Z 100) = true) by reflexivity.
  split; [exact Hpos |]. split; [reflexivity |]. split; [reflexivity |].
  split; [reflexivity |].
  exact (proj2 (proj1 thresholds_are_strict prev_wallets [] now before
                  treasury_address "treasury" (F64.of_Z 105) (F64.of_Z 100)
                  eq_refl eq_refl eq_refl eq_refl eq_refl Hpos)
               100 105 eq_refl eq_refl ltac:(lia) ltac:(lia)).
Defined.

(** ** A token without a current price *)

Lemma div_eucl_self_scaled (m : positive) :
  Z.div_eucl (Z.shiftl (Z.pos m) 53) (Z.pos m) = (2 ^ 53, 0).
Proof.
  rewrite Z.shiftl_mul_pow2 by lia.
  destruct (Z.div_eucl (Z.pos m * 2 ^ 53) (Z.pos m)) as [q r] eqn:E.
  assert (Hq : q = Z.pos m * 2 ^ 53 / Z.pos m)
    by (unfold Z.div; rewrite E; reflexivity).
  assert (Hr : r = (Z.pos m * 2 ^ 53) mod Z.pos m)
    by (unfold Z.modulo; rewrite E; reflexivity).
  rewrite Z.mul_comm, Z.div_mul in Hq by lia.
  rewrite Z.mul_comm, Z.mod_mul in Hr by lia.
  subst. reflexivity.
Qed.

(** [-x / x] is [-1.0] for every finite positive [x]. *)
Lemma div_opp_self (m : positive) (e : Z) :
  F64.div (S754_finite true m e) (S754_finite false m e)
  = S754_finite true 4503599627370496 (-52).
Proof.
  unfold F64.div, SFdiv, SFdiv_core_binary.
  replace (Zdigits2 (Z.pos m) + e - (Zdigits2 (Z.pos m) + e)) with 0 by lia.
  replace (e - e) with 0 by lia.
  change (Z.min (fexp F64.prec F64.emax 0) 0) with (-53).
  change (0 - -53) with 53.
  cbv iota beta.
  change (IntDef.Z.div_eucl (Z.shiftl (Z.pos m) 53) (Z.pos m))
    with (Z.div_eucl (Z.shiftl (Z.pos m) 53) (Z.pos m)).
  rewrite div_eucl_self_scaled.
  unfold new_location, new_location_even, new_location_odd.
  destruct (Z.even (Z.pos m)); reflexivity.
Qed.

(** The change from a finite positive price to 0.0 is [-100.0]. *)
Lemma change_pct_to_zero (m : positive) (e : Z) :
  change_pct F64.pzero (S754_finite false m e)
  = S754_finite true 7036874417766400 (-46).
Proof.
  unfold change_pct.
  change (F64.sub F64.pzero (S754_finite false m e))
    with (S754_finite true m e).
  rewrite div_opp_self. reflexivity.
Qed.

(** What [check_prices] records for a token when the search has no pairs. *)
Lemma check_prices_no_pairs (w : world) (tick : nat) (token : string)
  (data : pyval) :
  dex_search w token = Ok data ->
  Py.get data "pairs" (PList []) = Ok (PList []) ->
  check_prices w tick [token] = Ok ([no_pairs_obs token], tick).
Proof.
  intros Hdata Hpairs. unfold check_prices; simpl. unfold check_prices_body.
  rewrite Hdata. cbn [bind]. rewrite Hpairs. reflexivity.
Qed.

(** C10, as stated, fails when the previous price is infinite: it is a
    strictly positive float, the change is not a number, and no alert is
    emitted. *)
Lemma infinite_previous_price_gives_no_alert :
  Py.float_ (PStr "inf") = Ok (S754_infinity false) /\
  F64.ltb F64.pzero (S754_infinity false) = true /\
  detect_changes (snapshot_of [] [no_pairs_obs "BONK"])
                 (snapshot_of [] [price_obs "BONK" "inf"]) = Ok [].
Proof.
  repeat split; vm_compute; reflexivity.
Qed.

(** C10, amended. For a token in both snapshots whose previous price
    parses to a strictly positive finite float, a current observation
    with no ["price_usd"] (as [check_prices] records when no pairs are
    found) is read as the price 0.0 and adds the alert
    [<symbol> dumped 100.0% ($<previous> -> $0.0000)]. *)
Theorem missing_price_reads_as_total_drop :
  forall (prev_prices : gmap string pyval) (alerts : list string)
         (d pd : list (string * pyval)) (sym : string)
         (m : positive) (e : Z),
    Py.dict_find "symbol" d = Some (PStr sym) ->
    Py.dict_find "price_usd" d = None ->
    prev_prices !! sym = Some (PDict pd) ->
    Py.float_ (get_or_zero "price_usd" pd) = Ok (S754_finite false m e) ->
    Py.float_ (get_or_zero "price_usd" d) = Ok (S754_zero false) /\
    price_body prev_prices alerts (PDict d) =
    Ok (alerts ++ [sym +:+ " dumped 100.0% ($" +:+
                   F64.format_f 4 (S754_finite false m e) +:+ " -> $0.0000)"]).
Proof.
  intros prev_prices alerts d pd sym m e Hsym Hmissing Hfound Hprev.
  assert (Hcur : Py.float_ (get_or_zero "price_usd" d) = Ok F64.pzero)
    by (unfold get_or_zero; rewrite Hmissing; reflexivity).
  split; [exact Hcur |].
  rewrite (price_body_compared _ _ _ pd sym _ _ Hsym Hfound Hcur Hprev).
  unfold price_alert. rewrite change_pct_to_zero. reflexivity.
Qed.

Lemma missing_price_reads_as_total_drop_witness :
  let before := [("symbol", PStr "BONK"); ("price_usd", PStr "0.00002341")] in
  let now := [("symbol", PStr "BONK"); ("error", PStr "No pairs found")] in
  let prev_prices : gmap string pyval := {[ "BONK" := PDict before ]} in
  Py.float_ (get_or_zero "price_usd" before)
  = Ok (S754_finite false 6909412460248650 (-68)) /\
  price_body prev_prices [] (PDict now)
  = Ok ["BONK dumped 100.0% ($0.0000 -> $0.0000)"].
Proof.
  intros before now prev_prices.
  assert (Hprev : Py.float_ (get_or_zero "price_usd" before)
                  = Ok (S754_finite false 6909412460248650 (-68)))
    by (vm_compute; reflexivity).
  split; [exact Hprev |].
  exact (proj2 (missing_price_reads_as_total_drop prev_prices [] now before
                  "BONK" _ _ eq_refl eq_refl eq_refl Hprev)).
Defined.

(** ** Instances *)

Lemma first_run_has_no_alerts_witness :
  let st : store := {[ "README.md" := OtherText "wallet snapshots" ]} in
  glob_json st = [] /\
  keyed_snapshot snapshot_mixed = true /\
  load_previous_snapshot st = Ok (PDict []) /\
  detect_changes snapshot_mixed (PDict []) = Ok [].
Proof.
  intros st.
  assert (H1 : glob_json st = []) by (vm_compute; reflexivity).
  assert (H2 : keyed_snapshot snapshot_mixed = true) by reflexivity.
  pose proof (first_run_has_no_alerts st snapshot_mixed H1 H2)
    as (Hload & _ & _ & Hdetect).
  split; [exact H1 |]. split; [exact H2 |]. split; [exact Hload | exact Hdetect].
Defined.

Lemma alerts_follow_current_order_witness :
  valid_snapshot snapshot_next = true /\
  valid_snapshot snapshot_mixed = true /\
  exists (prev_wallets prev_prices : gmap string pyval)
         (wallet_alerts price_alerts : list (list string)),
    index_by "address" (observations "wallets" snapshot_mixed) = Ok prev_wallets /\
    index_by "symbol" (observations "prices" snapshot_mixed) = Ok prev_prices /\
    Forall2 (fun w l => wallet_body prev_wallets [] w = Ok l /\
                        (length l <= 1)%nat)
            (observations "wallets" snapshot_next) wallet_alerts /\
    Forall2 (fun p l => price_body prev_prices [] p = Ok l /\
                        (length l <= 1)%nat)
            (observations "prices" snapshot_next) price_alerts /\
    detect_changes snapshot_next snapshot_mixed =
    Ok (concat wallet_alerts ++ concat price_alerts).
Proof.
  assert (H1 : valid_snapshot snapshot_next = true) by reflexivity.
  assert (H2 : valid_snapshot snapshot_mixed = true) by reflexivity.
  split; [exact H1 |]. split; [exact H2 |].
  exact (alerts_follow_current_order snapshot_next snapshot_mixed H1 H2).
Defined.

(** The alerts of that sweep, in the order of its wallets and tokens. *)
Example detect_changes_next :
  detect_changes snapshot_next snapshot_mixed =
  Ok ["Wallet treasury: Balance decreased by 12.0% (125.0075 -> 110.0000 SOL)";
      "SOL pumped 15.1% ($142.3700 -> $163.9000)"].
Proof. vm_compute. reflexivity. Qed.

(** The examples of the specification. *)
Example detect_changes_spec_examples :
  detect_changes (snapshot_of [wallet_obs treasury_address "treasury" (dec 106 0)]
                              [price_obs "XYZ" "0.850000"])
                 (snapshot_of [wallet_obs treasury_address "treasury" (dec 100 0)]
                              [price_obs "XYZ" "1.000000"]) =
  Ok ["Wallet treasury: Balance increased by 6.0% (100.0000 -> 106.0000 SOL)";
      "XYZ dumped 15.0% ($1.0000 -> $0.8500)"].
Proof. vm_compute. reflexivity. Qed.

(** * Further properties *)

(** ** Strings *)

Lemma chars_inj (a b : string) :
  list_ascii_of_string a = list_ascii_of_string b -> a = b.
Proof.
  intros H. rewrite <- (string_of_list_ascii_of_string a),
    <- (string_of_list_ascii_of_string b), H. reflexivity.
Qed.

Lemma lstrip_no_lead (cs : list ascii) : no_lead (Str.lstrip cs).
Proof.
  induction cs as [| c cs IH]; simpl; [exact I |].
  destruct (Str.isspace c) eqn:E; [exact IH | exact E].
Qed.

Lemma lstrip_id (cs : list ascii) : no_lead cs -> Str.lstrip cs = cs.
Proof. destruct cs as [| c cs]; simpl; [reflexivity |]. intros ->. reflexivity. Qed.

Lemma lstrip_suffix (cs : list ascii) : exists pre, cs = pre ++ Str.lstrip cs.
Proof.
  induction cs as [| c cs [pre IH]]; simpl.
  - exists []. reflexivity.
  - destruct (Str.isspace c).
    + exists (c :: pre). simpl. rewrite <- IH. reflexivity.
    + exists []. reflexivity.
Qed.

Lemma no_lead_prefix (a b : list ascii) : no_lead (a ++ b) -> no_lead a.
Proof. destruct a; simpl; auto. Qed.

Lemma strip_chars_no_lead (cs : list ascii) :
  no_lead (Str.strip_chars cs) /\ no_lead (rev (Str.strip_chars cs)).
Proof.
  unfold Str.strip_chars. split.
  - destruct (lstrip_suffix (rev (Str.lstrip cs))) as [pre Hpre].
    apply (no_lead_prefix _ (rev pre)).
    rewrite <- rev_app_distr, <- Hpre, rev_involutive. apply lstrip_no_lead.
  - rewrite rev_involutive. apply lstrip_no_lead.
Qed.

Lemma strip_chars_id (cs : list ascii) :
  no_lead cs -> no_lead (rev cs) -> Str.strip_chars cs = cs.
Proof.
  intros H1 H2. unfold Str.strip_chars.
  rewrite (lstrip_id cs H1), (lstrip_id (rev cs) H2). apply rev_involutive.
Qed.

Lemma strip_chars_idem (cs : list ascii) :
  Str.strip_chars (Str.strip_chars cs) = Str.strip_chars cs.
Proof. apply strip_chars_id; apply strip_chars_no_lead. Qed.

Lemma strip_idem (s : string) : Str.strip (Str.strip s) = Str.strip s.
Proof.
  unfold Str.strip. rewrite list_ascii_of_string_of_list_ascii, strip_chars_idem.
  reflexivity.
Qed.

Lemma lstrip_sub (cs : list ascii) (c : ascii) :
  In c (Str.lstrip cs) -> In c cs.
Proof.
  destruct (lstrip_suffix cs) as [pre Hpre]. intros H. rewrite Hpre.
  apply in_or_app. right. exact H.
Qed.

Lemma strip_chars_sub (cs : list ascii) (c : ascii) :
  In c (Str.strip_chars cs) -> In c cs.
Proof.
  unfold Str.strip_chars. intros H. apply in_rev, lstrip_sub, in_rev in H.
  apply lstrip_sub. exact H.
Qed.

Lemma upper_char_facts (c : ascii) :
  Str.upper_char (Str.upper_char c) = Str.upper_char c /\
  Str.isspace (Str.upper_char c) = Str.isspace c /\
  (Str.upper_char c = ","%char -> c = ","%char) /\
  ((F64.code c <? 128) = true -> (F64.code (Str.upper_char c) <? 128) = true).
Proof.
  destruct c as [[] [] [] [] [] [] [] []]; repeat split; try reflexivity;
    intros H; try discriminate H; try reflexivity.
Qed.

Lemma lstrip_map_upper (cs : list ascii) :
  Str.lstrip (map Str.upper_char cs) = map Str.upper_char (Str.lstrip cs).
Proof.
  induction cs as [| c cs IH]; simpl; [reflexivity |].
  rewrite (proj1 (proj2 (upper_char_facts c))).
  destruct (Str.isspace c); [exact IH | reflexivity].
Qed.

Lemma strip_chars_map_upper (cs : list ascii) :
  Str.strip_chars (map Str.upper_char cs) = map Str.upper_char (Str.strip_chars cs).
Proof.
  unfold Str.strip_chars.
  rewrite lstrip_map_upper, <- map_rev, lstrip_map_upper, map_rev. reflexivity.
Qed.

Lemma strip_upper (s : string) : Str.strip (Str.upper s) = Str.upper (Str.strip s).
Proof.
  unfold Str.strip, Str.upper.
  rewrite !list_ascii_of_string_of_list_ascii, strip_chars_map_upper. reflexivity.
Qed.

Lemma upper_idem (s : string) : Str.upper (Str.upper s) = Str.upper s.
Proof.
  unfold Str.upper. rewrite list_ascii_of_string_of_list_ascii, map_map.
  f_equal. apply map_ext. intros c. apply upper_char_facts.
Qed.

Lemma upper_empty (s : string) : Str.upper s = "" -> s = "".
Proof.
  unfold Str.upper. intros H. apply chars_inj.
  apply (f_equal list_ascii_of_string) in H.
  rewrite list_ascii_of_string_of_list_ascii in H.
  destruct (list_ascii_of_string s); [reflexivity | discriminate].
Qed.

(** *** Splitting at a separator *)

Lemma split_chars_no_sep (sep : ascii) (cs : list ascii) :
  ~ In sep cs -> Str.split_chars sep cs = [cs].
Proof.
  induction cs as [| c cs IH]; simpl; [reflexivity |].
  intros Hnot. destruct (Ascii.eqb_spec c sep) as [-> | Hne].
  - exfalso. apply Hnot. left. reflexivity.
  - rewrite IH by (intros H; apply Hnot; right; exact H). reflexivity.
Qed.

Lemma split_chars_app (sep : ascii) (p rest : list ascii) :
  ~ In sep p ->
  Str.split_chars sep (p ++ sep :: rest) = p :: Str.split_chars sep rest.
Proof.
  induction p as [| c p IH]; simpl; intros Hnot.
  - rewrite Ascii.eqb_refl. reflexivity.
  - destruct (Ascii.eqb_spec c sep) as [-> | Hne].
    + exfalso. apply Hnot. left. reflexivity.
    + rewrite IH by (intros H; apply Hnot; right; exact H). reflexivity.
Qed.

Lemma split_chars_pieces (sep : ascii) (cs : list ascii) :
  Forall (fun p => ~ In sep p) (Str.split_chars sep cs) /\
  Str.split_chars sep cs <> [].
Proof.
  induction cs as [| c cs [IH Hne]]; simpl.
  - split; [| discriminate]. constructor; [intros [] | constructor].
  - destruct (Ascii.eqb_spec c sep) as [-> | Hc].
    + split; [| discriminate]. constructor; [intros [] | exact IH].
    + destruct (Str.split_chars sep cs) as [| p ps]; [contradiction |].
      split; [| discriminate].
      apply Forall_cons in IH as [Hp Hps]. constructor; [| exact Hps].
      intros [-> | H]; [apply Hc; reflexivity | exact (Hp H)].
Qed.

Lemma split_chars_sub (sep : ascii) (cs p : list ascii) (c : ascii) :
  In p (Str.split_chars sep cs) -> In c p -> In c cs.
Proof.
  revert p. induction cs as [| x cs IH]; simpl; intros p Hp Hc.
  - destruct Hp as [<- | []]. exact Hc.
  - destruct (Ascii.eqb x sep).
    + destruct Hp as [<- | Hp]; [destruct Hc |]. right. exact (IH p Hp Hc).
    + destruct (Str.split_chars sep cs) as [| q qs] eqn:E.
      * destruct Hp as [<- | []]. destruct Hc as [<- | []]. left. reflexivity.
      * destruct Hp as [<- | Hp].
        -- destruct Hc as [<- | Hc]; [left; reflexivity |].
           right. apply (IH q); [left; reflexivity | exact Hc].
        -- right. apply (IH p); [right; exact Hp | exact Hc].
Qed.

Lemma split_join_chars (sep : ascii) (ts : list string) :
  ts <> [] ->
  Forall (fun t => ~ In sep (list_ascii_of_string t)) ts ->
  Str.split_chars sep (list_ascii_of_string (Str.join (String sep "") ts))
  = map list_ascii_of_string ts.
Proof.
  intros Hne Hall. induction Hall as [| t ts Ht Hts IH]; [contradiction |].
  destruct ts as [| t' ts'].
  - simpl. apply split_chars_no_sep, Ht.
  - change (Str.join (String sep "") (t :: t' :: ts'))
      with (t +:+ String sep "" +:+ Str.join (String sep "") (t' :: ts')).
    rewrite !chars_append.
    change (list_ascii_of_string (String sep "")) with [sep]. cbn [app].
    rewrite split_chars_app by exact Ht.
    rewrite IH by discriminate. reflexivity.
Qed.

(** ** The token watchlist *)

Lemma is_ascii_chars (s : string) :
  F64.is_ascii s = true <->
  forall c, In c (list_ascii_of_string s) -> (F64.code c <? 128) = true.
Proof. unfold F64.is_ascii. apply forallb_forall. Qed.

Lemma watchlist_tokens_inv (w : world) (ts : list string) :
  get_watchlist_tokens w = Ok ts ->
  Forall (fun t => normal_token t /\ F64.is_ascii t = true) ts.
Proof.
  unfold get_watchlist_tokens.
  set (tokens := environ_get w "SOLANA_WATCHLIST" "SOL").
  destruct (F64.is_ascii tokens) eqn:Hascii; [| discriminate].
  intros [= <-]. apply Forall_forall. intros t Hin.
  apply list_elem_of_In, in_map_iff in Hin as (p & <- & Hp).
  apply filter_In in Hp as [Hp Hkeep].
  unfold Str.split in Hp. apply in_map_iff in Hp as (cs & <- & Hcs).
  assert (Hsub : forall c, In c (list_ascii_of_string
                                   (Str.strip (string_of_list_ascii cs))) ->
                           In c cs).
  { intros c Hc. unfold Str.strip in Hc.
    rewrite !list_ascii_of_string_of_list_ascii in Hc.
    apply strip_chars_sub in Hc. exact Hc. }
  split; [split; [| split; [| split]] |].
  - intros H. apply upper_empty in H. rewrite H in Hkeep. discriminate.
  - unfold Str.upper. rewrite list_ascii_of_string_of_list_ascii.
    intros Hcomma. apply in_map_iff in Hcomma as (c & Hc & Hin).
    apply upper_char_facts in Hc as ->. apply Hsub in Hin.
    destruct (split_chars_pieces ","%char (list_ascii_of_string tokens))
      as [Hpieces _].
    rewrite Forall_forall in Hpieces.
    apply (Hpieces cs); [apply list_elem_of_In; exact Hcs | exact Hin].
  - rewrite strip_upper, strip_idem. reflexivity.
  - apply upper_idem.
  - apply is_ascii_chars. intros c Hc. unfold Str.upper in Hc.
    rewrite list_ascii_of_string_of_list_ascii in Hc.
    apply in_map_iff in Hc as (c0 & <- & Hc0).
    apply upper_char_facts. apply Hsub in Hc0.
    apply (proj1 (is_ascii_chars tokens) Hascii).
    apply (split_chars_sub ","%char _ cs); assumption.
Qed.

(** X1. Every token of the watchlist is non-empty, has no comma, no white
    space around it and no lower-case letter. *)
Theorem watchlist_tokens_are_normal :
  forall (w : world) (ts : list string),
    get_watchlist_tokens w = Ok ts -> Forall normal_token ts.
Proof.
  intros w ts H. apply watchlist_tokens_inv in H.
  eapply Forall_impl; [exact H |]. intros t [Ht _]. exact Ht.
Qed.

Lemma is_ascii_join (ts : list string) :
  Forall (fun t => F64.is_ascii t = true) ts ->
  F64.is_ascii (Str.join "," ts) = true.
Proof.
  induction 1 as [| t ts Ht Hts IH]; [reflexivity |].
  destruct ts as [| t' ts']; [exact Ht |].
  change (Str.join "," (t :: t' :: ts'))
    with (t +:+ "," +:+ Str.join "," (t' :: ts')).
  unfold F64.is_ascii in *. rewrite !chars_append, !forallb_app, Ht, IH.
  reflexivity.
Qed.

Lemma filter_all {A} (f : A -> bool) (l : list A) :
  Forall (fun x => f x = true) l -> List.filter f l = l.
Proof.
  induction 1 as [| x l Hx _ IH]; simpl; [reflexivity |].
  rewrite Hx, IH. reflexivity.
Qed.

Lemma map_id_on {A} (f : A -> A) (l : list A) :
  Forall (fun x => f x = x) l -> map f l = l.
Proof.
  induction 1 as [| x l Hx _ IH]; simpl; [reflexivity |].
  rewrite Hx, IH. reflexivity.
Qed.

(** X2. Writing the tokens back, joined with commas, gives the same
    watchlist. *)
Theorem watchlist_tokens_reparse :
  forall (w w' : world) (ts : list string),
    get_watchlist_tokens w = Ok ts ->
    environ w' !! "SOLANA_WATCHLIST" = Some (Str.join "," ts) ->
    get_watchlist_tokens w' = Ok ts.
Proof.
  intros w w' ts Hts Henv. apply watchlist_tokens_inv in Hts.
  unfold get_watchlist_tokens, environ_get. rewrite Henv. simpl from_option.
  rewrite is_ascii_join
    by (eapply Forall_impl; [exact Hts |]; intros t [_ Ht]; exact Ht).
  destruct ts as [| t0 ts0]; [reflexivity |].
  set (ts := t0 :: ts0) in *.
  unfold Str.split.
  rewrite (split_join_chars ","%char ts); [| discriminate |].
  - rewrite map_map.
    rewrite (map_id_on (fun t => string_of_list_ascii (list_ascii_of_string t)))
      by (apply Forall_forall; intros t _; apply string_of_list_ascii_of_string).
    rewrite filter_all.
    + rewrite map_id_on; [reflexivity |].
      eapply Forall_impl; [exact Hts |].
      intros t [(_ & _ & Hs & Hu) _]. simpl. rewrite Hs. exact Hu.
    + eapply Forall_impl; [exact Hts |].
      intros t [(Hne & _ & Hs & _) _]. simpl. rewrite Hs.
      apply negb_true_iff, String.eqb_neq. exact Hne.
  - eapply Forall_impl; [exact Hts |]. intros t [(_ & Hc & _) _]. exact Hc.
Qed.

(** ** The readings of a sweep *)

Ltac split_binds :=
  repeat match goal with
    | |- context [bind ?r _] => destruct r as [? | []]; cbn [bind try_except]
    end.

Lemma check_prices_body_cases (w : world) (results : list pyval) (tick : nat)
  (token : string) :
  match check_prices_body w (results, tick) token with
  | Ok (results', _) =>
      exists obs, results' = results ++ [obs] /\ price_record token obs = true
  | Raise e => e = NotModelled
  end.
Proof.
  assert (Herr : forall e : string,
             price_record token (PDict [("symbol", PStr token); ("error", PStr e)])
             = true).
  { intros e. simpl. rewrite String.eqb_refl. reflexivity. }
  unfold check_prices_body. rewrite dex_search_goes_out. cbn [bind].
  destruct (Py.get _ "pairs" (PList [])) as [pairs | []];
    cbn [bind try_except]; eauto.
  destruct (Py.truthy pairs); cbn [try_except]; eauto.
  split_binds; eauto.
  eexists. split; [reflexivity |]. simpl. rewrite String.eqb_refl. reflexivity.
Qed.

Lemma for_each_prices (w : world) (tokens : list string) :
  forall (acc : list pyval) (tick : nat),
    match for_each (check_prices_body w) tokens (acc, tick) with
    | Ok (results, _) =>
        exists obs, results = acc ++ obs /\
                    Forall2 (fun token o => price_record token o = true) tokens obs
    | Raise e => e = NotModelled
    end.
Proof.
  induction tokens as [| token tokens IH]; intros acc tick; cbn [for_each].
  - exists []. split; [rewrite app_nil_r; reflexivity | constructor].
  - pose proof (check_prices_body_cases w acc tick token) as Hstep.
    destruct (check_prices_body w (acc, tick) token) as [[acc' tick'] | e];
      cbn [bind]; [| exact Hstep].
    destruct Hstep as (o & -> & Ho).
    specialize (IH (acc ++ [o]) tick').
    destruct (for_each (check_prices_body w) tokens (acc ++ [o], tick'))
      as [[results t] | e]; [| exact IH].
    destruct IH as (obs & -> & Hobs). exists (o :: obs).
    split; [rewrite <- app_assoc; reflexivity | constructor; assumption].
Qed.

(** X3. [check_prices] raises no Python exception, whatever the network
    replies: it returns one observation for each token, in the order of
    the tokens, an error record or a record with every field. *)
Theorem check_prices_never_raises :
  forall (w : world) (tick : nat) (tokens : list string),
    match check_prices w tick tokens with
    | Ok (results, _) =>
        Forall2 (fun token obs => price_record token obs = true) tokens results
    | Raise e => e = NotModelled
    end.
Proof.
  intros w tick tokens. unfold check_prices.
  pose proof (for_each_prices w tokens [] tick) as H.
  destruct (for_each (check_prices_body w) tokens ([], tick))
    as [[results t] | e]; [| exact H].
  destruct H as (obs & -> & Hobs). exact Hobs.
Qed.

Lemma check_wallets_body_cases (w : world) (results : list pyval) (tick : nat)
  (wallet : pyval) :
  watched_wallet wallet = true ->
  match check_wallets_body w (results, tick) wallet with
  | Ok (results', _) =>
      if nonempty_key (key_of "address" wallet)
      then exists obs, results' = results ++ [obs] /\
                       wallet_record obs = true /\
                       key_of "address" obs = key_of "address" wallet
      else results' = results
  | Raise e => e = NotModelled
  end.
Proof.
  intros Hwatched.
  destruct wallet as [| | | | | | d]; try discriminate.
  simpl in Hwatched. unfold field_is_str in Hwatched.
  unfold check_wallets_body, key_of; simpl.
  destruct (Py.dict_find "address" d) as [[| | | | a | |] |];
    try discriminate. simpl.
  destruct (F64.is_ascii a); simpl; [| reflexivity].
  set (label := from_option id (PStr (substring 0 8 a))
                  (Py.dict_find "label" d)).
  assert (Hlabel : exists l, label = PStr l).
  { subst label.
    destruct (Py.dict_find "label" d) as [[| | | | l | |] |];
      try discriminate; simpl; eauto. }
  destruct Hlabel as [l ->].
  destruct (String.eqb a ""); simpl; [reflexivity |].
  destruct (get_balance w (PStr a)) as [balance | e] eqn:Hbalance; simpl.
  - destruct (get_balance_is_float _ _ _ Hbalance) as [f ->].
    eexists. split; [reflexivity |]. split; reflexivity.
  - destruct e; simpl; try reflexivity;
      (eexists; split; [reflexivity |]; split; reflexivity).
Qed.

Lemma for_each_wallets (w : world) (wallets : list pyval) :
  forallb watched_wallet wallets = true ->
  forall (acc : list pyval) (tick : nat),
    match for_each (check_wallets_body w) wallets (acc, tick) with
    | Ok (results, _) =>
        exists obs, results = acc ++ obs /\
                    forallb wallet_record obs = true /\
                    map (key_of "address") obs =
                    List.filter nonempty_key (map (key_of "address") wallets)
    | Raise e => e = NotModelled
    end.
Proof.
  induction wallets as [| x wallets IH]; intros Hall acc tick; cbn [for_each].
  - exists []. split; [rewrite app_nil_r; reflexivity | split; reflexivity].
  - simpl in Hall. apply andb_true_iff in Hall as [Hx Hxs].
    pose proof (check_wallets_body_cases w acc tick x Hx) as Hstep.
    destruct (check_wallets_body w (acc, tick) x) as [[acc' tick'] | e];
      cbn [bind]; [| exact Hstep].
    specialize (IH Hxs acc' tick').
    destruct (for_each (check_wallets_body w) wallets (acc', tick'))
      as [[results t] | e]; [| exact IH].
    destruct IH as (obs & -> & Hrec & Hkeys).
    cbn [map List.filter].
    destruct (nonempty_key (key_of "address" x)).
    + destruct Hstep as (o & -> & Ho & Hko). exists (o :: obs).
      split; [rewrite <- app_assoc; reflexivity |].
      split; [simpl; rewrite Ho; exact Hrec |].
      simpl. rewrite Hko, Hkeys. reflexivity.
    + subst acc'. exists obs. auto.
Qed.

(** X4. On a watchlist of entries with a string address, [check_wallets]
    raises no Python exception: it returns one observation for each entry
    with a non-empty address, in the order of the watchlist and with its
    address, and each observation has either a float balance and no
    error, or no balance and an error message. *)
Theorem check_wallets_never_raises :
  forall (w : world) (tick : nat) (wallets : list pyval),
    forallb watched_wallet wallets = true ->
    match check_wallets w tick wallets with
    | Ok (results, _) =>
        forallb wallet_record results = true /\
        map (key_of "address") results =
        List.filter nonempty_key (map (key_of "address") wallets)
    | Raise e => e = NotModelled
    end.
Proof.
  intros w tick wallets Hall. unfold check_wallets.
  pose proof (for_each_wallets w wallets Hall [] tick) as H.
  destruct (for_each (check_wallets_body w) wallets ([], tick))
    as [[results t] | e]; [| exact H].
  destruct H as (obs & -> & Hrec & Hkeys). auto.
Qed.

(** ** Quoting a query *)

Lemma quote_char_facts (c : ascii) :
  forallb quoted_char (list_ascii_of_string (quote_char c)) = true /\
  (unreserved_char c = true -> quote_char c = String c "").
Proof.
  destruct c as [[] [] [] [] [] [] [] []]; split; try reflexivity;
    intros H; discriminate H.
Qed.

(** X5. What [quote] returns holds only letters, digits, [_.-~/] and per
    cent escapes: no space, [&], [=], [?] or [#] of the query reaches
    the URL; and a string of unreserved characters is returned as it
    is. *)
Theorem quote_is_url_safe :
  forall s : string,
    forallb quoted_char (list_ascii_of_string (quote s)) = true /\
    (forallb unreserved_char (list_ascii_of_string s) = true -> quote s = s).
Proof.
  induction s as [| c s [IH1 IH2]]; [split; reflexivity |].
  rewrite quote_cons, chars_append, forallb_app.
  destruct (quote_char_facts c) as [Hc1 Hc2]. split.
  - rewrite Hc1, IH1. reflexivity.
  - cbn [list_ascii_of_string forallb]. intros [Hc Hs]%andb_true_iff.
    rewrite (Hc2 Hc), (IH2 Hs). reflexivity.
Qed.

(** ** The handlers when the network is down *)

(** The pairs of a well-known mint always go out. *)
Lemma token_pairs_go_out (w : world) (token mint : string) :
  mint_of WELL_KNOWN_MINTS token = Some mint ->
  dex_get_token_pairs w "solana" mint =
  Ok (fetch_reply w (DEXSCREENER_API +:+ "/token-pairs/v1/" +:+ "solana" +:+
                     "/" +:+ mint) "GET" None).
Proof.
  intros Hmint. apply fetch_json_accepted.
  unfold WELL_KNOWN_MINTS in Hmint. cbn [mint_of] in Hmint.
  repeat match type of Hmint with
         | (if ?b then _ else _) = _ => destruct b
         end;
    try discriminate; injection Hmint as <-; reflexivity.
Qed.

(** X6. With the network down, [handle_price] answers with the message
    of the failure. *)
Theorem handle_price_reports_failure :
  forall (w : world) (msg args : string),
    offline w msg ->
    F64.is_ascii args = true ->
    handle_price w args = Ok ("Failed to fetch price data: " +:+ msg).
Proof.
  intros w msg args Hoff Hascii. unfold handle_price. rewrite Hascii.
  cbn [negb].
  assert (Hdata : forall t,
             match mint_of WELL_KNOWN_MINTS t with
             | Some mint => dex_get_token_pairs w "solana" mint
             | None => dex_search w (Str.strip args)
             end = Ok (PDict [("error", PStr msg)])).
  { intros t. destruct (mint_of WELL_KNOWN_MINTS t) as [mint |] eqn:Hmint.
    - rewrite (token_pairs_go_out w t mint Hmint).
      rewrite (fetch_reply_offline w msg) by exact Hoff. reflexivity.
    - apply dex_search_offline, Hoff. }
  rewrite Hdata. reflexivity.
Qed.

(** X7. [handle_quote] never shows a quote when the request failed: it
    answers with the usage, with the invalid amount or with the failure,
    or raises on an amount that is not finite. *)
Theorem handle_quote_reports_failure :
  forall (w : world) (msg args out : string),
    offline w msg ->
    handle_quote w args = Ok out ->
    out = "Usage: `/sol quote <from_token> <to_token> <amount>`" +:+ nl +:+
          "Example: `/sol quote SOL USDC 1`" \/
    (exists amount, out = "Invalid amount: " +:+ amount) \/
    out = "Jupiter quote failed: " +:+ msg.
Proof.
  intros w msg args out Hoff. unfold handle_quote.
  destruct (F64.is_ascii args); cbn [negb]; [| discriminate].
  destruct (Str.words (Str.strip args)) as [| p0 [| p1 [| p2 rest]]];
    try (intros [= <-]; left; reflexivity).
  destruct (F64.of_string p2) as [amount |];
    [| intros [= <-]; right; left; eauto].
  destruct (Str.int_of_float _) as [raw |]; cbn [bind]; [| discriminate].
  unfold jupiter_quote, fetch_json.
  destruct (Url.request _); cbn [bind]; [| discriminate].
  rewrite (fetch_reply_offline w msg) by exact Hoff.
  intros [= <-]. right. right. reflexivity.
Qed.

(** X8. [handle_balance] does not report the failure: with the network
    down and an endpoint [Request] accepts, as the default ones are, it
    reports a balance of 0.0000 SOL for every address of 32 characters
    or more, and no value in USD. *)
Theorem handle_balance_offline_reads_zero :
  forall (w : world) (msg args : string),
    offline w msg ->
    Url.request (get_solana_rpc w) = Ok tt ->
    F64.is_ascii args = true ->
    (32 <= Z.of_nat (String.length (Str.strip args))) ->
    handle_balance w args =
    Ok (Str.join nl
          ["## 🌐 Wallet Balance" +:+ nl;
           "**Address:** `" +:+ substring 0 8 (Str.strip args) +:+ "..." +:+
             Str.last_chars 4 (Str.strip args) +:+ "`" +:+ nl;
           "**Balance:** 0.0000 SOL" +:+ nl;
           "**Network:** " +:+ environ_get w "SOLANA_NETWORK" "mainnet-beta" +:+ nl]).
Proof.
  intros w msg args Hoff Hurl Hascii Hlen. unfold handle_balance.
  rewrite Hascii. cbn [negb].
  assert (Hne : String.eqb (Str.strip args) "" = false).
  { destruct (Str.strip args); [simpl in Hlen; lia | reflexivity]. }
  rewrite Hne. cbn [orb].
  assert (Hlt : (Z.of_nat (String.length (Str.strip args)) <? 32) = false)
    by (apply Z.ltb_ge; exact Hlen).
  rewrite Hlt.
  unfold get_balance. rewrite (rpc_call_offline w msg) by assumption.
  rewrite (dex_search_offline w msg) by exact Hoff.
  reflexivity.
Qed.

(** X9. Nor does [handle_network]: with the network down and an endpoint
    [Request] accepts it reports slot 0 and an empty block hash, and
    lists no performance sample. *)
Theorem handle_network_offline_reads_zero :
  forall (w : world) (msg : string),
    offline w msg ->
    Url.request (get_solana_rpc w) = Ok tt ->
    handle_network w =
    Ok (String.concat nl
          ["## 🌐 Solana Network Status" +:+ nl;
           "**Current Slot:** 0" +:+ nl;
           "**Latest Blockhash:** `...`" +:+ nl;
           "**Network:** " +:+ environ_get w "SOLANA_NETWORK" "mainnet-beta" +:+ nl]).
Proof.
  intros w msg Hoff Hurl. unfold handle_network, get_slot,
    get_latest_blockhash, get_network_performance.
  rewrite !(rpc_call_offline w msg) by assumption.
  reflexivity.
Qed.

(** X24. When the endpoint is a URL without a type, such as a host name
    alone, [Request] raises [ValueError] before any call is made:
    [get_balance], [handle_network] and [handle_balance] on an address
    raise it, whatever the network does. *)
Theorem endpoint_without_type_raises :
  forall (w : world) (pubkey : pyval) (args : string),
    Url.request (get_solana_rpc w) = Raise ValueError ->
    F64.is_ascii args = true ->
    (32 <= Z.of_nat (String.length (Str.strip args))) ->
    get_balance w pubkey = Raise ValueError /\
    handle_network w = Raise ValueError /\
    handle_balance w args = Raise ValueError.
Proof.
  intros w pubkey args Hurl Hascii Hlen.
  assert (Hrpc : forall method params,
             rpc_call w method params = Raise ValueError).
  { intros method params. unfold rpc_call, fetch_json. rewrite Hurl.
    reflexivity. }
  assert (Hbalance : forall pk, get_balance w pk = Raise ValueError).
  { intros pk. unfold get_balance. rewrite Hrpc. reflexivity. }
  split; [apply Hbalance |]. split.
  - unfold handle_network, get_slot. rewrite Hrpc. reflexivity.
  - unfold handle_balance. rewrite Hascii. cbn [negb].
    assert (Hne : String.eqb (Str.strip args) "" = false).
    { destruct (Str.strip args); [simpl in Hlen; lia | reflexivity]. }
    rewrite Hne. cbn [orb].
    assert (Hlt : (Z.of_nat (String.length (Str.strip args)) <? 32) = false)
      by (apply Z.ltb_ge; exact Hlen).
    rewrite Hlt, Hbalance. reflexivity.
Qed.

(** X10. An amount that is not a number, or too large, passes the check of
    the amount and raises when it is converted to lamports. *)
Theorem handle_quote_raises_on_unbounded_amount :
  forall (w : world) (args p0 p1 p2 : string) (rest : list string)
         (amount : spec_float),
    F64.is_ascii args = true ->
    Str.words (Str.strip args) = p0 :: p1 :: p2 :: rest ->
    F64.of_string p2 = Some amount ->
    match F64.mul amount (F64.of_Z LAMPORTS_PER_SOL) with
    | S754_nan => handle_quote w args = Raise ValueError
    | S754_infinity _ => handle_quote w args = Raise OverflowError
    | _ => True
    end.
Proof.
  intros w args p0 p1 p2 rest amount Hascii Hwords Hamount.
  unfold handle_quote. rewrite Hascii, Hwords, Hamount. cbn [negb].
  destruct (F64.mul amount (F64.of_Z LAMPORTS_PER_SOL)); try exact I;
    reflexivity.
Qed.

(** ** The report *)

Lemma append_nil_r (s : string) : s +:+ "" = s.
Proof.
  induction s as [| c s IH]; [reflexivity |].
  change (String c (s +:+ "") = String c s). rewrite IH. reflexivity.
Qed.

Lemma concat_empty_cons (x : string) (xs : list string) :
  String.concat "" (x :: xs) = x +:+ String.concat "" xs.
Proof.
  destruct xs as [| y ys]; cbn [String.concat].
  - symmetry. apply append_nil_r.
  - reflexivity.
Qed.

Lemma concat_empty_app (xs ys : list string) :
  String.concat "" (xs ++ ys) = String.concat "" xs +:+ String.concat "" ys.
Proof.
  induction xs as [| x xs IH].
  - reflexivity.
  - rewrite <- app_comm_cons, !concat_empty_cons, IH. symmetry.
    apply append_assoc.
Qed.

Lemma fold_left_snoc {A B} (f : A -> B) (xs : list A) (init : list B) :
  fold_left (fun ls x => ls ++ [f x]) xs init = init ++ map f xs.
Proof.
  revert init. induction xs as [| x xs IH]; intros init; simpl.
  - symmetry. apply app_nil_r.
  - rewrite IH, <- app_assoc. reflexivity.
Qed.

(** The lines of a report, joined. *)
Lemma join_alerts_section (lines : list string) (alerts : list string) :
  Str.join ""
    match alerts with
    | _ :: _ =>
        fold_left (fun ls alert => ls ++ ["- " +:+ alert +:+ nl]) alerts
          (lines ++ [nl +:+ "### Alerts" +:+ nl])
    | [] =>
        lines ++
        [nl +:+ "*No significant changes detected. All quiet on the chain.*"
         +:+ nl]
    end
  = String.concat "" lines +:+ alerts_section alerts.
Proof.
  destruct alerts as [| a0 a]; unfold Str.join.
  - rewrite concat_empty_app. reflexivity.
  - rewrite (fold_left_snoc (fun alert => "- " +:+ alert +:+ nl)).
    rewrite !concat_empty_app. unfold alerts_section.
    rewrite concat_empty_cons, append_nil_r.
    rewrite !append_assoc. reflexivity.
Qed.

(** A report is a part that depends on the date and the snapshot alone,
    followed by the section of the alerts. *)
Lemma format_report_tail (today : string) (snapshot previous : pyval)
  (alerts : list string) (out : string) :
  format_report today snapshot alerts previous = Ok out ->
  exists head : string,
    out = head +:+ alerts_section alerts /\
    forall (alerts' : list string) (previous' : pyval),
      format_report today snapshot alerts' previous'
      = Ok (head +:+ alerts_section alerts').
Proof.
  unfold format_report.
  destruct (Py.get snapshot "wallets" (PList [])) as [wallets |];
    cbn [bind]; [| discriminate].
  match goal with
  | |- context [bind ?r _] => destruct r as [lines1 |]
  end; cbn [bind]; [| discriminate].
  destruct (Py.get snapshot "prices" (PList [])) as [prices |];
    cbn [bind]; [| discriminate].
  match goal with
  | |- context [bind ?r _] => destruct r as [lines2 |]
  end; cbn [bind]; [| discriminate].
  rewrite join_alerts_section.
  intros [= <-]. exists (String.concat "" lines2).
  split; [reflexivity |]. intros alerts' _.
  rewrite join_alerts_section. reflexivity.
Qed.

(** X11. The report is a part that depends on the date and the snapshot
    alone, followed by the alerts in their order, one to a line, or by
    the line that says there is none; the previous snapshot is not read. *)
Theorem format_report_ends_with_alerts :
  forall (today : string) (snapshot previous : pyval) (alerts : list string)
         (out : string),
    format_report today snapshot alerts previous = Ok out ->
    exists head : string,
      out = head +:+ alerts_section alerts /\
      forall (alerts' : list string) (previous' : pyval),
        format_report today snapshot alerts' previous'
        = Ok (head +:+ alerts_section alerts').
Proof.
  intros today snapshot previous alerts out. apply format_report_tail.
Qed.

Lemma field_is_str_inv (d : list (string * pyval)) (k : string) :
  field_is_str d k = true -> exists s, Py.dict_find k d = Some (PStr s).
Proof.
  unfold field_is_str. destruct (Py.dict_find k d) as [[] |]; try discriminate.
  eauto.
Qed.

Lemma has_field_inv (d : list (string * pyval)) (k : string) :
  has_field d k = true -> exists v, Py.dict_find k d = Some v.
Proof.
  unfold has_field. destruct (Py.dict_find k d); [eauto | discriminate].
Qed.

Lemma report_wallet_body_record (lines : list string) (obs : pyval) :
  wallet_record obs = true ->
  exists line, report_wallet_body lines obs = Ok (lines ++ [line]).
Proof.
  destruct obs as [| | | | | | d]; try discriminate. unfold wallet_record.
  rewrite !andb_true_iff. intros [[_ Hlabel] Hbalance].
  apply field_is_str_inv in Hlabel as [label Hlabel].
  unfold report_wallet_body, Py.get, Py.getitem.
  destruct (Py.dict_find "balance_sol" d) as [[| | | f | | |] |];
    try discriminate; cbn [from_option id bind Py.is_none negb].
  - apply field_is_str_inv in Hbalance as [e He].
    rewrite Hlabel, He. cbn [from_option id bind Str.str Py.str_]. eauto.
  - rewrite Hlabel. cbn [bind Str.str Py.str_]. eauto.
Qed.

Lemma report_price_body_record (lines : list string) (token : string)
  (obs : pyval) :
  price_record token obs = true ->
  match report_price_body lines obs with
  | Ok lines' => exists rows, lines' = lines ++ rows
  | Raise e => e = NotModelled
  end.
Proof.
  assert (Hstr : forall v, match Str.str v with
                           | Ok _ => True
                           | Raise e => e = NotModelled
                           end).
  { intros []; simpl; auto. }
  destruct obs as [| | | | | | d]; try discriminate. unfold price_record.
  rewrite andb_true_iff. intros [Hsym Hrest].
  unfold report_price_body, Str.contains. cbn [bind].
  destruct (Py.dict_find "error" d) as [e |] eqn:Herr.
  - rewrite bool_decide_eq_true_2 by eauto. cbn [negb].
    exists []. symmetry. apply app_nil_r.
  - rewrite bool_decide_eq_false_2 by (intros [? ?]; discriminate).
    cbn [negb]. cbn [forallb] in Hrest. rewrite !andb_true_iff in Hrest.
    destruct Hrest as (H1 & H2 & H3 & H4 & _).
    apply has_field_inv in H1 as [v1 H1], H2 as [v2 H2], H3 as [v3 H3],
      H4 as [v4 H4].
    destruct (Py.dict_find "symbol" d) as [[| | | | s | |] |] eqn:Hs;
      try discriminate.
    unfold Py.getitem. rewrite Hs, H1, H2, H3, H4. cbn [bind Str.str Py.str_].
    pose proof (Hstr v1) as S1. pose proof (Hstr v2) as S2.
    pose proof (Hstr v3) as S3. pose proof (Hstr v4) as S4.
    destruct (Str.str v1); cbn [bind]; [| exact S1].
    destruct (Str.str v2); cbn [bind]; [| exact S2].
    destruct (Str.str v3); cbn [bind]; [| exact S3].
    destruct (Str.str v4); cbn [bind]; [| exact S4].
    eauto.
Qed.

Lemma for_each_report_wallets (obs : list pyval) :
  forallb wallet_record obs = true ->
  forall lines, exists lines', for_each report_wallet_body obs lines = Ok lines'.
Proof.
  induction obs as [| o obs IH]; intros Hall lines; cbn [for_each].
  - eauto.
  - cbn [forallb] in Hall. apply andb_true_iff in Hall as [Ho Hall].
    destruct (report_wallet_body_record lines o Ho) as [line ->].
    cbn [bind]. apply IH, Hall.
Qed.

Lemma for_each_report_prices (tokens : list string) (obs : list pyval) :
  Forall2 (fun token o => price_record token o = true) tokens obs ->
  forall lines,
    match for_each report_price_body obs lines with
    | Ok _ => True
    | Raise e => e = NotModelled
    end.
Proof.
  induction 1 as [| token o tokens obs Ho _ IH]; intros lines; cbn [for_each].
  - exact I.
  - pose proof (report_price_body_record lines token o Ho) as Hstep.
    destruct (report_price_body lines o) as [lines' | e]; cbn [bind].
    + apply IH.
    + exact Hstep.
Qed.

(** The report of what a sweep records raises no Python exception. *)
Lemma format_report_on_records (today timestamp : string)
  (wallets prices : list pyval) (tokens alerts : list string)
  (previous : pyval) :
  forallb wallet_record wallets = true ->
  Forall2 (fun token o => price_record token o = true) tokens prices ->
  match format_report today (snapshot_at timestamp wallets prices) alerts previous with
  | Ok _ => True
  | Raise e => e = NotModelled
  end.
Proof.
  intros Hw Hp. unfold format_report, snapshot_at.
  change (Py.get _ "wallets" (PList [])) with (Ok (PList wallets)).
  change (Py.get _ "prices" (PList [])) with (Ok (PList prices)).
  cbn [bind].
  assert (H1 : exists lines1,
             (if Py.truthy (PList wallets)
              then let* items := Py.iter (PList wallets) in
                   for_each report_wallet_body items
                     (["## 📡 Solana Monitor — " +:+ today +:+ nl] ++
                      ["### Wallets" +:+ nl])
              else Ok ["## 📡 Solana Monitor — " +:+ today +:+ nl])
             = Ok lines1).
  { destruct (Py.truthy (PList wallets)); [| eauto].
    cbn [Py.iter bind]. apply for_each_report_wallets, Hw. }
  destruct H1 as [lines1 ->]. cbn [bind].
  destruct (Py.truthy (PList prices)); cbn [Py.iter bind]; [| exact I].
  match goal with
  | |- context [for_each report_price_body prices ?l] =>
      pose proof (for_each_report_prices tokens prices Hp l) as H2;
      destruct (for_each report_price_body prices l)
  end; cbn [bind]; [exact I | exact H2].
Qed.

(** X12. [format_report] raises no Python exception on the records of
    [check_wallets] and [check_prices]: not on a wallet without a
    balance, and not on a token without a price. *)
Theorem format_report_accepts_sweep_records :
  forall (today timestamp : string) (wallets prices : list pyval)
         (tokens alerts : list string) (previous : pyval),
    forallb wallet_record wallets = true ->
    Forall2 (fun token o => price_record token o = true) tokens prices ->
    match
      format_report today (snapshot_at timestamp wallets prices) alerts previous
    with
    | Ok out => exists head, out = head +:+ alerts_section alerts
    | Raise e => e = NotModelled
    end.
Proof.
  intros today timestamp wallets prices tokens alerts previous Hw Hp.
  pose proof (format_report_on_records today timestamp wallets prices tokens
                alerts previous Hw Hp) as Hok.
  destruct (format_report today (snapshot_at timestamp wallets prices) alerts
              previous) as [out | e] eqn:E; [| exact Hok].
  destruct (format_report_tail _ _ _ _ _ E) as (head & -> & _). eauto.
Qed.

(** ** A sweep *)

Lemma wallet_record_keyed (obs : list pyval) :
  forallb wallet_record obs = true -> forallb (has_key "address") obs = true.
Proof.
  intros H. apply forallb_forall. intros o Ho.
  rewrite forallb_forall in H. specialize (H o Ho).
  destruct o as [| | | | | | d]; try discriminate.
  unfold wallet_record in H. rewrite !andb_true_iff in H.
  destruct H as [[Ha _] _]. apply field_is_str_inv in Ha as [a Ha].
  unfold has_key, key_of. rewrite Ha. reflexivity.
Qed.

Lemma price_record_keyed (tokens : list string) (obs : list pyval) :
  Forall2 (fun token o => price_record token o = true) tokens obs ->
  forallb (has_key "symbol") obs = true.
Proof.
  induction 1 as [| token o tokens obs Ho _ IH]; [reflexivity |].
  cbn [forallb]. rewrite IH, andb_true_r.
  destruct o as [| | | | | | d]; try discriminate.
  unfold price_record in Ho. apply andb_true_iff in Ho as [Hs _].
  unfold has_key, key_of.
  destruct (Py.dict_find "symbol" d) as [[| | | | s | |] |]; try discriminate.
  reflexivity.
Qed.

(** Against no previous snapshot nothing is compared. *)
Lemma detect_changes_first (timestamp : string) (wallets prices : list pyval) :
  forallb (has_key "address") wallets = true ->
  forallb (has_key "symbol") prices = true ->
  detect_changes (snapshot_at timestamp wallets prices) (PDict []) = Ok [].
Proof.
  intros Hw Hp. unfold detect_changes, snapshot_at.
  change (Py.get (PDict []) "wallets" (PList [])) with (Ok (PList [])).
  change (Py.get (PDict []) "prices" (PList [])) with (Ok (PList [])).
  change (Py.get _ "wallets" (PList [])) with (Ok (PList wallets)).
  change (Py.get _ "prices" (PList [])) with (Ok (PList prices)).
  cbn [bind Py.iter].
  change (index_by "address" []) with (Ok (A := gmap string pyval) ∅).
  change (index_by "symbol" []) with (Ok (A := gmap string pyval) ∅).
  cbn [bind].
  rewrite for_each_fixed; cbn [bind].
  - apply for_each_fixed. apply Forall_forall. intros p Hin.
    rewrite forallb_forall in Hp. apply list_elem_of_In, Hp in Hin.
    unfold has_key in Hin.
    destruct (key_of "symbol" p) as [sym |] eqn:E; [| discriminate].
    apply (price_body_absent _ _ _ sym E), lookup_empty.
  - apply Forall_forall. intros x Hin.
    rewrite forallb_forall in Hw. apply list_elem_of_In, Hw in Hin.
    unfold has_key in Hin.
    destruct (key_of "address" x) as [a |] eqn:E; [| discriminate].
    apply (wallet_body_absent _ _ _ a E), lookup_empty.
Qed.

Lemma int_of_string_raises (s : string) :
  match Str.int_of_string s with
  | Ok _ => True
  | Raise e => e = NotModelled \/ e = ValueError
  end.
Proof.
  unfold Str.int_of_string.
  destruct (negb (F64.is_ascii s) || _); [left; reflexivity |].
  destruct (F64.drop_underscores None _) as [cs |]; [| right; reflexivity].
  destruct (F64.take_sign cs) as [neg body].
  destruct (F64.take_digits 0 0 body) as [[z [| n]] [| c rest]]; auto.
Qed.

(** The readings of a sweep over a watchlist of entries with a string
    address, on a store with no snapshot. *)
Lemma sweep_readings_first (loads : string -> option pyval) (w : world)
  (tick : nat) (st : store) (wallets : list pyval) :
  get_watched_wallets loads w = PList wallets ->
  forallb watched_wallet wallets = true ->
  glob_json st = [] ->
  match sweep_readings loads w tick st with
  | Ok (current, previous, alerts, tick') =>
      previous = PDict [] /\ alerts = [] /\
      exists tokens wallet_data price_data tick1 tick2,
        get_watchlist_tokens w = Ok tokens /\
        check_wallets w tick wallets = Ok (wallet_data, tick1) /\
        check_prices w tick1 tokens = Ok (price_data, tick2) /\
        current = snapshot_at (isoformat (clock w tick2)) wallet_data price_data /\
        tick' = S tick2 /\
        forallb wallet_record wallet_data = true /\
        Forall2 (fun token o => price_record token o = true) tokens price_data
  | Raise e => e = NotModelled \/ e = ValueError
  end.
Proof.
  intros Hwallets Hwatched Hempty. unfold sweep_readings.
  pose proof (int_of_string_raises (environ_get w "ISSUE_NUMBER" "0")) as Hint.
  destruct (Str.int_of_string _) as [issue |]; cbn [bind]; [clear Hint | exact Hint].
  rewrite Hwallets.
  destruct (get_watchlist_tokens w) as [tokens | e] eqn:Htokens; cbn [bind].
  2: { left. unfold get_watchlist_tokens in Htokens.
       destruct (F64.is_ascii _); congruence. }
  cbn [Py.iter bind].
  pose proof (for_each_wallets w wallets Hwatched [] tick) as Hcw.
  fold (check_wallets w tick wallets) in Hcw.
  destruct (check_wallets w tick wallets) as [[wallet_data tick1] |] eqn:Ew;
    cbn [bind]; [| left; exact Hcw].
  destruct Hcw as (wd & -> & Hrec & _).
  pose proof (for_each_prices w tokens [] tick1) as Hcp.
  fold (check_prices w tick1 tokens) in Hcp.
  destruct (check_prices w tick1 tokens) as [[price_data tick2] |] eqn:Ep;
    cbn [bind]; [| left; exact Hcp].
  destruct Hcp as (pd & -> & Hcp). cbn [app] in *.
  unfold load_previous_snapshot. rewrite Hempty. cbn [sorted last bind].
  change (last (sorted [])) with (@None string). cbn [bind].
  fold (snapshot_at (isoformat (clock w tick2)) wd pd).
  rewrite detect_changes_first
    by eauto using wallet_record_keyed, price_record_keyed.
  cbn [bind]. split; [reflexivity |]. split; [reflexivity |].
  exists tokens, wd, pd, tick1, tick2. auto 10.
Qed.

(** X16. A sweep over a watchlist of entries with a string address, on
    a store with no snapshot, raises no alert. The snapshot it saves,
    under the name of the next reading of the clock, holds what
    [check_wallets] returned for the watchlist and [check_prices] for
    the tokens, with the time of the reading before; it is what the next
    sweep loads, and the report is the report of this snapshot and ends
    with the line that says all is quiet. The sweep raises no Python
    exception but the [ValueError] of an [ISSUE_NUMBER] that is not an
    integer. *)
Theorem first_sweep_is_quiet :
  forall (loads : string -> option pyval) (today : string) (w : world)
         (tick : nat) (st : store) (wallets : list pyval),
    get_watched_wallets loads w = PList wallets ->
    forallb watched_wallet wallets = true ->
    glob_json st = [] ->
    match sweep loads today w tick st with
    | (st', Ok (alerts, report)) =>
        alerts = [] /\
        exists tokens wallet_data price_data tick1 tick2,
          get_watchlist_tokens w = Ok tokens /\
          check_wallets w tick wallets = Ok (wallet_data, tick1) /\
          check_prices w tick1 tokens = Ok (price_data, tick2) /\
          let current :=
            snapshot_at (isoformat (clock w tick2)) wallet_data price_data in
          st' = <[snapshot_name (clock w (S tick2)) := JsonText current]> st /\
          load_previous_snapshot st' = Ok current /\
          format_report today current [] (PDict []) = Ok report /\
          exists head, report = head +:+ alerts_section []
    | (_, Raise e) => e = NotModelled \/ e = ValueError
    end.
Proof.
  intros loads today w tick st wallets Hwallets Hwatched Hempty.
  unfold sweep.
  pose proof (sweep_readings_first loads w tick st wallets Hwallets Hwatched
                Hempty) as Hread.
  destruct (sweep_readings loads w tick st)
    as [[[[current previous] alerts] tick'] | e]; [| exact Hread].
  destruct Hread
    as (-> & -> & tokens & wd & pd & tick1 & tick2 & Ht & Hcw & Hcp & -> & ->
        & Hw & Hp).
  pose proof (format_report_on_records today (isoformat (clock w tick2)) wd pd
                tokens [] (PDict []) Hw Hp) as Hreport.
  destruct (format_report today _ [] (PDict [])) as [report | e] eqn:E;
    cbn [bind]; [| left; exact Hreport].
  split; [reflexivity |].
  exists tokens, wd, pd, tick1, tick2.
  split; [exact Ht |]. split; [exact Hcw |]. split; [exact Hcp |].
  cbn zeta. split; [reflexivity |]. split; [| split; [exact E |]].
  - apply (load_after_save st (clock w (S tick2))). intros name Hin.
    rewrite Hempty in Hin. inversion Hin.
  - destruct (format_report_tail _ _ _ _ _ E) as (head & -> & _). eauto.
Qed.

Lemma sweep_readings_inv (loads : string -> option pyval) (w : world)
  (tick tick' : nat) (st : store) (current previous : pyval)
  (alerts : list string) :
  sweep_readings loads w tick st = Ok (current, previous, alerts, tick') ->
  load_previous_snapshot st = Ok previous /\
  detect_changes current previous = Ok alerts.
Proof.
  unfold sweep_readings.
  destruct (Str.int_of_string _); cbn [bind]; [| discriminate].
  destruct (get_watchlist_tokens w); cbn [bind]; [| discriminate].
  destruct (Py.iter _); cbn [bind]; [| discriminate].
  destruct (check_wallets _ _ _) as [[wd t1] |]; cbn [bind]; [| discriminate].
  destruct (check_prices _ _ _) as [[pd t2] |]; cbn [bind]; [| discriminate].
  destruct (load_previous_snapshot st) as [prev |]; cbn [bind]; [| discriminate].
  destruct (detect_changes _ prev) as [al |] eqn:E; cbn [bind]; [| discriminate].
  intros [= <- <- <- <-]. auto.
Qed.

(** X17. Under a clock that does not go back, on a store written by
    sweeps, the alerts a sweep returns compare the snapshot it leaves as
    the latest with the one that was the latest before, and its report
    is the report of these. *)
Theorem sweep_compares_latest_snapshots :
  forall (loads : string -> option pyval) (today : string) (w : world)
         (tick : nat) (st : store),
    (forall t, calendar (clock w t) = true) ->
    (forall t, written_until st (clock w t)) ->
    match sweep loads today w tick st with
    | (st', Ok (alerts, report)) =>
        exists current previous,
          load_previous_snapshot st = Ok previous /\
          load_previous_snapshot st' = Ok current /\
          detect_changes current previous = Ok alerts /\
          format_report today current alerts previous = Ok report
    | (st', Raise e) => True
    end.
Proof.
  intros loads today w tick st Hclock Hstore. unfold sweep.
  destruct (sweep_readings loads w tick st)
    as [[[[current previous] alerts] tick'] | e] eqn:Hread; [| exact I].
  apply sweep_readings_inv in Hread as [Hload Hdetect].
  destruct (format_report today current alerts previous) as [report |] eqn:E;
    cbn [bind]; [| exact I].
  exists current, previous. split; [exact Hload |].
  split; [| split; [exact Hdetect | exact E]].
  apply load_after_save.
  pose proof (written_until_sorted st (clock w tick') (Hclock tick')
                (Hstore tick')) as Hsorted.
  rewrite Forall_forall in Hsorted. exact Hsorted.
Qed.

(** ** A sweep during an outage *)

(** X18. With the network down and an endpoint [Request] accepts, as
    the default ones are, the balance of a watched wallet is recorded as
    0.0, with no error, and a wallet that had a positive balance is
    reported as having lost all of it. *)
Theorem outage_reads_as_drained_wallet :
  forall (w : world) (msg : string) (tick : nat) (a label : string)
         (prev_wallets : gmap string pyval) (pd : list (string * pyval))
         (m : positive) (e : Z) (alerts : list string),
    offline w msg ->
    Url.request (get_solana_rpc w) = Ok tt ->
    F64.is_ascii a = true ->
    a <> "" ->
    prev_wallets !! a = Some (PDict pd) ->
    Py.dict_find "balance_sol" pd = Some (PFloat (S754_finite false m e)) ->
    exists obs,
      check_wallets w tick [PDict [("address", PStr a); ("label", PStr label)]]
      = Ok ([obs], S tick) /\
      Py.get obs "balance_sol" PNone = Ok (PFloat F64.pzero) /\
      Py.get obs "error" PNone = Ok PNone /\
      wallet_body prev_wallets alerts obs =
      Ok (alerts ++
          ["Wallet " +:+ label +:+ ": Balance decreased by 100.0% (" +:+
           F64.format_f 4 (S754_finite false m e) +:+ " -> 0.0000 SOL)"]).
Proof.
  intros w msg tick a label prev_wallets pd m e alerts Hoff Hurl Hascii Hne
    Hfound Hprev.
  assert (Hbalance : get_balance w (PStr a) = Ok (PFloat F64.pzero)).
  { unfold get_balance. rewrite (rpc_call_offline w msg) by assumption.
    reflexivity. }
  assert (Htruthy : String.eqb a "" = false) by (apply String.eqb_neq, Hne).
  eexists. split; [| split; [| split]].
  - unfold check_wallets. cbn [for_each]. unfold check_wallets_body.
    cbn [Py.get Py.dict_find bind from_option id Py.slice_to].
    simpl. rewrite Hascii. cbn [bind]. simpl. rewrite Htruthy. cbn [negb].
    rewrite Hbalance. cbn [bind try_except]. reflexivity.
  - reflexivity.
  - reflexivity.
  - rewrite (wallet_body_compared prev_wallets alerts _ pd a label F64.pzero
               (S754_finite false m e)); try reflexivity; try assumption.
    change (F64.ltb F64.pzero (S754_finite false m e)) with true.
    rewrite change_pct_to_zero. unfold wallet_alert.
    rewrite change_pct_to_zero. reflexivity.
Qed.

(** ** The order of the previous snapshot *)

Lemma index_by_permutation (field : string) (xs ys : list pyval) :
  xs ≡ₚ ys ->
  forallb (has_key field) xs = true ->
  NoDup (map (key_of field) xs) ->
  index_by field xs = index_by field ys.
Proof.
  intros Hperm Hkeyed Hnodup.
  assert (Hkeyed' : forallb (has_key field) ys = true).
  { rewrite forallb_forall in *. intros y Hy. apply Hkeyed.
    apply list_elem_of_In. rewrite Hperm. apply list_elem_of_In, Hy. }
  assert (Hnodup' : NoDup (map (key_of field) ys)).
  { rewrite <- Hperm. exact Hnodup. }
  unfold index_by.
  destruct (index_total field xs ∅ Hkeyed) as [m Hm].
  destruct (index_total field ys ∅ Hkeyed') as [m' Hm'].
  rewrite Hm, Hm'. f_equal. apply map_eq. intros k.
  destruct (decide (Some k ∈ map (key_of field) xs)) as [Hin | Hout].
  - apply list_elem_of_fmap in Hin as (x & Hkey & Hx).
    rewrite (index_lookup_nodup field xs ∅ m x k Hm Hnodup Hx) by congruence.
    rewrite Hperm in Hx.
    rewrite (index_lookup_nodup field ys ∅ m' x k Hm' Hnodup' Hx)
      by congruence.
    reflexivity.
  - rewrite (index_lookup_other field xs ∅ m k Hm Hout).
    rewrite Hperm in Hout.
    rewrite (index_lookup_other field ys ∅ m' k Hm' Hout).
    reflexivity.
Qed.

(** X19. When the addresses of the previous snapshot are distinct, and
    its symbols, the order of its observations does not matter: every
    current snapshot is compared with the same result. *)
Theorem previous_order_is_irrelevant :
  forall (current : pyval) (timestamp timestamp' : string)
         (wallets wallets' prices prices' : list pyval),
    wallets ≡ₚ wallets' ->
    prices ≡ₚ prices' ->
    forallb (has_key "address") wallets = true ->
    forallb (has_key "symbol") prices = true ->
    NoDup (map (key_of "address") wallets) ->
    NoDup (map (key_of "symbol") prices) ->
    detect_changes current (snapshot_at timestamp wallets prices)
    = detect_changes current (snapshot_at timestamp' wallets' prices').
Proof.
  intros current ts ts' ws ws' ps ps' Hw Hp Hkw Hkp Hnw Hnp.
  unfold detect_changes, snapshot_at.
  change (Py.get (PDict [("timestamp", PStr ts); ("wallets", PList ws);
                         ("prices", PList ps)]) "wallets" (PList []))
    with (Ok (PList ws)).
  change (Py.get (PDict [("timestamp", PStr ts); ("wallets", PList ws);
                         ("prices", PList ps)]) "prices" (PList []))
    with (Ok (PList ps)).
  change (Py.get (PDict [("timestamp", PStr ts'); ("wallets", PList ws');
                         ("prices", PList ps')]) "wallets" (PList []))
    with (Ok (PList ws')).
  change (Py.get (PDict [("timestamp", PStr ts'); ("wallets", PList ws');
                         ("prices", PList ps')]) "prices" (PList []))
    with (Ok (PList ps')).
  cbn [bind Py.iter].
  rewrite (index_by_permutation "address" ws ws' Hw Hkw Hnw).
  rewrite (index_by_permutation "symbol" ps ps' Hp Hkp Hnp).
  reflexivity.
Qed.

(** ** Comparing what two sweeps recorded *)

Lemma wallet_record_valid (o : pyval) :
  wallet_record o = true -> valid_wallet o = true.
Proof.
  destruct o as [| | | | | | d]; try discriminate.
  unfold wallet_record, valid_wallet. rewrite !andb_true_iff.
  intros [[-> ->] Hb]. split; [auto |].
  destruct (Py.dict_find "balance_sol" d) as [[| | | f | | |] |];
    try discriminate; reflexivity.
Qed.

Lemma float_raises (v : pyval) :
  match Py.float_ v with
  | Ok _ => True
  | Raise e =>
      e = ValueError \/ e = TypeError \/ e = OverflowError \/ e = NotModelled
  end.
Proof.
  destruct v as [| b | z | f | s | l | d]; cbn [Py.float_]; auto.
  - unfold Py.as_num, Py.to_float. cbn [bind].
    destruct (F64.is_inf _); auto.
  - unfold Py.as_num, Py.to_float. cbn [bind].
    destruct (F64.is_inf _); auto.
  - exact I.
  - destruct (F64.is_ascii s); [| auto 6].
    destruct (F64.of_string s); auto.
Qed.

(** One iteration of the price loop on what [check_prices] records. *)
Lemma price_body_record (prev_prices : gmap string pyval)
  (alerts : list string) (token : string) (o : pyval) :
  price_record token o = true ->
  (forall k x, prev_prices !! k = Some x -> exists d, x = PDict d) ->
  match price_body prev_prices alerts o with
  | Ok alerts' => exists l, alerts' = alerts ++ l /\ (length l <= 1)%nat
  | Raise e => e = OverflowError \/ e = NotModelled
  end.
Proof.
  intros Ho Hindex. destruct o as [| | | | | | d]; try discriminate.
  unfold price_record in Ho. apply andb_true_iff in Ho as [Hs _].
  destruct (Py.dict_find "symbol" d) as [[| | | | sym | |] |] eqn:Hsym;
    try discriminate.
  assert (Hnone : exists l : list string,
             alerts = alerts ++ l /\ (length l <= 1)%nat).
  { exists []. split; [symmetry; apply app_nil_r | simpl; lia]. }
  unfold price_body, Py.getitem. rewrite Hsym. cbn [bind Py.key].
  destruct (prev_prices !! sym) as [prev |] eqn:Hfound; [| exact Hnone].
  destruct (Hindex _ _ Hfound) as [pd ->].
  cbn [Py.get bind].
  pose proof (float_raises (from_option id (PInt 0) (Py.dict_find "price_usd" d)))
    as Hc.
  destruct (Py.float_ (from_option id (PInt 0) (Py.dict_find "price_usd" d)))
    as [c | ec]; cbn [bind except_value_type].
  2: { destruct Hc as [-> | [-> | [-> | ->]]]; cbn [except_value_type]; auto. }
  pose proof (float_raises (from_option id (PInt 0) (Py.dict_find "price_usd" pd)))
    as Hp.
  destruct (Py.float_ (from_option id (PInt 0) (Py.dict_find "price_usd" pd)))
    as [p | ep]; cbn [bind except_value_type].
  2: { destruct Hp as [-> | [-> | [-> | ->]]]; cbn [except_value_type]; auto. }
  destruct (F64.ltb F64.pzero p); cbn [except_value_type]; [| exact Hnone].
  destruct (F64.ltb (F64.of_Z 10) _); cbn [Py.str_ bind except_value_type];
    [| exact Hnone].
  eexists. split; [reflexivity | simpl; lia].
Qed.

Lemma for_each_price_records (prev_prices : gmap string pyval)
  (tokens : list string) (obs : list pyval) :
  Forall2 (fun token o => price_record token o = true) tokens obs ->
  (forall k x, prev_prices !! k = Some x -> exists d, x = PDict d) ->
  forall alerts,
    match for_each (price_body prev_prices) obs alerts with
    | Ok alerts' =>
        exists l, alerts' = alerts ++ l /\ (length l <= length obs)%nat
    | Raise e => e = OverflowError \/ e = NotModelled
    end.
Proof.
  intros Hobs Hindex.
  induction Hobs as [| token o tokens obs Ho _ IH]; intros alerts;
    cbn [for_each].
  - exists []. split; [symmetry; apply app_nil_r | simpl; lia].
  - pose proof (price_body_record prev_prices alerts token o Ho Hindex) as Hstep.
    destruct (price_body prev_prices alerts o) as [alerts1 | e]; cbn [bind];
      [| exact Hstep].
    destruct Hstep as (l1 & -> & Hl1).
    specialize (IH (alerts ++ l1)).
    destruct (for_each (price_body prev_prices) obs (alerts ++ l1))
      as [alerts2 | e]; [| exact IH].
    destruct IH as (l2 & -> & Hl2). exists (l1 ++ l2).
    split; [symmetry; apply app_assoc |].
    rewrite length_app. simpl. lia.
Qed.

Lemma price_records_index (tokens : list string) (obs : list pyval) :
  Forall2 (fun token o => price_record token o = true) tokens obs ->
  exists m, index_by "symbol" obs = Ok m /\
            forall k x, m !! k = Some x -> exists d, x = PDict d.
Proof.
  intros Hobs.
  destruct (index_total "symbol" obs ∅ (price_record_keyed tokens obs Hobs))
    as [m Hm].
  exists m. split; [exact Hm |]. intros k x Hfound.
  destruct (index_lookup_inv _ _ _ _ _ _ Hm Hfound) as [Hempty | [Hin _]].
  - rewrite lookup_empty in Hempty. discriminate.
  - apply list_elem_of_In in Hin.
    apply (Forall2_Forall_r _ (fun o => exists d, o = PDict d)) in Hobs.
    + rewrite List.Forall_forall in Hobs. apply Hobs, Hin.
    + apply Forall_forall. intros token _ o Ho.
      destruct o; try discriminate. eauto.
Qed.

(** X20. Comparing what two sweeps recorded raises no Python exception
    but [OverflowError], and at most one alert for each observation of
    the current one. *)
Theorem detect_changes_on_sweep_records :
  forall (timestamp timestamp' : string)
         (wallets wallets' prices prices' : list pyval)
         (tokens tokens' : list string),
    forallb wallet_record wallets = true ->
    forallb wallet_record wallets' = true ->
    Forall2 (fun token o => price_record token o = true) tokens prices ->
    Forall2 (fun token o => price_record token o = true) tokens' prices' ->
    match
      detect_changes (snapshot_at timestamp wallets prices)
                     (snapshot_at timestamp' wallets' prices')
    with
    | Ok alerts => (length alerts <= length wallets + length prices)%nat
    | Raise e => e = OverflowError \/ e = NotModelled
    end.
Proof.
  intros ts ts' ws ws' ps ps' tokens tokens' Hw Hw' Hp Hp'.
  unfold detect_changes, snapshot_at.
  change (Py.get (PDict [("timestamp", PStr ts); ("wallets", PList ws);
                         ("prices", PList ps)]) "wallets" (PList []))
    with (Ok (PList ws)).
  change (Py.get (PDict [("timestamp", PStr ts); ("wallets", PList ws);
                         ("prices", PList ps)]) "prices" (PList []))
    with (Ok (PList ps)).
  change (Py.get (PDict [("timestamp", PStr ts'); ("wallets", PList ws');
                         ("prices", PList ps')]) "wallets" (PList []))
    with (Ok (PList ws')).
  change (Py.get (PDict [("timestamp", PStr ts'); ("wallets", PList ws');
                         ("prices", PList ps')]) "prices" (PList []))
    with (Ok (PList ps')).
  cbn [bind Py.iter].
  assert (Hvalid : forall l, forallb wallet_record l = true ->
                             forallb valid_wallet l = true).
  { intros l Hl. rewrite forallb_forall in *. intros x Hx.
    apply wallet_record_valid, Hl, Hx. }
  destruct (index_by_valid valid_wallet "address" ws' valid_wallet_keyed
              (Hvalid _ Hw')) as (pw & -> & Hpw).
  cbn [bind].
  destruct (for_each_appends (wallet_body pw) ws) as (was & Hwas & ->).
  { apply Forall_forall. intros x Hx. apply wallet_body_valid; [| exact Hpw].
    pose proof (Hvalid _ Hw) as Hall. rewrite forallb_forall in Hall.
    apply Hall, list_elem_of_In, Hx. }
  cbn [bind app].
  destruct (price_records_index tokens' ps' Hp') as (pp & -> & Hpp).
  cbn [bind].
  pose proof (for_each_price_records pp tokens ps Hp Hpp (concat was)) as Hrun.
  destruct (for_each (price_body pp) ps (concat was)) as [alerts | e];
    [| exact Hrun].
  destruct Hrun as (l & -> & Hl). rewrite length_app.
  assert (Hlen : (length (concat was) <= length ws)%nat).
  { clear -Hwas. induction Hwas as [| x l xs ls [_ Hx] _ IH]; [simpl; lia |].
    simpl. rewrite length_app. lia. }
  lia.
Qed.

(** The [OverflowError] is that of a price too large for a float. *)
Example detect_changes_overflows :
  let huge := PDict [("symbol", PStr "SOL"); ("price_usd", PInt (10 ^ 400));
                     ("change_24h", PStr "N/A"); ("volume_24h", PStr "N/A");
                     ("liquidity_usd", PStr "N/A"); ("dex", PStr "raydium");
                     ("timestamp", PStr (isoformat at_13_56_40))] in
  price_record "SOL" huge = true /\
  detect_changes (snapshot_of [] [huge]) (sol_at "163.9") = Raise OverflowError.
Proof.
  split; vm_compute; reflexivity.
Qed.

(** ** The store over time *)

(** X13. The names of two snapshots are equal exactly when they were
    written in the same minute, and otherwise sort as the times do. *)
Theorem snapshot_names_sort_as_times :
  forall t1 t2 : datetime,
    calendar t1 = true -> calendar t2 = true ->
    (snapshot_name t1 = snapshot_name t2 <-> compare_minutes t1 t2 = Eq) /\
    (String.ltb (snapshot_name t1) (snapshot_name t2) = true
     <-> compare_minutes t1 t2 = Lt).
Proof.
  intros t1 t2 H1 H2. unfold String.ltb.
  rewrite <- (snapshot_name_compare t1 t2 H1 H2). split.
  - split; [intros ->; apply compare_refl | apply String.compare_eq_iff].
  - destruct (snapshot_name t1 ?= snapshot_name t2)%string; split;
      congruence.
Qed.

Lemma save_all_snoc (st : store) (writes : list (datetime * pyval))
  (now : datetime) (data : pyval) :
  save_all st (writes ++ [(now, data)])
  = snd (save_snapshot (save_all st writes) now data).
Proof. unfold save_all. rewrite fold_left_app. reflexivity. Qed.

Lemma written_until_save_all (writes : list (datetime * pyval)) :
  Forall (fun write => calendar (fst write) = true) writes ->
  StronglySorted not_after (map fst writes) ->
  forall later,
    calendar later = true ->
    Forall (fun write => not_after (fst write) later) writes ->
    written_until (save_all ∅ writes) later.
Proof.
  induction writes as [| [now data] writes IH] using rev_ind;
    intros Hcal Hsorted later Hlater Hbefore.
  - apply written_until_empty.
  - rewrite save_all_snoc.
    apply Forall_app in Hcal as [Hcal Hnow].
    apply Forall_app in Hbefore as [Hbefore Hnow_later].
    rewrite Forall_singleton in Hnow, Hnow_later.
    simpl in Hnow, Hnow_later.
    rewrite map_app in Hsorted. simpl in Hsorted.
    apply written_until_save; [exact Hnow | exact Hlater | exact Hnow_later |].
    apply IH; [exact Hcal | | exact Hnow |].
    + apply StronglySorted_app_1_l in Hsorted. exact Hsorted.
    + apply Forall_forall. intros [t d] Hin.
      apply (StronglySorted_app_1_elem_of not_after (map fst writes) [now]);
        [exact Hsorted | | apply list_elem_of_singleton; reflexivity].
      apply list_elem_of_fmap. exists (t, d). auto.
Qed.

(** X14. After any series of sweeps from the empty store under a clock
    that does not go back, the snapshot loaded is the one saved last. *)
Theorem latest_is_last_saved :
  forall (writes : list (datetime * pyval)) (now : datetime) (data : pyval),
    Forall (fun write => calendar (fst write) = true) writes ->
    calendar now = true ->
    StronglySorted not_after (map fst writes ++ [now]) ->
    load_previous_snapshot (save_all ∅ (writes ++ [(now, data)])) = Ok data.
Proof.
  intros writes now data Hcal Hnow Hsorted. rewrite save_all_snoc.
  apply load_after_save.
  assert (Hst : written_until (save_all ∅ writes) now).
  { apply written_until_save_all; try assumption.
    - apply StronglySorted_app_1_l in Hsorted. exact Hsorted.
    - apply Forall_forall. intros [t d] Hin.
      apply (StronglySorted_app_1_elem_of not_after (map fst writes) [now]);
        [exact Hsorted | | apply list_elem_of_singleton; reflexivity].
      apply list_elem_of_fmap. exists (t, d). auto. }
  pose proof (written_until_sorted _ now Hnow Hst) as Hle.
  rewrite Forall_forall in Hle. exact Hle.
Qed.

(** X15. When the file whose name sorts last does not hold JSON,
    [load_previous_snapshot] raises; it does not fall back on an older
    snapshot. *)
Theorem unreadable_latest_is_not_skipped :
  forall (st : store) (top text : string),
    st !! top = Some (OtherText text) ->
    is_json_name top = true ->
    (forall n, n ∈ glob_json st -> String.le n top) ->
    load_previous_snapshot st = Raise JSONDecodeError.
Proof.
  intros st top text Hfile Hjson Hmax. unfold load_previous_snapshot.
  rewrite (last_sorted_greatest (glob_json st) top).
  - rewrite Hfile. reflexivity.
  - apply elem_of_glob_json. split; [eexists; exact Hfile | exact Hjson].
  - exact Hmax.
Qed.

(** ** An outage, the prices *)

Lemma check_prices_body_offline (w : world) (msg : string)
  (results : list pyval) (tick : nat) (token : string) :
  offline w msg ->
  check_prices_body w (results, tick) token
  = Ok (results ++ [no_pairs_obs token], tick).
Proof.
  intros Hoff. unfold check_prices_body.
  rewrite (dex_search_offline w msg) by exact Hoff. reflexivity.
Qed.

(** X21. With the network down [check_prices] records every token as
    having no pairs: the message of the failure is not kept. *)
Theorem outage_reads_as_no_pairs :
  forall (w : world) (msg : string) (tick : nat) (tokens : list string),
    offline w msg ->
    check_prices w tick tokens = Ok (map no_pairs_obs tokens, tick).
Proof.
  intros w msg tick tokens Hoff. unfold check_prices.
  change (map no_pairs_obs tokens) with ([] ++ map no_pairs_obs tokens).
  generalize (@nil pyval) as acc.
  induction tokens as [| token tokens IH]; intros acc; cbn [for_each].
  - rewrite app_nil_r. reflexivity.
  - rewrite (check_prices_body_offline w msg) by exact Hoff. cbn [bind].
    rewrite IH, <- app_assoc. reflexivity.
Qed.

(** ** The pairs of a price check *)

(** The block of a pair does not depend on the lines before it. *)
Lemma price_lines_body_block (lines : list string) (pair_ : pyval) :
  price_lines_body lines pair_ =
  (let* block := price_lines_body [] pair_ in Ok (lines ++ block)).
Proof.
  unfold price_lines_body.
  repeat match goal with
    | |- context [bind ?r _] => destruct r; cbn [bind]; [| reflexivity]
    end.
  reflexivity.
Qed.

Lemma price_lines_body_one (pair_ : pyval) (block : list string) :
  price_lines_body [] pair_ = Ok block -> exists b, block = [b].
Proof.
  unfold price_lines_body.
  repeat match goal with
    | |- context [bind ?r _] => destruct r; cbn [bind]; [| discriminate]
    end.
  intros [= <-]. eauto.
Qed.

(** The loop over the pairs returns exactly when each pair has its
    block, and then appends the blocks in the order of the pairs. *)
Lemma for_each_price_lines (items : list pyval) :
  forall lines lines',
    for_each price_lines_body items lines = Ok lines' <->
    exists blocks,
      Forall2 (fun p b => price_lines_body [] p = Ok [b]) items blocks /\
      lines' = lines ++ blocks.
Proof.
  induction items as [| item items IH]; intros lines lines'; cbn [for_each].
  - split.
    + intros [= <-]. exists []. split; [constructor | symmetry; apply app_nil_r].
    + intros (blocks & Hall & ->). inversion Hall; subst.
      rewrite app_nil_r. reflexivity.
  - rewrite price_lines_body_block.
    destruct (price_lines_body [] item) as [block |] eqn:E; cbn [bind].
    + destruct (price_lines_body_one _ _ E) as [b ->].
      rewrite IH. split.
      * intros (blocks & Hall & ->). exists (b :: blocks).
        split; [constructor; assumption | rewrite <- app_assoc; reflexivity].
      * intros (blocks & Hall & ->). inversion Hall as [| ? b' ? bs Hb Hbs];
          subst. rewrite E in Hb. injection Hb as <-.
        exists bs. split; [exact Hbs | rewrite <- app_assoc; reflexivity].
    + split; [discriminate |].
      intros (blocks & Hall & _). inversion Hall as [| ? b' ? bs Hb Hbs]; subst.
      rewrite E in Hb. discriminate.
Qed.

(** X22. When the reply has no error and a list of pairs, one at least,
    [handle_price] returns exactly when each of the first three pairs
    has its block, and what it returns is the heading followed by the
    blocks of these pairs, in their order and of no other. *)
Theorem handle_price_shows_first_three :
  forall (w : world) (args : string) (d : list (string * pyval))
         (first : pyval) (others : list pyval) (out : string),
    answers w (PDict d) ->
    F64.is_ascii args = true ->
    Py.dict_find "error" d = None ->
    Py.dict_find "pairs" d = Some (PList (first :: others)) ->
    handle_price w args = Ok out <->
    exists blocks,
      Forall2 (fun p b => price_lines_body [] p = Ok [b])
        (take 3 (first :: others)) blocks /\
      out = Str.join nl
              (("## 🌐 Price Check: " +:+ price_token args +:+ nl) :: blocks).
Proof.
  intros w args d first others out Hnet Hascii Herror Hpairs.
  unfold handle_price. rewrite Hascii. cbn [negb].
  fold (price_token args).
  assert (Hdata : match mint_of WELL_KNOWN_MINTS (price_token args) with
                  | Some mint => dex_get_token_pairs w "solana" mint
                  | None => dex_search w (Str.strip args)
                  end = Ok (PDict d)).
  { destruct (mint_of WELL_KNOWN_MINTS (price_token args)) as [mint |] eqn:Hm.
    - rewrite (token_pairs_go_out w _ mint Hm). unfold fetch_reply.
      rewrite Hnet. reflexivity.
    - rewrite dex_search_goes_out. unfold fetch_reply. rewrite Hnet.
      reflexivity. }
  rewrite Hdata. cbn [bind Str.contains].
  rewrite Herror.
  rewrite bool_decide_eq_false_2 by (intros [? ?]; discriminate).
  cbn [Py.get bind]. rewrite Hpairs. cbn [from_option id bind Py.truthy negb].
  cbn [Py.slice_to bind Py.iter].
  split.
  - destruct (for_each price_lines_body _ _) as [lines |] eqn:Hrun;
      cbn [bind]; [| discriminate].
    intros [= <-]. apply for_each_price_lines in Hrun as (blocks & Hall & ->).
    exists blocks. split; [exact Hall | reflexivity].
  - intros (blocks & Hall & ->).
    assert (Hrun : for_each price_lines_body (take 3 (first :: others))
                     ["## 🌐 Price Check: " +:+ price_token args +:+ nl]
                   = Ok (["## 🌐 Price Check: " +:+ price_token args +:+ nl]
                         ++ blocks)).
    { apply for_each_price_lines. exists blocks. auto. }
    rewrite Hrun. reflexivity.
Qed.

(** X23. A wallet whose balance could not be read is recorded with the
    message of the exception and no balance, and raises no alert,
    whatever its balance was before. *)
Theorem failed_wallet_reading_raises_no_alert :
  forall (w : world) (tick : nat) (a label : string) (e : exn)
         (prev_wallets : gmap string pyval) (alerts : list string),
    F64.is_ascii a = true ->
    a <> "" ->
    get_balance w (PStr a) = Raise e ->
    e <> NotModelled ->
    exists obs,
      check_wallets w tick [PDict [("address", PStr a); ("label", PStr label)]]
      = Ok ([obs], tick) /\
      Py.get obs "balance_sol" (PInt 0) = Ok PNone /\
      Py.get obs "error" PNone = Ok (PStr (exn_str w e)) /\
      wallet_body prev_wallets alerts obs = Ok alerts.
Proof.
  intros w tick a label e prev_wallets alerts Hascii Hne Hraise Hmodelled.
  assert (Htruthy : String.eqb a "" = false) by (apply String.eqb_neq, Hne).
  eexists. split; [| split; [| split]].
  - unfold check_wallets. cbn [for_each]. unfold check_wallets_body.
    simpl. rewrite Hascii. cbn [bind]. simpl. rewrite Htruthy. cbn [negb].
    rewrite Hraise. cbn [bind try_except].
    destruct e; try reflexivity. congruence.
  - reflexivity.
  - reflexivity.
  - apply (wallet_body_unread _ _ _ a); reflexivity.
Qed.

(** ** Instances *)

Lemma offline_world_is_offline (environ : gmap string string) :
  offline (offline_world environ) "timed out".
Proof. intros r. exists Timeout. reflexivity. Qed.

Lemma watchlist_tokens_are_normal_witness :
  get_watchlist_tokens watching_world = Ok ["SOL"; "BONK"; "JUP"] /\
  Forall normal_token ["SOL"; "BONK"; "JUP"].
Proof.
  assert (H : get_watchlist_tokens watching_world = Ok ["SOL"; "BONK"; "JUP"])
    by (vm_compute; reflexivity).
  split; [exact H |].
  exact (watchlist_tokens_are_normal watching_world _ H).
Defined.

Lemma watchlist_tokens_reparse_witness :
  get_watchlist_tokens watching_world = Ok ["SOL"; "BONK"; "JUP"] /\
  get_watchlist_tokens
    (offline_world {[ "SOLANA_WATCHLIST" := Str.join "," ["SOL"; "BONK"; "JUP"] ]})
  = Ok ["SOL"; "BONK"; "JUP"].
Proof.
  assert (H : get_watchlist_tokens watching_world = Ok ["SOL"; "BONK"; "JUP"])
    by (vm_compute; reflexivity).
  split; [exact H |].
  apply (watchlist_tokens_reparse watching_world _ _ H).
  vm_compute. reflexivity.
Defined.

Lemma check_wallets_never_raises_witness :
  forallb watched_wallet [treasury_entry] = true /\
  match check_wallets watching_world 0 [treasury_entry] with
  | Ok (results, _) =>
      forallb wallet_record results = true /\
      map (key_of "address") results =
      List.filter nonempty_key (map (key_of "address") [treasury_entry])
  | Raise e => e = NotModelled
  end.
Proof.
  split; [reflexivity |].
  apply (check_wallets_never_raises watching_world 0 [treasury_entry]).
  reflexivity.
Defined.

Lemma quote_is_url_safe_witness :
  forallb unreserved_char (list_ascii_of_string "So1111/x_y.z-~") = true /\
  quote "So1111/x_y.z-~" = "So1111/x_y.z-~".
Proof.
  split; [reflexivity |].
  apply (proj2 (quote_is_url_safe "So1111/x_y.z-~")). reflexivity.
Defined.

Lemma handle_price_reports_failure_witness :
  handle_price watching_world " bonk " = Ok "Failed to fetch price data: timed out".
Proof.
  apply (handle_price_reports_failure watching_world "timed out" " bonk ").
  - apply offline_world_is_offline.
  - reflexivity.
Defined.

Lemma handle_quote_reports_failure_witness :
  handle_quote watching_world "sol usdc 1.5" = Ok "Jupiter quote failed: timed out" /\
  ("Jupiter quote failed: timed out"
   = "Usage: `/sol quote <from_token> <to_token> <amount>`" +:+ nl +:+
     "Example: `/sol quote SOL USDC 1`" \/
   (exists amount,
       "Jupiter quote failed: timed out" = "Invalid amount: " +:+ amount) \/
   "Jupiter quote failed: timed out" = "Jupiter quote failed: " +:+ "timed out").
Proof.
  assert (H : handle_quote watching_world "sol usdc 1.5"
              = Ok "Jupiter quote failed: timed out")
    by (vm_compute; reflexivity).
  split; [exact H |].
  exact (handle_quote_reports_failure watching_world "timed out" _ _
           (offline_world_is_offline _) H).
Defined.

Lemma handle_balance_offline_reads_zero_witness :
  get_solana_rpc watching_world = "https://api.mainnet-beta.solana.com" /\
  handle_balance watching_world treasury_address
  = Ok (Str.join nl
          ["## 🌐 Wallet Balance" +:+ nl;
           "**Address:** `9WzDXwBb...AWWM`" +:+ nl;
           "**Balance:** 0.0000 SOL" +:+ nl;
           "**Network:** mainnet-beta" +:+ nl]).
Proof.
  split; [reflexivity |].
  apply (handle_balance_offline_reads_zero watching_world "timed out"
           treasury_address).
  - apply offline_world_is_offline.
  - reflexivity.
  - reflexivity.
  - vm_compute. discriminate.
Defined.

Lemma handle_network_offline_reads_zero_witness :
  get_solana_rpc watching_world = "https://api.mainnet-beta.solana.com" /\
  handle_network watching_world
  = Ok (String.concat nl
          ["## 🌐 Solana Network Status" +:+ nl;
           "**Current Slot:** 0" +:+ nl;
           "**Latest Blockhash:** `...`" +:+ nl;
           "**Network:** mainnet-beta" +:+ nl]).
Proof.
  split; [reflexivity |].
  apply (handle_network_offline_reads_zero watching_world "timed out").
  - apply offline_world_is_offline.
  - reflexivity.
Defined.

Lemma endpoint_without_type_raises_witness :
  get_solana_rpc hostname_world = "api.devnet.solana.com" /\
  Url.request (get_solana_rpc hostname_world) = Raise ValueError /\
  get_balance hostname_world (PStr treasury_address) = Raise ValueError /\
  handle_network hostname_world = Raise ValueError /\
  handle_balance hostname_world treasury_address = Raise ValueError.
Proof.
  assert (H : Url.request (get_solana_rpc hostname_world) = Raise ValueError)
    by reflexivity.
  split; [reflexivity |]. split; [exact H |].
  apply (endpoint_without_type_raises hostname_world (PStr treasury_address)
           treasury_address H).
  - reflexivity.
  - vm_compute. discriminate.
Defined.

Lemma handle_quote_raises_on_unbounded_amount_witness :
  handle_quote watching_world "sol usdc 1e300" = Raise OverflowError /\
  handle_quote watching_world "sol usdc nan" = Raise ValueError.
Proof.
  split.
  - assert (H : F64.of_string "1e300"
                = Some (S754_finite false 6724873095247260 944))
      by (vm_compute; reflexivity).
    exact (handle_quote_raises_on_unbounded_amount watching_world
             "sol usdc 1e300" "sol" "usdc" "1e300" [] _ eq_refl eq_refl H).
  - exact (handle_quote_raises_on_unbounded_amount watching_world
             "sol usdc nan" "sol" "usdc" "nan" [] S754_nan
             eq_refl eq_refl eq_refl).
Defined.

Lemma format_report_ends_with_alerts_witness :
  match
    format_report "2026-11-03" snapshot_next
      ["SOL pumped 12.3% ($146.0000 -> $163.9000)"] snapshot_mixed
  with
  | Ok out =>
      exists head,
        out = head +:+
              alerts_section ["SOL pumped 12.3% ($146.0000 -> $163.9000)"]
  | Raise _ => False
  end.
Proof.
  pose proof (format_report_ends_with_alerts "2026-11-03" snapshot_next
                snapshot_mixed ["SOL pumped 12.3% ($146.0000 -> $163.9000)"])
    as H.
  destruct (format_report "2026-11-03" snapshot_next
              ["SOL pumped 12.3% ($146.0000 -> $163.9000)"] snapshot_mixed)
    as [out | e] eqn:E.
  - destruct (H out eq_refl) as (head & Hout & _). exists head. exact Hout.
  - vm_compute in E. discriminate E.
Defined.

Lemma format_report_accepts_sweep_records_witness :
  forallb wallet_record [wallet_obs treasury_address "treasury" (dec 25 (-1))]
  = true /\
  Forall2 (fun token o => price_record token o = true) ["SOL"; "BONK"]
    [price_obs "SOL" "163.9"; no_pairs_obs "BONK"] /\
  match
    format_report "2026-11-03"
      (snapshot_at "2026-11-03T13:56:05.120034+00:00"
         [wallet_obs treasury_address "treasury" (dec 25 (-1))]
         [price_obs "SOL" "163.9"; no_pairs_obs "BONK"])
      [] (PDict [])
  with
  | Ok out => exists head, out = head +:+ alerts_section []
  | Raise e => e = NotModelled
  end.
Proof.
  assert (Hw : forallb wallet_record
                 [wallet_obs treasury_address "treasury" (dec 25 (-1))] = true)
    by (vm_compute; reflexivity).
  assert (Hp : Forall2 (fun token o => price_record token o = true)
                 ["SOL"; "BONK"] [price_obs "SOL" "163.9"; no_pairs_obs "BONK"])
    by (repeat constructor).
  split; [exact Hw |]. split; [exact Hp |].
  exact (format_report_accepts_sweep_records "2026-11-03"
           "2026-11-03T13:56:05.120034+00:00" _ _ _ [] (PDict []) Hw Hp).
Defined.

Lemma snapshot_names_sort_as_times_witness :
  calendar at_13_56_05 = true /\ calendar at_14_26_02 = true /\
  (String.ltb (snapshot_name at_13_56_05) (snapshot_name at_14_26_02) = true
   <-> compare_minutes at_13_56_05 at_14_26_02 = Lt).
Proof.
  split; [reflexivity |]. split; [reflexivity |].
  exact (proj2 (snapshot_names_sort_as_times at_13_56_05 at_14_26_02
                  eq_refl eq_refl)).
Defined.

Lemma latest_is_last_saved_witness :
  StronglySorted not_after [at_13_56_05; at_13_56_40; at_14_26_02] /\
  load_previous_snapshot
    (save_all ∅ [(at_13_56_05, snapshot_a); (at_13_56_40, snapshot_b);
                 (at_14_26_02, snapshot_mixed)])
  = Ok snapshot_mixed.
Proof.
  assert (H : StronglySorted not_after [at_13_56_05; at_13_56_40; at_14_26_02]).
  { repeat constructor; discriminate. }
  split; [exact H |].
  apply (latest_is_last_saved
           [(at_13_56_05, snapshot_a); (at_13_56_40, snapshot_b)]
           at_14_26_02 snapshot_mixed).
  - repeat constructor.
  - reflexivity.
  - exact H.
Defined.

Lemma unreadable_latest_is_not_skipped_witness :
  let st : store :=
    <[ "snapshot-latest.json" := OtherText "{" ]>
      (snd (save_snapshot ∅ at_13_56_05 snapshot_a)) in
  Forall (fun n => String.le n "snapshot-latest.json") (glob_json st) /\
  load_previous_snapshot st = Raise JSONDecodeError.
Proof.
  intros st.
  assert (H : Forall (fun n => String.le n "snapshot-latest.json")
                (glob_json st)).
  { apply (bool_decide_eq_true_1 _). vm_compute. reflexivity. }
  split; [exact H |].
  apply (unreadable_latest_is_not_skipped st "snapshot-latest.json" "{").
  - vm_compute. reflexivity.
  - reflexivity.
  - rewrite Forall_forall in H. exact H.
Defined.

Lemma first_sweep_is_quiet_witness :
  let loads := fun _ : string => Some (PList [treasury_entry]) in
  get_watched_wallets loads watching_world = PList [treasury_entry] /\
  forallb watched_wallet [treasury_entry] = true /\
  glob_json (∅ : store) = [] /\
  match sweep loads "2026-11-03" watching_world 0 ∅ with
  | (st', Ok (alerts, report)) =>
      alerts = [] /\
      exists tokens wallet_data price_data tick1 tick2,
        get_watchlist_tokens watching_world = Ok tokens /\
        check_wallets watching_world 0 [treasury_entry]
        = Ok (wallet_data, tick1) /\
        check_prices watching_world tick1 tokens = Ok (price_data, tick2) /\
        let current :=
          snapshot_at (isoformat (clock watching_world tick2)) wallet_data
            price_data in
        st' = <[snapshot_name (clock watching_world (S tick2))
                := JsonText current]> ∅ /\
        load_previous_snapshot st' = Ok current /\
        format_report "2026-11-03" current [] (PDict []) = Ok report /\
        exists head, report = head +:+ alerts_section []
  | (_, Raise e) => e = NotModelled \/ e = ValueError
  end.
Proof.
  intros loads.
  split; [reflexivity |]. split; [reflexivity |]. split; [reflexivity |].
  exact (first_sweep_is_quiet loads "2026-11-03" watching_world 0 ∅
           [treasury_entry] eq_refl eq_refl eq_refl).
Defined.

Lemma sweep_compares_latest_snapshots_witness :
  let loads := fun _ : string => Some (PList [treasury_entry]) in
  (forall t, calendar (clock watching_world t) = true) /\
  (forall t, written_until (∅ : store) (clock watching_world t)) /\
  match sweep loads "2026-11-03" watching_world 0 ∅ with
  | (st', Ok (alerts, report)) =>
      exists current previous,
        load_previous_snapshot ∅ = Ok previous /\
        load_previous_snapshot st' = Ok current /\
        detect_changes current previous = Ok alerts /\
        format_report "2026-11-03" current alerts previous = Ok report
  | (st', Raise e) => True
  end.
Proof.
  intros loads.
  assert (Hclock : forall t, calendar (clock watching_world t) = true)
    by (intros t; reflexivity).
  assert (Hstore : forall t, written_until (∅ : store) (clock watching_world t))
    by (intros t; apply written_until_empty).
  split; [exact Hclock |]. split; [exact Hstore |].
  exact (sweep_compares_latest_snapshots loads "2026-11-03" watching_world 0 ∅
           Hclock Hstore).
Defined.

(** With an endpoint given as a host name, the wallet is recorded with
    the error and no balance, and no alert follows. *)
Example check_wallets_without_type :
  check_wallets hostname_world 0 [treasury_entry]
  = Ok ([PDict [("address", PStr treasury_address);
                ("label", PStr "treasury");
                ("balance_sol", PNone);
                ("error", PStr (exn_str hostname_world ValueError))]],
        0%nat) /\
  detect_changes
    (snapshot_at "t"
       [PDict [("address", PStr treasury_address);
               ("label", PStr "treasury");
               ("balance_sol", PNone);
               ("error", PStr (exn_str hostname_world ValueError))]] [])
    (snapshot_at "t'" [PDict treasury_before] [])
  = Ok [].
Proof. split; vm_compute; reflexivity. Qed.

Lemma outage_reads_as_drained_wallet_witness :
  exists obs,
    check_wallets watching_world 0 [treasury_entry] = Ok ([obs], 1%nat) /\
    Py.get obs "balance_sol" PNone = Ok (PFloat F64.pzero) /\
    Py.get obs "error" PNone = Ok PNone /\
    wallet_body {[ treasury_address := PDict treasury_before ]} [] obs =
    Ok ["Wallet treasury: Balance decreased by 100.0% (" +:+
        F64.format_f 4 (S754_finite false 5629499534213120 (-51)) +:+
        " -> 0.0000 SOL)"].
Proof.
  apply (outage_reads_as_drained_wallet watching_world "timed out" 0
           treasury_address "treasury"
           {[ treasury_address := PDict treasury_before ]} treasury_before
           5629499534213120 (-51) []).
  - apply offline_world_is_offline.
  - reflexivity.
  - reflexivity.
  - discriminate.
  - vm_compute. reflexivity.
  - reflexivity.
Defined.

Lemma previous_order_is_irrelevant_witness :
  let wallets := [wallet_obs treasury_address "treasury" (dec 25 (-1));
                  wallet_obs drained_address "drained" (dec 1 0)] in
  let wallets' := [wallet_obs drained_address "drained" (dec 1 0);
                   wallet_obs treasury_address "treasury" (dec 25 (-1))] in
  NoDup (map (key_of "address") wallets) /\
  detect_changes snapshot_next (snapshot_at "t" wallets [])
  = detect_changes snapshot_next (snapshot_at "t'" wallets' []).
Proof.
  intros wallets wallets'.
  assert (H : NoDup (map (key_of "address") wallets)).
  { apply (bool_decide_eq_true_1 _). vm_compute. reflexivity. }
  split; [exact H |].
  apply (previous_order_is_irrelevant snapshot_next "t" "t'" wallets wallets'
           [] []).
  - apply perm_swap.
  - reflexivity.
  - reflexivity.
  - reflexivity.
  - exact H.
  - constructor.
Defined.

Lemma detect_changes_on_sweep_records_witness :
  let wallets := [wallet_obs treasury_address "treasury" (dec 1100 (-1))] in
  let wallets' := [wallet_obs treasury_address "treasury" (dec 25 (-1))] in
  let prices := [price_obs "SOL" "163.9"; no_pairs_obs "BONK"] in
  let prices' := [price_obs "BONK" "0.00002341"; price_obs "SOL" "146.0"] in
  forallb wallet_record wallets = true /\
  forallb wallet_record wallets' = true /\
  Forall2 (fun token o => price_record token o = true) ["SOL"; "BONK"] prices /\
  Forall2 (fun token o => price_record token o = true) ["BONK"; "SOL"] prices' /\
  match
    detect_changes (snapshot_at "t" wallets prices)
                   (snapshot_at "t'" wallets' prices')
  with
  | Ok alerts => (length alerts <= length wallets + length prices)%nat
  | Raise e => e = OverflowError \/ e = NotModelled
  end.
Proof.
  intros wallets wallets' prices prices'.
  assert (Hw : forallb wallet_record wallets = true) by (vm_compute; reflexivity).
  assert (Hw' : forallb wallet_record wallets' = true)
    by (vm_compute; reflexivity).
  assert (Hp : Forall2 (fun token o => price_record token o = true)
                 ["SOL"; "BONK"] prices) by (repeat constructor).
  assert (Hp' : Forall2 (fun token o => price_record token o = true)
                  ["BONK"; "SOL"] prices') by (repeat constructor).
  split; [exact Hw |]. split; [exact Hw' |]. split; [exact Hp |].
  split; [exact Hp' |].
  exact (detect_changes_on_sweep_records "t" "t'" wallets wallets' prices
           prices' _ _ Hw Hw' Hp Hp').
Defined.

Lemma outage_reads_as_no_pairs_witness :
  check_prices watching_world 0 ["SOL"; "BONK"]
  = Ok ([no_pairs_obs "SOL"; no_pairs_obs "BONK"], 0%nat).
Proof.
  apply (outage_reads_as_no_pairs watching_world "timed out" 0 ["SOL"; "BONK"]).
  apply offline_world_is_offline.
Defined.

Lemma handle_price_shows_first_three_witness :
  answers four_pairs_world
    (PDict [("pairs", PList [PDict []; PDict []; PDict []; PDict []])]) /\
  handle_price four_pairs_world "bonk"
  = Ok (Str.join nl
          ["## 🌐 Price Check: BONK" +:+ nl;
           unknown_pair_block; unknown_pair_block; unknown_pair_block]).
Proof.
  assert (Hnet : answers four_pairs_world
                   (PDict [("pairs", PList [PDict []; PDict []; PDict [];
                                            PDict []])]))
    by (intros r; reflexivity).
  split; [exact Hnet |].
  apply (proj2 (handle_price_shows_first_three four_pairs_world "bonk" _
                  (PDict []) [PDict []; PDict []; PDict []] _
                  Hnet eq_refl eq_refl eq_refl)).
  exists [unknown_pair_block; unknown_pair_block; unknown_pair_block].
  split; [repeat constructor | reflexivity].
Defined.

Lemma failed_wallet_reading_raises_no_alert_witness :
  exists obs,
    check_wallets lists_world 0 [treasury_entry] = Ok ([obs], 0%nat) /\
    Py.get obs "balance_sol" (PInt 0) = Ok PNone /\
    Py.get obs "error" PNone = Ok (PStr (exn_str lists_world AttributeError)) /\
    wallet_body {[ treasury_address := PDict treasury_before ]} [] obs = Ok [].
Proof.
  apply (failed_wallet_reading_raises_no_alert lists_world 0 treasury_address
           "treasury" AttributeError
           {[ treasury_address := PDict treasury_before ]} []).
  - reflexivity.
  - discriminate.
  - reflexivity.
  - discriminate.
Defined.
